(** * K-cup storefront: cart ledger and order placement

    A shallow embedding of the storage layer (class [DatabaseStorage]) and of
    the cart and order routes registered by [registerRoutes], over the tables
    declared in the shared schema.

    - Tables are lists of rows in insertion order; a [serial] primary key is
      drawn from the table's sequence, kept in the database state, unless
      the inserted values carry an id.
    - [decimal(10,2)] columns hold an integer number of hundredths; values
      arriving from a request are decimal literals that the column coerces.
    - A storage call runs one SQL statement: it either takes effect or raises
      and leaves the tables as they were.  A route handler runs several calls
      in sequence inside one [try]/[catch]; the database keeps whatever the
      calls before the exception wrote. *)

From Stdlib Require Import ZArith List String Ascii Bool Lia.
From Stdlib Require Import Sorted Permutation.
Import ListNotations.
Local Open Scope string_scope.
Local Open Scope list_scope.
Local Open Scope Z_scope.

(* ------------------------------------------------------------------ *)
(** ** Column types *)

Module Decimal.

(** A decimal literal as sent in a request body: [digits * 10^(-places)]. *)
Record literal := Literal { digits : Z; places : nat }.

(** [n / d] rounded to the nearest integer, ties away from zero. *)
Definition round_half_up (n d : Z) : Z :=
  Z.sgn n * ((2 * Z.abs n + d) / (2 * d)).

(** The literal expressed in hundredths, rounded to scale 2. *)
Definition to_scale2 (t : literal) : Z :=
  match places t with
  | O => 100 * digits t
  | S O => 10 * digits t
  | S (S k) => round_half_up (digits t) (10 ^ Z.of_nat k)
  end.

(** Coercion into a [decimal(10,2)] column: at most 10 digits in all. *)
Definition numeric_10_2 (t : literal) : option Z :=
  let c := to_scale2 t in
  if Z.abs c <? 10 ^ 10 then Some c else None.

End Decimal.

(** Range of an [integer] column. *)
Definition int4_ok (q : Z) : bool :=
  (-2147483648 <=? q) && (q <=? 2147483647).

(** SQL equality on a nullable integer column: a NULL operand never matches. *)
Definition sql_eq (a b : option Z) : bool :=
  match a, b with
  | Some x, Some y => x =? y
  | _, _ => false
  end.

(** A [references] constraint: a non-NULL key must name an existing row. *)
Definition fk_ok (ref : option Z) (ids : list Z) : bool :=
  match ref with
  | None => true
  | Some k => existsb (Z.eqb k) ids
  end.

(* ------------------------------------------------------------------ *)
(** ** Rows (columns that no cart or order operation reads are left out) *)

Record Product := mkProduct {
  p_id : Z;
  p_name : string;
  p_price : Z;
  p_inStock : option bool;
  p_updatedAt : Z
}.

Record CartItem := mkCartItem {
  ci_id : Z;
  ci_sessionId : string;
  ci_productId : option Z;
  ci_quantity : Z;
  ci_customizations : option string
}.

Record Order := mkOrder {
  o_id : Z;
  o_customerName : string;
  o_customerEmail : string;
  o_customerAddress : string;
  o_customerCity : string;
  o_customerZip : string;
  o_totalAmount : Z;
  o_status : string;
  o_createdAt : Z;
  o_updatedAt : Z
}.

Record OrderItem := mkOrderItem {
  oi_id : Z;
  oi_orderId : option Z;
  oi_productId : option Z;
  oi_quantity : Z;
  oi_price : Z;
  oi_customizations : option string
}.

(** Insert shapes, after schema validation. *)

Record InsertCartItem := mkInsertCartItem {
  ici_sessionId : string;
  ici_productId : option Z;
  ici_quantity : Z;
  ici_customizations : option string
}.

Record InsertOrder := mkInsertOrder {
  io_customerName : string;
  io_customerEmail : string;
  io_customerAddress : string;
  io_customerCity : string;
  io_customerZip : string;
  io_totalAmount : Decimal.literal;
  io_status : option string
}.

(** What [POST /api/orders] hands to [createOrder]: the request body without
    its [orderItems].  It carries the validated columns as sent and, since
    nothing strips it, an [id] if the client sent one; the store then uses
    that id instead of drawing one from the sequence. *)
Record OrderInfo := mkOrderInfo {
  info_id : option Z;
  info_columns : InsertOrder
}.

Record InsertOrderItem := mkInsertOrderItem {
  ioi_orderId : option Z;
  ioi_productId : option Z;
  ioi_quantity : Z;
  ioi_price : Decimal.literal;
  ioi_customizations : option string
}.

(** [Partial<InsertProduct>]: an absent field leaves the column alone. *)
Record ProductPatch := mkProductPatch {
  pp_name : option string;
  pp_price : option Decimal.literal;
  pp_inStock : option (option bool)
}.

(** Read views. *)

Record CartItemWithProduct := mkCartItemWithProduct {
  cwp_item : CartItem;
  cwp_product : option Product   (* typed as present; NULL when the join misses *)
}.

Record OrderWithItems := mkOrderWithItems {
  ow_order : Order;
  ow_orderItems : list (OrderItem * Product)
}.

(* ------------------------------------------------------------------ *)
(** ** Database state

    A table is the list of its rows in the order of their insertion; an
    UPDATE rewrites rows in place.  This order is a representation: what a
    query without ORDER BY returns is any permutation of the rows it
    selects.  A sequence holds the value it issues next to an INSERT that
    is accepted; the value that PostgreSQL also consumes for an INSERT it
    refuses is not counted, and nothing below is stated of a sequence after
    a refused INSERT. *)

Record Db := mkDb {
  products : list Product;
  cartItems : list CartItem;
  orders : list Order;
  orderItems : list OrderItem;
  cart_items_id_seq : Z;
  orders_id_seq : Z;
  order_items_id_seq : Z
}.

Definition product_ids (db : Db) : list Z := map p_id (products db).
Definition order_ids (db : Db) : list Z := map o_id (orders db).

(* ------------------------------------------------------------------ *)
(** ** Exceptions and the handler monad *)

Inductive DbError :=
| UniqueViolation
| ForeignKeyViolation
| NumericOverflow
| IntegerOutOfRange
| InvalidTextRepresentation.

Inductive Exn :=
| ZodError
| TypeError
| DatabaseError (e : DbError).

Inductive Outcome (A : Type) :=
| Threw (e : Exn)
| Returned (a : A).
Arguments Threw {A} e.
Arguments Returned {A} a.

(** A computation reads and writes the database and may throw; what was
    written before the throw stays written. *)
Definition M (A : Type) := Db -> Outcome A * Db.

Definition ret {A} (a : A) : M A := fun db => (Returned a, db).
Definition throw {A} (e : Exn) : M A := fun db => (Threw e, db).
Definition bind {A B} (m : M A) (k : A -> M B) : M B :=
  fun db =>
    match m db with
    | (Threw e, db') => (Threw e, db')
    | (Returned a, db') => k a db'
    end.

Notation "x <- m ;; k" := (bind m (fun x => k))
  (at level 61, m at next level, right associativity).
Notation "m ;;; k" := (bind m (fun _ => k))
  (at level 61, right associativity).

(** [for (const x of xs) { await body(x) }] *)
Fixpoint for_of {A} (xs : list A) (body : A -> M unit) : M unit :=
  match xs with
  | [] => ret tt
  | x :: rest => body x ;;; for_of rest body
  end.

(* ------------------------------------------------------------------ *)
(** ** Table updates *)

Definition set_products (db : Db) (l : list Product) : Db :=
  mkDb l (cartItems db) (orders db) (orderItems db)
       (cart_items_id_seq db) (orders_id_seq db) (order_items_id_seq db).

Definition set_cartItems (db : Db) (l : list CartItem) : Db :=
  mkDb (products db) l (orders db) (orderItems db)
       (cart_items_id_seq db) (orders_id_seq db) (order_items_id_seq db).

(** [INSERT ... RETURNING]: the new row takes the next value of the
    table's sequence (the validated insert data of these two tables never
    carries an id). *)
Definition insert_cartItem (db : Db) (row : CartItem) : Db :=
  mkDb (products db) (cartItems db ++ [row]) (orders db) (orderItems db)
       (cart_items_id_seq db + 1) (orders_id_seq db) (order_items_id_seq db).

(** The order sequence advances only when the id was drawn from it. *)
Definition insert_order (db : Db) (row : Order) (drawn : bool) : Db :=
  mkDb (products db) (cartItems db) (orders db ++ [row]) (orderItems db)
       (cart_items_id_seq db)
       (if drawn then orders_id_seq db + 1 else orders_id_seq db)
       (order_items_id_seq db).

Definition insert_orderItem (db : Db) (row : OrderItem) : Db :=
  mkDb (products db) (cartItems db) (orders db) (orderItems db ++ [row])
       (cart_items_id_seq db) (orders_id_seq db) (order_items_id_seq db + 1).

Definition set_quantity (c : CartItem) (q : Z) : CartItem :=
  mkCartItem (ci_id c) (ci_sessionId c) (ci_productId c) q (ci_customizations c).

(** [UPDATE cart_items SET quantity = q WHERE id = k] *)
Definition update_quantity_where_id (k q : Z) (rows : list CartItem)
  : list CartItem :=
  map (fun c => if ci_id c =? k then set_quantity c q else c) rows.

(* ------------------------------------------------------------------ *)
(** ** DatabaseStorage: cart operations *)

(** [cart_items LEFT JOIN products ON cart_items.product_id = products.id]:
    every cart row yields a row per matching product, or one row with a NULL
    product when nothing matches. *)
Definition leftJoin_products (ps : list Product) (c : CartItem)
  : list CartItemWithProduct :=
  match filter (fun p => sql_eq (ci_productId c) (Some (p_id p))) ps with
  | [] => [mkCartItemWithProduct c None]
  | matching => map (fun p => mkCartItemWithProduct c (Some p)) matching
  end.

(** The query has no ORDER BY: the listing is returned here in the order of
    the table, one of the orders the database may choose. *)
Definition getCartItems (sessionId : string) (db : Db)
  : list CartItemWithProduct :=
  filter (fun row => String.eqb (ci_sessionId (cwp_item row)) sessionId)
         (flat_map (leftJoin_products (products db)) (cartItems db)).

(** The WHERE clause of [addToCart]'s lookup. *)
Definition same_line (item : InsertCartItem) (c : CartItem) : bool :=
  String.eqb (ci_sessionId c) (ici_sessionId item)
  && sql_eq (ci_productId c) (ici_productId item).

Definition addToCart (item : InsertCartItem) : M (option CartItem) :=
  fun db =>
    match filter (same_line item) (cartItems db) with
    | existingItem :: _ =>
        (* Update quantity *)
        let q := ci_quantity existingItem + ici_quantity item in
        if int4_ok q then
          let rows :=
            update_quantity_where_id (ci_id existingItem) q (cartItems db) in
          (Returned
             (hd_error (filter (fun c => ci_id c =? ci_id existingItem) rows)),
           set_cartItems db rows)
        else (Threw (DatabaseError IntegerOutOfRange), db)
    | [] =>
        (* Create new item *)
        if negb (int4_ok (ici_quantity item)) then
          (Threw (DatabaseError IntegerOutOfRange), db)
        else if negb (fk_ok (ici_productId item) (product_ids db)) then
          (Threw (DatabaseError ForeignKeyViolation), db)
        else
          let newItem :=
            mkCartItem (cart_items_id_seq db) (ici_sessionId item)
                       (ici_productId item) (ici_quantity item)
                       (ici_customizations item) in
          (Returned (Some newItem), insert_cartItem db newItem)
    end.

(** The first result row is destructured; it is [undefined] when no row has
    the given id.  Here and in the other operations that take the id of a
    row, [id] is a number that the statement could be bound with: the
    routes bind what [parseInt] read with [int4_param], which throws for
    [NaN] and for a number outside int4. *)
Definition updateCartItem (id quantity : Z) : M (option CartItem) :=
  fun db =>
    if int4_ok quantity then
      let rows := update_quantity_where_id id quantity (cartItems db) in
      (Returned (hd_error (filter (fun c => ci_id c =? id) rows)),
       set_cartItems db rows)
    else (Threw (DatabaseError IntegerOutOfRange), db).

Definition removeFromCart (id : Z) : M unit :=
  fun db =>
    (Returned tt,
     set_cartItems db (filter (fun c => negb (ci_id c =? id)) (cartItems db))).

Definition clearCart (sessionId : string) : M unit :=
  fun db =>
    (Returned tt,
     set_cartItems db
       (filter (fun c => negb (String.eqb (ci_sessionId c) sessionId))
               (cartItems db))).

(* ------------------------------------------------------------------ *)
(** ** DatabaseStorage: products *)

Definition apply_patch (now : Z) (price : option Z) (patch : ProductPatch)
                       (p : Product) : Product :=
  mkProduct (p_id p)
            (match pp_name patch with Some n => n | None => p_name p end)
            (match price with Some c => c | None => p_price p end)
            (match pp_inStock patch with Some s => s | None => p_inStock p end)
            now.

(** [UPDATE products SET ...patch, updated_at = now WHERE id = k RETURNING] *)
Definition updateProduct (id : Z) (product : ProductPatch) (now : Z)
  : M (option Product) :=
  fun db =>
    let coerced :=
      match pp_price product with
      | None => Some None
      | Some t => option_map Some (Decimal.numeric_10_2 t)
      end in
    match coerced with
    | None => (Threw (DatabaseError NumericOverflow), db)
    | Some price =>
        let rows :=
          map (fun p => if p_id p =? id
                        then apply_patch now price product p else p)
              (products db) in
        (Returned (hd_error (filter (fun p => p_id p =? id) rows)),
         set_products db rows)
    end.

(* ------------------------------------------------------------------ *)
(** ** DatabaseStorage: orders *)

(** [order] is the request body without its [orderItems]: an [id] in it is
    inserted as the primary key (taken here to be a number the integer
    column can hold), the other columns that the body may carry beyond
    those of [InsertOrder] are not represented. *)
Definition createOrder (order : OrderInfo) (now : Z) : M Order :=
  fun db =>
    let columns := info_columns order in
    match Decimal.numeric_10_2 (io_totalAmount columns) with
    | None => (Threw (DatabaseError NumericOverflow), db)
    | Some total =>
        let id := match info_id order with
                  | Some k => k
                  | None => orders_id_seq db
                  end in
        if existsb (Z.eqb id) (order_ids db) then
          (Threw (DatabaseError UniqueViolation), db)
        else
          let newOrder :=
            mkOrder id
                    (io_customerName columns) (io_customerEmail columns)
                    (io_customerAddress columns) (io_customerCity columns)
                    (io_customerZip columns) total
                    (match io_status columns with
                     | Some s => s
                     | None => "pending"
                     end)
                    now now in
          (Returned newOrder,
           insert_order db newOrder
                        (match info_id order with
                         | Some _ => false
                         | None => true
                         end))
    end.

Definition createOrderItem (orderItem : InsertOrderItem) : M OrderItem :=
  fun db =>
    if negb (int4_ok (ioi_quantity orderItem)) then
      (Threw (DatabaseError IntegerOutOfRange), db)
    else
      match Decimal.numeric_10_2 (ioi_price orderItem) with
      | None => (Threw (DatabaseError NumericOverflow), db)
      | Some price =>
          if fk_ok (ioi_orderId orderItem) (order_ids db)
             && fk_ok (ioi_productId orderItem) (product_ids db)
          then
            let newOrderItem :=
              mkOrderItem (order_items_id_seq db)
                          (ioi_orderId orderItem) (ioi_productId orderItem)
                          (ioi_quantity orderItem) price
                          (ioi_customizations orderItem) in
            (Returned newOrderItem, insert_orderItem db newOrderItem)
          else (Threw (DatabaseError ForeignKeyViolation), db)
      end.

(** One row of [orders LEFT JOIN order_items LEFT JOIN products]. *)
Record JoinRow := mkJoinRow {
  row_orders : Order;
  row_order_items : option OrderItem;
  row_products : option Product
}.

(** [orders LEFT JOIN order_items ON orders.id = order_items.order_id] *)
Definition leftJoin_orderItems (items : list OrderItem) (o : Order)
  : list (Order * option OrderItem) :=
  match filter (fun i => sql_eq (Some (o_id o)) (oi_orderId i)) items with
  | [] => [(o, None)]
  | matching => map (fun i => (o, Some i)) matching
  end.

(** [... LEFT JOIN products ON order_items.product_id = products.id] *)
Definition leftJoin_itemProduct (ps : list Product)
                                (r : Order * option OrderItem)
  : list JoinRow :=
  match snd r with
  | None => [mkJoinRow (fst r) None None]
  | Some i =>
      match filter (fun p => sql_eq (oi_productId i) (Some (p_id p))) ps with
      | [] => [mkJoinRow (fst r) (Some i) None]
      | matching => map (fun p => mkJoinRow (fst r) (Some i) (Some p)) matching
      end
  end.

Definition order_rows (db : Db) : list JoinRow :=
  flat_map (leftJoin_itemProduct (products db))
           (flat_map (leftJoin_orderItems (orderItems db)) (orders db)).

(** [ORDER BY orders.created_at DESC], as a stable insertion sort: one of
    the orders the database may return, which leaves open how rows of one
    creation time follow each other. *)
Fixpoint insert_desc (r : JoinRow) (l : list JoinRow) : list JoinRow :=
  match l with
  | [] => [r]
  | x :: rest =>
      if o_createdAt (row_orders x) <=? o_createdAt (row_orders r)
      then r :: x :: rest
      else x :: insert_desc r rest
  end.

Definition orderBy_desc_createdAt (rows : list JoinRow) : list JoinRow :=
  fold_right insert_desc [] rows.

(** The [Map<number, OrderWithItems>] of [getOrders], in insertion order. *)
Definition map_has (m : list OrderWithItems) (k : Z) : bool :=
  existsb (fun e => o_id (ow_order e) =? k) m.

Definition map_push (m : list OrderWithItems) (k : Z) (x : OrderItem * Product)
  : list OrderWithItems :=
  map (fun e => if o_id (ow_order e) =? k
                then mkOrderWithItems (ow_order e) (ow_orderItems e ++ [x])
                else e) m.

(** Body of the [forEach] that groups the joined rows by order. *)
Definition group_row (m : list OrderWithItems) (row : JoinRow)
  : list OrderWithItems :=
  let order := row_orders row in
  let m1 := if map_has m (o_id order) then m
            else m ++ [mkOrderWithItems order []] in
  match row_order_items row, row_products row with
  | Some orderItem, Some product => map_push m1 (o_id order) (orderItem, product)
  | _, _ => m1
  end.

Definition getOrders (db : Db) : list OrderWithItems :=
  fold_left group_row (orderBy_desc_createdAt (order_rows db)) [].

(** [.filter(row => row.order_items && row.products).map(...)] *)
Definition joined_item (row : JoinRow) : list (OrderItem * Product) :=
  match row_order_items row, row_products row with
  | Some orderItem, Some product => [(orderItem, product)]
  | _, _ => []
  end.

(** The query has no ORDER BY: [result] is taken here in the order of the
    tables, one of the orders the database may choose; [getOrder_of] below
    is the same function of any other. *)
Definition getOrder (id : Z) (db : Db) : option OrderWithItems :=
  let result := filter (fun r => o_id (row_orders r) =? id) (order_rows db) in
  match result with
  | [] => None
  | first :: _ =>
      Some (mkOrderWithItems (row_orders first) (flat_map joined_item result))
  end.

(* ------------------------------------------------------------------ *)
(** ** Request bodies and schema validation

    A required field is [None] when the JSON body lacks it or carries a
    value of the wrong type; an optional field is [None] when the body
    lacks it.  Amounts are decimal literals, whether sent as JSON numbers or
    as strings. *)

Record OrderItemBody := mkOrderItemBody {
  ib_productId : option Z;
  ib_quantity : option Z;
  ib_price : option Decimal.literal;
  ib_customizations : option string
}.

Record OrderBody := mkOrderBody {
  b_id : option Z;
  b_customerName : option string;
  b_customerEmail : option string;
  b_customerAddress : option string;
  b_customerCity : option string;
  b_customerZip : option string;
  b_totalAmount : option Decimal.literal;
  b_status : option string;
  b_orderItems : option (list OrderItemBody)
}.

(** [insertOrderSchema.parse]: the customer columns and the total are
    required, the status has a column default, and [id] is not part of the
    schema. *)
Definition insertOrderSchema_parse (body : OrderBody) : M InsertOrder :=
  match b_customerName body, b_customerEmail body, b_customerAddress body,
        b_customerCity body, b_customerZip body, b_totalAmount body with
  | Some name, Some email, Some address, Some city, Some zip, Some total =>
      ret (mkInsertOrder name email address city zip total (b_status body))
  | _, _, _, _, _, _ => throw ZodError
  end.

(** [insertOrderItemSchema.parse({ ...item, orderId })]: quantity and price
    are required, the product reference is nullable. *)
Definition insertOrderItemSchema_parse (item : OrderItemBody) (orderId : Z)
  : M InsertOrderItem :=
  match ib_quantity item, ib_price item with
  | Some quantity, Some price =>
      ret (mkInsertOrderItem (Some orderId) (ib_productId item) quantity price
                             (ib_customizations item))
  | _, _ => throw ZodError
  end.

(** Entering [for (const item of orderItems)]: a missing [orderItems] is not
    iterable. *)
Definition iterable {A} (xs : option (list A)) : M (list A) :=
  match xs with
  | Some l => ret l
  | None => throw TypeError
  end.

(* ------------------------------------------------------------------ *)
(** ** Routes *)

(** [parseInt(req.params.id)], bound to the [integer] parameter of a
    statement.  [None] is the [NaN] that [parseInt] reads from a text
    without leading digits.  PostgreSQL refuses [NaN] and every number
    outside int4 when the statement is bound, before any row is read. *)
Definition int4_param (n : option Z) : M Z :=
  match n with
  | None => throw (DatabaseError InvalidTextRepresentation)
  | Some k =>
      if int4_ok k then ret k else throw (DatabaseError IntegerOutOfRange)
  end.

Inductive Response (A : Type) :=
| Status200 (json : A)
| Status201 (json : A)
| Status400
| Status500.
Arguments Status200 {A} json.
Arguments Status201 {A} json.
Arguments Status400 {A}.
Arguments Status500 {A}.

Definition status {A} (r : Response A) : Z :=
  match r with
  | Status200 _ => 200
  | Status201 _ => 201
  | Status400 => 400
  | Status500 => 500
  end.

(** The [catch] clause shared by the validating routes. *)
Definition on_error {A} (e : Exn) : Response A :=
  match e with
  | ZodError => Status400
  | _ => Status500
  end.

(** Body of the loop over the submitted lines. *)
Definition create_line (orderId : Z) (item : OrderItemBody) : M unit :=
  orderItemData <- insertOrderItemSchema_parse item orderId ;;
  createOrderItem orderItemData ;;;
  ret tt.

(** The statements of the [try] block of [POST /api/orders]. *)
Definition place_order (sessionId : string) (now : Z) (body : OrderBody)
  : M Order :=
  orderData <- insertOrderSchema_parse body ;;
  (* const { orderItems, ...orderInfo } = req.body *)
  let orderInfo := mkOrderInfo (b_id body) orderData in
  (* Create order *)
  order <- createOrder orderInfo now ;;
  (* Create order items *)
  items <- iterable (b_orderItems body) ;;
  for_of items (create_line (o_id order)) ;;;
  (* Clear cart after successful order *)
  clearCart sessionId ;;;
  ret order.

Definition post_api_orders (sessionId : string) (now : Z) (body : OrderBody)
                           (db : Db) : Response Order * Db :=
  match place_order sessionId now body db with
  | (Returned order, db') => (Status201 order, db')
  | (Threw e, db') => (on_error e, db')
  end.

(** [PUT /api/cart/:id]: the quantity is taken from the body unvalidated. *)
Definition put_api_cart_id (id : option Z) (quantity : Z) (db : Db)
  : Response (option CartItem) * Db :=
  match (k <- int4_param id ;; updateCartItem k quantity) db with
  | (Returned cartItem, db') => (Status200 cartItem, db')
  | (Threw _, db') => (Status500, db')
  end.

(* ------------------------------------------------------------------ *)
(** ** Sample data: the first seeded products and a checkout *)

Module Sample.

Definition sidamo : Product := mkProduct 1 "Ethiopian Sidamo" 2499 (Some true) 0.
Definition supremo : Product := mkProduct 2 "Colombian Supremo" 2299 (Some true) 0.
Definition santos_sold_out : Product :=
  mkProduct 3 "Brazilian Santos" 1999 (Some false) 0.

Definition seeded : Db :=
  mkDb [sidamo; supremo; santos_sold_out] [] [] [] 1 1 1.

Definition add (sessionId : string) (productId quantity : Z) : InsertCartItem :=
  mkInsertCartItem sessionId (Some productId) quantity None.

(** Session s1 holds 3 of product 1, session s2 holds 1 of product 2. *)
Definition shopping : Db :=
  snd (addToCart (add "s2" 2 1)
        (snd (addToCart (add "s1" 1 1)
               (snd (addToCart (add "s1" 1 2) seeded))))).

Definition line (productId quantity : Z) (price : Decimal.literal)
  : OrderItemBody :=
  mkOrderItemBody (Some productId) (Some quantity) (Some price) None.

Definition checkout (total : Decimal.literal) (items : list OrderItemBody)
  : OrderBody :=
  mkOrderBody None (Some "Ada") (Some "ada@example.org") (Some "1 Main St")
              (Some "Springfield") (Some "12345") (Some total) None
              (Some items).

(** A price as the client's JSON carries it: 24.99 *)
Definition usd (hundredths : Z) : Decimal.literal :=
  Decimal.Literal hundredths 2.

(** The cart of s1 at catalog prices: 3 x 24.99 = 74.97. *)
Definition paid : OrderBody := checkout (usd 7497) [line 1 3 (usd 2499)].

(** The same line with figures of the client's own choosing. *)
Definition underpaid : OrderBody := checkout (usd 100) [line 1 3 (usd 1)].

(** A second line that lacks its price. *)
Definition unpriced : OrderBody :=
  checkout (usd 9796)
           [line 1 3 (usd 2499); mkOrderItemBody (Some 2) (Some 1) None None].

(** A line for the product the catalog marks as not in stock. *)
Definition for_sold_out : OrderBody := checkout (usd 1999) [line 3 1 (usd 1999)].

(** A line for product 99, which the catalog does not hold. *)
Definition for_unknown : OrderBody :=
  checkout (usd 7597) [line 1 3 (usd 2499); line 99 1 (usd 100)].

(** One line for product 1 and one line that references no product. *)
Definition with_unlinked_line : OrderBody :=
  checkout (usd 7997)
           [line 1 3 (usd 2499);
            mkOrderItemBody None (Some 1) (Some (usd 500)) None].

(** The tables after that order was placed. *)
Definition ordered : Db :=
  snd (post_api_orders "s1" 100 with_unlinked_line shopping).

End Sample.

(* ------------------------------------------------------------------ *)
(** ** Vocabulary of the statements *)

(** [row] is the order item stored for the submitted line [item] of order
    [k]: quantity, product reference and customizations are copied, the price
    is the submitted price coerced to scale 2. *)
Definition stored_as (k : Z) (item : OrderItemBody) (row : OrderItem) : Prop :=
  oi_orderId row = Some k /\
  oi_productId row = ib_productId item /\
  ib_quantity item = Some (oi_quantity row) /\
  oi_customizations row = ib_customizations item /\
  exists t, ib_price item = Some t /\ oi_price row = Decimal.to_scale2 t.

Definition other_sessions (sessionId : string) (rows : list CartItem)
  : list CartItem :=
  filter (fun c => negb (String.eqb (ci_sessionId c) sessionId)) rows.

(** What the handler has written when it replies. *)
Definition committed (sessionId : string) (body : OrderBody) (db db' : Db)
                     (order : Order) : Prop :=
  exists total items rows,
    b_totalAmount body = Some total /\
    b_orderItems body = Some items /\
    ~ In (o_id order) (order_ids db) /\
    o_totalAmount order = Decimal.to_scale2 total /\
    orders db' = orders db ++ [order] /\
    orderItems db' = orderItems db ++ rows /\
    Forall2 (stored_as (o_id order)) items rows /\
    cartItems db' = other_sessions sessionId (cartItems db).

Definition nothing_written (db db' : Db) : Prop :=
  orders db' = orders db /\ orderItems db' = orderItems db.

Definition partly_written (body : OrderBody) (db db' : Db) : Prop :=
  exists order rows,
    ~ In (o_id order) (order_ids db) /\
    orders db' = orders db ++ [order] /\
    orderItems db' = orderItems db ++ rows /\
    forall items, b_orderItems body = Some items ->
      Forall2 (stored_as (o_id order)) (firstn (List.length rows) items) rows /\
      (List.length rows < List.length items)%nat.

Definition in_session (sessionId : string) (c : CartItem) : bool :=
  String.eqb (ci_sessionId c) sessionId.

(** [m] behaves the same whatever the product rows hold besides their ids,
    and leaves the product table alone. *)
Definition ignores_catalog {A} (m : M A) : Prop :=
  forall db ps',
    map p_id ps' = product_ids db ->
    m (set_products db ps') = (fst (m db), set_products (snd (m db)) ps') /\
    products (snd (m db)) = products db.

(** The total the specification prescribes: for each submitted line the
    catalog's current unit price times the quantity, summed.  Catalog prices
    are in hundredths already, so no rounding remains to be done. *)
Definition currentPrice (db : Db) (productId : Z) : option Z :=
  option_map p_price (find (fun p => p_id p =? productId) (products db)).

Fixpoint catalog_total (db : Db) (items : list OrderItemBody) : option Z :=
  match items with
  | [] => Some 0
  | item :: rest =>
      match ib_productId item, ib_quantity item with
      | Some k, Some q =>
          match currentPrice db k, catalog_total db rest with
          | Some c, Some t => Some (c * q + t)
          | _, _ => None
          end
      | _, _ => None
      end
  end.

(** The reply reports a failure. *)
Definition failed {A} (r : Response A) : Prop :=
  r = Status400 \/ r = Status500.

(** Referential state of the order tables: every line that names an order
    names an existing one. *)
Definition consistent (db : Db) : Prop :=
  Forall (fun i => fk_ok (oi_orderId i) (order_ids db) = true) (orderItems db).

(** [m] maintains [P], whether it returns or throws. *)
Definition preserves {A} (P : Db -> Prop) (m : M A) : Prop :=
  forall db, P db -> P (snd (m db)).

(** The order items of order [k], as the reads select them. *)
Definition order_lines (db : Db) (k : Z) : list OrderItem :=
  filter (fun i => sql_eq (Some k) (oi_orderId i)) (orderItems db).

(** Sum of price times quantity over stored lines, in hundredths. *)
Definition lines_total (rows : list OrderItem) : Z :=
  fold_right (fun i acc => oi_price i * oi_quantity i + acc) 0 rows.

(** The same sum over the lines as submitted, each price coerced to two
    decimal places. *)
Definition submitted_total (items : list OrderItemBody) : Z :=
  fold_right
    (fun item acc =>
       match ib_price item, ib_quantity item with
       | Some price, Some q => Decimal.to_scale2 price * q + acc
       | _, _ => acc
       end) 0 items.

(** The cart rows of the pair (session, product). *)
Definition line_of (sessionId : string) (productId : Z) (c : CartItem) : bool :=
  in_session sessionId c && sql_eq (ci_productId c) (Some productId).

(** A sequence of add-to-cart calls for one pair, each with its quantity and
    customizations, collecting what each call returned. *)
Fixpoint addItems (sessionId : string) (productId : Z)
                  (calls : list (Z * option string))
  : M (list (option CartItem)) :=
  match calls with
  | [] => ret []
  | (quantity, customizations) :: rest =>
      returned <- addToCart (mkInsertCartItem sessionId (Some productId)
                                              quantity customizations) ;;
      more <- addItems sessionId productId rest ;;
      ret (returned :: more)
  end.

(** q1 + ... + qn *)
Definition total_quantity (qs : list Z) : Z := fold_right Z.add 0 qs.

(** Every running total, starting from [acc], fits the integer column. *)
Fixpoint sums_in_range (acc : Z) (qs : list Z) : bool :=
  match qs with
  | [] => true
  | q :: rest => int4_ok (acc + q) && sums_in_range (acc + q) rest
  end.

(** What an order read shows of the order tables themselves: the header and
    the stored lines, without the joined product views. *)
Definition snapshot (ow : OrderWithItems) : Order * list OrderItem :=
  (ow_order ow, map fst (ow_orderItems ow)).

(** A change of product rows seen through the joins. *)
Definition row_map (g : Product -> Product) (r : JoinRow) : JoinRow :=
  mkJoinRow (row_orders r) (row_order_items r) (option_map g (row_products r)).

Definition ow_map (g : Product -> Product) (ow : OrderWithItems)
  : OrderWithItems :=
  mkOrderWithItems (ow_order ow)
                   (map (fun l => (fst l, g (snd l))) (ow_orderItems ow)).

(** [x] is listed under key [k] in the grouping map. *)
Definition listed (m : list OrderWithItems) (k : Z) (x : OrderItem * Product)
  : Prop :=
  exists e, In e m /\ o_id (ow_order e) = k /\ In x (ow_orderItems e).

Definition keys (m : list OrderWithItems) : list Z :=
  map (fun e => o_id (ow_order e)) m.

(** The line [i] of order [k] joins the catalog row [p]. *)
Definition joins (db : Db) (k : Z) (i : OrderItem) (p : Product) : Prop :=
  In i (orderItems db) /\ oi_orderId i = Some k /\
  In p (products db) /\ oi_productId i = Some (p_id p).

(** The joined rows that stem from one order. *)
Definition rows_of_order (db : Db) (o : Order) : list JoinRow :=
  flat_map (leftJoin_itemProduct (products db))
           (leftJoin_orderItems (orderItems db) o).

(** The lines of order [k] in table order, each paired with the catalog rows
    its product reference matches (none when it matches nothing). *)
Definition joined_lines (db : Db) (k : Z) : list (OrderItem * Product) :=
  flat_map
    (fun i => map (pair i)
                  (filter (fun p => sql_eq (oi_productId i) (Some (p_id p)))
                          (products db)))
    (order_lines db k).

(** What the grouping map holds under key [k]. *)
Definition items_of (m : list OrderWithItems) (k : Z)
  : list (OrderItem * Product) :=
  flat_map ow_orderItems (filter (fun e => o_id (ow_order e) =? k) m).

(* ------------------------------------------------------------------ *)
(** ** DatabaseStorage: further operations on these tables *)

(** [const [product] = await db.select().from(products).where(id = ...)] *)
Definition getProduct (id : Z) (db : Db) : option Product :=
  hd_error (filter (fun p => p_id p =? id) (products db)).

Definition set_orders (db : Db) (l : list Order) : Db :=
  mkDb (products db) (cartItems db) l (orderItems db)
       (cart_items_id_seq db) (orders_id_seq db) (order_items_id_seq db).

(** [.set({ status, updatedAt: new Date() })] on one row: a [status] that
    is [undefined] is left out of the SET list, [updated_at] is always
    written. *)
Definition set_status (o : Order) (status : option string) (now : Z) : Order :=
  mkOrder (o_id o) (o_customerName o) (o_customerEmail o)
          (o_customerAddress o) (o_customerCity o) (o_customerZip o)
          (o_totalAmount o)
          (match status with
           | Some s => s
           | None => o_status o
           end)
          (o_createdAt o) now.

(** [UPDATE orders SET status = ..., updated_at = now WHERE id = k
    RETURNING] *)
Definition updateOrderStatus (id : Z) (status : option string) (now : Z)
  : M (option Order) :=
  fun db =>
    let rows :=
      map (fun o => if o_id o =? id then set_status o status now else o)
          (orders db) in
    (Returned (hd_error (filter (fun o => o_id o =? id) rows)),
     set_orders db rows).

(* ------------------------------------------------------------------ *)
(** ** The cart routes and the cart badge *)

(** A field of a JSON body as a schema sees it. *)
Inductive Field (A : Type) :=
| Absent
| Refused   (* present, but not of the type the schema asks for *)
| Given (a : A).
Arguments Absent {A}.
Arguments Refused {A}.
Arguments Given {A} a.

Definition refused {A} (f : Field A) : bool :=
  match f with
  | Refused => true
  | _ => false
  end.

Definition given {A} (f : Field A) : option A :=
  match f with
  | Given a => Some a
  | _ => None
  end.

Inductive Reply (A : Type) :=
| Json (code : Z) (body : A)
| Message (code : Z) (message : string)
| NoContent.
Arguments Json {A} code body.
Arguments Message {A} code message.
Arguments NoContent {A}.

Definition code {A} (r : Reply A) : Z :=
  match r with
  | Json c _ => c
  | Message c _ => c
  | NoContent => 204
  end.

(** Body of [POST /api/cart]; the session id is added by the handler. *)
Record CartBody := mkCartBody {
  cb_productId : option Z;
  cb_quantity : option Z;
  cb_customizations : option string
}.

(** [insertCartItemSchema.parse({ ...req.body, sessionId })] *)
Definition insertCartItemSchema_parse (body : CartBody) (sessionId : string)
  : M InsertCartItem :=
  match cb_quantity body with
  | Some quantity =>
      ret (mkInsertCartItem sessionId (cb_productId body) quantity
                            (cb_customizations body))
  | None => throw ZodError
  end.

Definition post_api_cart (sessionId : string) (body : CartBody) (db : Db)
  : Reply (option CartItem) * Db :=
  match (cartItemData <- insertCartItemSchema_parse body sessionId ;;
         addToCart cartItemData) db with
  | (Returned cartItem, db') => (Json 201 cartItem, db')
  | (Threw ZodError, db') => (Message 400 "Invalid cart item data", db')
  | (Threw _, db') => (Message 500 "Failed to add to cart", db')
  end.

Definition delete_api_cart_id (id : option Z) (db : Db) : Reply unit * Db :=
  match (k <- int4_param id ;; removeFromCart k) db with
  | (Returned _, db') => (NoContent, db')
  | (Threw _, db') => (Message 500 "Failed to remove from cart", db')
  end.

Definition delete_api_cart (sessionId : string) (db : Db) : Reply unit * Db :=
  match clearCart sessionId db with
  | (Returned _, db') => (NoContent, db')
  | (Threw _, db') => (Message 500 "Failed to clear cart", db')
  end.

(** [GET /api/products/:id] *)
Definition get_api_products_id (id : Z) (db : Db) : Reply Product :=
  match getProduct id db with
  | None => Message 404 "Product not found"
  | Some product => Json 200 product
  end.

(** The cart badge of the client:
    [cartItems.reduce((sum, item) => sum + item.quantity, 0)] over the
    listing returned by [GET /api/cart]. *)
Definition cartCount (cartItems : list CartItemWithProduct) : Z :=
  fold_left (fun sum item => sum + ci_quantity (cwp_item item)) cartItems 0.

(* ------------------------------------------------------------------ *)
(** ** Vocabulary of the further statements *)

(** Primary keys of the four tables: ids are unique, and the ids of cart
    and order items, which only their sequences issue, lie below them. *)
Definition keyed (db : Db) : Prop :=
  NoDup (product_ids db) /\
  NoDup (map ci_id (cartItems db)) /\
  NoDup (order_ids db) /\
  NoDup (map oi_id (orderItems db)) /\
  Forall (fun c => ci_id c < cart_items_id_seq db) (cartItems db) /\
  Forall (fun i => oi_id i < order_items_id_seq db) (orderItems db).

(** Every product reference of a cart row or of an order line is NULL or
    names a catalog row, and every line names an existing order or none. *)
Definition referential (db : Db) : Prop :=
  consistent db /\
  Forall (fun i => fk_ok (oi_productId i) (product_ids db) = true)
         (orderItems db) /\
  Forall (fun c => fk_ok (ci_productId c) (product_ids db) = true)
         (cartItems db).

(** Newest first. *)
Definition newest_first (l : list Order) : Prop :=
  forall i j a b,
    (i < j)%nat -> nth_error l i = Some a -> nth_error l j = Some b ->
    o_createdAt b <= o_createdAt a.

(** A change of order headers seen through the joins and the grouping. *)
Definition row_map_order (h : Order -> Order) (r : JoinRow) : JoinRow :=
  mkJoinRow (h (row_orders r)) (row_order_items r) (row_products r).


(** What [updateOrderStatus id status now] writes on one header. *)
Definition with_status (id : Z) (status : option string) (now : Z) (o : Order)
  : Order :=
  if o_id o =? id then set_status o status now else o.

(* ------------------------------------------------------------------ *)
(** ** The remaining tables: product sequence, admins, notifications *)

Record AdminUser := mkAdminUser {
  au_id : Z;
  au_username : string;
  au_password : string;   (* the stored hash *)
  au_email : string
}.

Record Notification := mkNotification {
  n_id : Z;
  n_productId : option Z;
  n_type : string;
  n_message : string;
  n_sentAt : Z
}.

Record InsertProduct := mkInsertProduct {
  ip_name : string;
  ip_price : Decimal.literal;
  ip_inStock : option (option bool)   (* absent: the column default, true *)
}.

Record InsertAdminUser := mkInsertAdminUser {
  iau_username : string;
  iau_password : string;
  iau_email : string
}.

Record InsertNotification := mkInsertNotification {
  in_productId : option Z;
  in_type : string;
  in_message : string
}.

(** The whole database: the tables of the cart and order operations and
    what the other operations need besides. *)
Record Store := mkStore {
  tables : Db;
  products_id_seq : Z;
  adminUsers : list AdminUser;
  admin_users_id_seq : Z;
  notifications : list Notification;
  notifications_id_seq : Z
}.

Definition MS (A : Type) := Store -> Outcome A * Store.

Definition set_tables (st : Store) (db : Db) : Store :=
  mkStore db (products_id_seq st) (adminUsers st) (admin_users_id_seq st)
          (notifications st) (notifications_id_seq st).

(** An operation on the cart and order tables, run on the whole database. *)
Definition on_tables {A} (m : M A) : MS A :=
  fun st => (fst (m (tables st)), set_tables st (snd (m (tables st)))).

(** ** DatabaseStorage: products, admins, notifications *)

Definition createProduct (product : InsertProduct) (now : Z) : MS Product :=
  fun st =>
    match Decimal.numeric_10_2 (ip_price product) with
    | None => (Threw (DatabaseError NumericOverflow), st)
    | Some price =>
        let newProduct :=
          mkProduct (products_id_seq st) (ip_name product) price
                    (match ip_inStock product with
                     | Some flag => flag
                     | None => Some true
                     end)
                    now in
        (Returned newProduct,
         mkStore (set_products (tables st)
                               (products (tables st) ++ [newProduct]))
                 (products_id_seq st + 1) (adminUsers st)
                 (admin_users_id_seq st) (notifications st)
                 (notifications_id_seq st))
    end.

(** Some cart row, order line or notification references product [id]. *)
Definition product_referenced (id : Z) (st : Store) : bool :=
  existsb (fun c => sql_eq (ci_productId c) (Some id)) (cartItems (tables st))
  || existsb (fun i => sql_eq (oi_productId i) (Some id))
             (orderItems (tables st))
  || existsb (fun n => sql_eq (n_productId n) (Some id)) (notifications st).

(** [DELETE FROM products WHERE id = ...]: the three [references]
    constraints on [products.id] refuse the deletion of a row that is still
    referenced. *)
Definition deleteProduct (id : Z) : MS unit :=
  fun st =>
    if existsb (fun p => p_id p =? id) (products (tables st))
       && product_referenced id st
    then (Threw (DatabaseError ForeignKeyViolation), st)
    else
      (Returned tt,
       set_tables st
         (set_products (tables st)
            (filter (fun p => negb (p_id p =? id)) (products (tables st))))).

Definition getAdminUser (username : string) (st : Store) : option AdminUser :=
  hd_error (filter (fun a => String.eqb (au_username a) username)
                   (adminUsers st)).

(** [username] and [email] are [unique] columns. *)
Definition createAdminUser (admin : InsertAdminUser) : MS AdminUser :=
  fun st =>
    if existsb (fun a => String.eqb (au_username a) (iau_username admin)
                         || String.eqb (au_email a) (iau_email admin))
               (adminUsers st)
    then (Threw (DatabaseError UniqueViolation), st)
    else
      let newAdmin :=
        mkAdminUser (admin_users_id_seq st) (iau_username admin)
                    (iau_password admin) (iau_email admin) in
      (Returned newAdmin,
       mkStore (tables st) (products_id_seq st)
               (adminUsers st ++ [newAdmin]) (admin_users_id_seq st + 1)
               (notifications st) (notifications_id_seq st)).

Definition createNotification (notification : InsertNotification) (now : Z)
  : MS Notification :=
  fun st =>
    if fk_ok (in_productId notification) (product_ids (tables st)) then
      let newNotification :=
        mkNotification (notifications_id_seq st) (in_productId notification)
                       (in_type notification) (in_message notification) now in
      (Returned newNotification,
       mkStore (tables st) (products_id_seq st) (adminUsers st)
               (admin_users_id_seq st)
               (notifications st ++ [newNotification])
               (notifications_id_seq st + 1))
    else (Threw (DatabaseError ForeignKeyViolation), st).

(* ------------------------------------------------------------------ *)
(** ** Admin authentication and the admin routes

    The token and password libraries are parameters: [jwt_verify token]
    tells whether [jwt.verify] accepts the token when the request arrives,
    [jwt_sign username issuedAt] is the token [jwt.sign] issues,
    [bcrypt_hash password salt] the hash [bcrypt.hash] computes with the
    salt it drew, and [bcrypt_compare password hash] is [bcrypt.compare]. *)

(** [value.split(' ')] *)
Fixpoint split (sep : Ascii.ascii) (s : string) : list string :=
  match s with
  | EmptyString => [EmptyString]
  | String c rest =>
      if Ascii.eqb c sep then EmptyString :: split sep rest
      else match split sep rest with
           | first :: more => String c first :: more
           | [] => [String c EmptyString]
           end
  end.

(** [req.headers.authorization?.split(' ')[1]] *)
Definition authorization_token (authorization : option string)
  : option string :=
  match authorization with
  | None => None
  | Some value => nth_error (split " "%char value) 1
  end.

Section Admin.

Variable jwt_verify : string -> bool.
Variable jwt_sign : string -> Z -> string.
Variable bcrypt_hash : string -> string -> string.
Variable bcrypt_compare : string -> string -> bool.

(** The middleware: [next] runs only behind a token that verifies. *)
Definition authenticateAdmin {A} (authorization : option string)
                             (next : Store -> Reply A * Store)
  : Store -> Reply A * Store :=
  fun st =>
    match authorization_token authorization with
    | None => (Message 401 "No token provided", st)
    | Some token =>
        if String.eqb token "" then (Message 401 "No token provided", st)
        else if jwt_verify token then next st
        else (Message 401 "Invalid token", st)
    end.

(** Body of [POST /api/products]; [pb_details] stands for the five further
    required text columns, [None] if any of them is missing. *)
Record ProductBody := mkProductBody {
  pb_name : option string;
  pb_details : option string;
  pb_price : option Decimal.literal;
  pb_inStock : option (option bool)
}.

Definition insertProductSchema_parse (body : ProductBody)
  : option InsertProduct :=
  match pb_name body, pb_details body, pb_price body with
  | Some name, Some _, Some price =>
      Some (mkInsertProduct name price (pb_inStock body))
  | _, _, _ => None
  end.

Definition post_api_products (authorization : option string)
                             (body : ProductBody) (now : Z)
  : Store -> Reply Product * Store :=
  authenticateAdmin authorization (fun st =>
    match insertProductSchema_parse body with
    | None => (Message 400 "Invalid product data", st)
    | Some productData =>
        match createProduct productData now st with
        | (Returned product, st') => (Json 201 product, st')
        | (Threw _, st') => (Message 500 "Failed to create product", st')
        end
    end).

(** Body of [PUT /api/products/:id]; [ppb_details] stands for the five
    further text columns, [Refused] if any of them is ill-typed.  The price
    is a string, read as the decimal text it holds. *)
Record ProductPatchBody := mkProductPatchBody {
  ppb_name : Field string;
  ppb_details : Field string;
  ppb_price : Field Decimal.literal;
  ppb_inStock : Field (option bool)
}.

(** [insertProductSchema.partial().parse(req.body)] *)
Definition insertProductSchema_partial_parse (body : ProductPatchBody)
  : M ProductPatch :=
  if refused (ppb_name body) || refused (ppb_details body)
     || refused (ppb_price body) || refused (ppb_inStock body)
  then throw ZodError
  else ret (mkProductPatch (given (ppb_name body)) (given (ppb_price body))
                           (given (ppb_inStock body))).

(** The statements of the [try] block of [PUT /api/products/:id]. *)
Definition update_product (id : option Z) (body : ProductPatchBody) (now : Z)
  : M (option Product) :=
  productData <- insertProductSchema_partial_parse body ;;
  k <- int4_param id ;;
  updateProduct k productData now.

Definition put_api_products_id (authorization : option string)
                               (id : option Z) (body : ProductPatchBody)
                               (now : Z)
  : Store -> Reply (option Product) * Store :=
  authenticateAdmin authorization (fun st =>
    match on_tables (update_product id body now) st with
    | (Returned product, st') => (Json 200 product, st')
    | (Threw ZodError, st') => (Message 400 "Invalid product data", st')
    | (Threw _, st') => (Message 500 "Failed to update product", st')
    end).

(** [storage.deleteProduct(parseInt(req.params.id))] *)
Definition delete_product (id : option Z) : MS unit :=
  fun st =>
    match int4_param id (tables st) with
    | (Threw e, _) => (Threw e, st)
    | (Returned k, _) => deleteProduct k st
    end.

Definition delete_api_products_id (authorization : option string)
                                  (id : option Z)
  : Store -> Reply unit * Store :=
  authenticateAdmin authorization (fun st =>
    match delete_product id st with
    | (Returned _, st') => (NoContent, st')
    | (Threw _, st') => (Message 500 "Failed to delete product", st')
    end).

Definition put_api_orders_id_status (authorization : option string)
                                    (id : option Z) (status : option string)
                                    (now : Z)
  : Store -> Reply (option Order) * Store :=
  authenticateAdmin authorization (fun st =>
    match on_tables (k <- int4_param id ;; updateOrderStatus k status now)
                    st with
    | (Returned order, st') => (Json 200 order, st')
    | (Threw _, st') => (Message 500 "Failed to update order status", st')
    end).

(** Body of [POST /api/notifications]. *)
Record NotificationBody := mkNotificationBody {
  nb_productId : option Z;
  nb_type : option string;
  nb_message : option string
}.

Definition insertNotificationSchema_parse (body : NotificationBody)
  : option InsertNotification :=
  match nb_type body, nb_message body with
  | Some type, Some message =>
      Some (mkInsertNotification (nb_productId body) type message)
  | _, _ => None
  end.

Definition post_api_notifications (authorization : option string)
                                  (body : NotificationBody) (now : Z)
  : Store -> Reply Notification * Store :=
  authenticateAdmin authorization (fun st =>
    match insertNotificationSchema_parse body with
    | None => (Message 400 "Invalid notification data", st)
    | Some notificationData =>
        match createNotification notificationData now st with
        | (Returned notification, st') => (Json 201 notification, st')
        | (Threw _, st') => (Message 500 "Failed to create notification", st')
        end
    end).

(** What a successful login returns: the token and the admin's name and
    email. *)
Record LoginResult := mkLoginResult {
  lr_token : string;
  lr_username : string;
  lr_email : string
}.

(** [POST /api/admin/login], for a body that carries both strings. *)
Definition post_api_admin_login (username password : string) (issuedAt : Z)
                                (st : Store) : Reply LoginResult :=
  match getAdminUser username st with
  | None => Message 401 "Invalid credentials"
  | Some admin =>
      if bcrypt_compare password (au_password admin)
      then Json 200 (mkLoginResult (jwt_sign (au_username admin) issuedAt)
                                   (au_username admin) (au_email admin))
      else Message 401 "Invalid credentials"
  end.

(** [POST /api/admin/register], for a body that carries the three strings;
    [salt] is the salt [bcrypt.hash] draws. *)
Definition post_api_admin_register (username password email salt : string)
                                   (st : Store) : Reply unit * Store :=
  match getAdminUser username st with
  | Some _ => (Message 400 "Admin already exists", st)
  | None =>
      let hashedPassword := bcrypt_hash password salt in
      let adminData := mkInsertAdminUser username hashedPassword email in
      match createAdminUser adminData st with
      | (Returned _, st') => (Message 201 "Admin created successfully", st')
      | (Threw _, st') => (Message 500 "Failed to create admin", st')
      end
  end.

(** The seeding script [initializeDatabase]: sample products go in only
    when the product table is empty, the default admin only when there is
    no admin.  It returns the exit code. *)
Definition sample_products : list InsertProduct :=
  [ mkInsertProduct "Ethiopian Sidamo" (Decimal.Literal 2499 2) (Some (Some true));
    mkInsertProduct "Colombian Supremo" (Decimal.Literal 2299 2) (Some (Some true));
    mkInsertProduct "Brazilian Santos" (Decimal.Literal 1999 2) (Some (Some true));
    mkInsertProduct "Guatemalan Antigua" (Decimal.Literal 2699 2) (Some (Some true));
    mkInsertProduct "House Blend" (Decimal.Literal 1899 2) (Some (Some true));
    mkInsertProduct "Espresso Roast" (Decimal.Literal 2199 2) (Some (Some true));
    mkInsertProduct "French Roast" (Decimal.Literal 2099 2) (Some (Some true));
    mkInsertProduct "Jamaican Blue Mountain" (Decimal.Literal 4999 2) (Some (Some true));
    mkInsertProduct "Kona Coffee" (Decimal.Literal 3999 2) (Some (Some true));
    mkInsertProduct "Decaf Colombian" (Decimal.Literal 2399 2) (Some (Some true)) ].

(** [db.insert(products).values([...])]: one statement, all rows or none. *)
Fixpoint insert_products (rows : list InsertProduct) (now : Z) : MS unit :=
  fun st =>
    match rows with
    | [] => (Returned tt, st)
    | row :: rest =>
        match createProduct row now st with
        | (Threw e, _) => (Threw e, st)
        | (Returned _, st1) =>
            match insert_products rest now st1 with
            | (Threw e, _) => (Threw e, st)
            | (Returned _, st2) => (Returned tt, st2)
            end
        end
    end.

Definition initializeDatabase (now : Z) (salt : string) (st : Store)
  : Z * Store :=
  match (if match products (tables st) with [] => true | _ => false end
         then insert_products sample_products now st
         else (Returned tt, st)) with
  | (Threw _, st1) => (1, st1)
  | (Returned _, st1) =>
      match adminUsers st1 with
      | [] =>
          let hashedPassword := bcrypt_hash "admin123" salt in
          match createAdminUser
                  (mkInsertAdminUser "admin" hashedPassword "admin@kcup.com")
                  st1 with
          | (Threw _, st2) => (1, st2)
          | (Returned _, st2) => (0, st2)
          end
      | _ => (0, st1)
      end
  end.

(** The requests that can write to the database, and the database each
    leaves behind. *)
Inductive Request :=
| POST_cart (sessionId : string) (body : CartBody)
| PUT_cart_id (id : option Z) (quantity : Z)
| DELETE_cart_id (id : option Z)
| DELETE_cart (sessionId : string)
| POST_orders (sessionId : string) (now : Z) (body : OrderBody)
| POST_products (authorization : option string) (body : ProductBody) (now : Z)
| PUT_products_id (authorization : option string) (id : option Z)
                  (body : ProductPatchBody) (now : Z)
| DELETE_products_id (authorization : option string) (id : option Z)
| PUT_orders_id_status (authorization : option string) (id : option Z)
                       (status : option string) (now : Z)
| POST_notifications (authorization : option string)
                     (body : NotificationBody) (now : Z)
| POST_admin_register (username password email salt : string).

Definition serve (request : Request) (st : Store) : Store :=
  match request with
  | POST_cart sessionId body =>
      set_tables st (snd (post_api_cart sessionId body (tables st)))
  | PUT_cart_id id quantity =>
      set_tables st (snd (put_api_cart_id id quantity (tables st)))
  | DELETE_cart_id id =>
      set_tables st (snd (delete_api_cart_id id (tables st)))
  | DELETE_cart sessionId =>
      set_tables st (snd (delete_api_cart sessionId (tables st)))
  | POST_orders sessionId now body =>
      set_tables st (snd (post_api_orders sessionId now body (tables st)))
  | POST_products authorization body now =>
      snd (post_api_products authorization body now st)
  | PUT_products_id authorization id body now =>
      snd (put_api_products_id authorization id body now st)
  | DELETE_products_id authorization id =>
      snd (delete_api_products_id authorization id st)
  | PUT_orders_id_status authorization id status now =>
      snd (put_api_orders_id_status authorization id status now st)
  | POST_notifications authorization body now =>
      snd (post_api_notifications authorization body now st)
  | POST_admin_register username password email salt =>
      snd (post_api_admin_register username password email salt st)
  end.

(** A sequence of requests, served one after the other. *)
Definition serve_all (requests : list Request) (st : Store) : Store :=
  fold_left (fun st request => serve request st) requests st.

End Admin.

(** A freshly created database. *)
Definition empty_store : Store :=
  mkStore (mkDb [] [] [] [] 1 1 1) 1 [] 1 [] 1.

(** Primary keys and unique columns of the whole database. *)
Definition store_keyed (st : Store) : Prop :=
  keyed (tables st) /\
  Forall (fun p => p_id p < products_id_seq st) (products (tables st)) /\
  NoDup (map au_id (adminUsers st)) /\
  Forall (fun a => au_id a < admin_users_id_seq st) (adminUsers st) /\
  NoDup (map au_username (adminUsers st)) /\
  NoDup (map au_email (adminUsers st)) /\
  NoDup (map n_id (notifications st)) /\
  Forall (fun n => n_id n < notifications_id_seq st) (notifications st).

(** Every reference of the whole database is NULL or names an existing
    row. *)
Definition store_referential (st : Store) : Prop :=
  referential (tables st) /\
  Forall (fun n => fk_ok (n_productId n) (product_ids (tables st)) = true)
         (notifications st).

(** The line carries a product reference. *)
Definition names_product (i : OrderItem) : bool :=
  match oi_productId i with
  | Some _ => true
  | None => false
  end.

(** An order header without its status and its time of update, the two
    columns a request may rewrite. *)
Definition placed (o : Order) : Order := set_status o (Some "") 0.

(** The text holds no space. *)
Fixpoint no_space (s : string) : bool :=
  match s with
  | EmptyString => true
  | String c rest => negb (Ascii.eqb c " "%char) && no_space rest
  end.

(** The header carries a token that [jwt.verify] accepts. *)
Definition verifies (jwt_verify : string -> bool)
                    (authorization : option string) : bool :=
  match authorization_token authorization with
  | Some token => negb (String.eqb token "") && jwt_verify token
  | None => false
  end.

(** The [Authorization] header of a request to a route behind
    [authenticateAdmin]. *)
Definition credentials (request : Request) : option (option string) :=
  match request with
  | POST_products authorization _ _
  | PUT_products_id authorization _ _ _
  | DELETE_products_id authorization _
  | PUT_orders_id_status authorization _ _ _
  | POST_notifications authorization _ _ => Some authorization
  | _ => None
  end.

(** [a] was created no earlier than [b]. *)
Definition newer (a b : Order) : Prop := o_createdAt b <= o_createdAt a.

(* ------------------------------------------------------------------ *)
(** ** The cart total of the client

    JavaScript numbers are a parameter: [parseFloat] reads the text of a
    price column, given here by its value in hundredths, [times] and [plus]
    are the product with a quantity and the sum.  [None] is the [TypeError]
    that reading [item.product.price] throws when [item.product] is
    [null]. *)

Section CartTotal.

Variable number : Type.
Variable zero : number.
Variable parseFloat : Z -> number.
Variable times : number -> Z -> number.
Variable plus : number -> number -> number.

(** [cartItems.reduce((sum, item) =>
       sum + (parseFloat(item.product.price) * item.quantity), 0)] *)
Definition cartTotal (cartItems : list CartItemWithProduct) : option number :=
  fold_left
    (fun sum item =>
       match sum, cwp_product item with
       | Some sum, Some product =>
           Some (plus sum (times (parseFloat (p_price product))
                                 (ci_quantity (cwp_item item))))
       | _, _ => None
       end)
    cartItems (Some zero).

End CartTotal.

(* ------------------------------------------------------------------ *)
(** ** Results of queries without ORDER BY

    The queries of [getCartItems] and [getOrder] have no ORDER BY, and
    that of [getOrders] orders by creation time only: the database returns
    their rows in an order of its choosing.  The lists that [getCartItems],
    [getOrder] and [getOrders] compute from the tables are one such order.
    Wherever a statement could depend on it, it is made for every order the
    rows may come in: for every permutation of the query's rows, with the
    rows of [getOrders] newest first. *)

(** The rows that the query of [getOrder] selects. *)
Definition order_query (id : Z) (db : Db) : list JoinRow :=
  filter (fun r => o_id (row_orders r) =? id) (order_rows db).

(** [getOrder], from the rows as the database returned them. *)
Definition getOrder_of (result : list JoinRow) : option OrderWithItems :=
  match result with
  | [] => None
  | first :: _ =>
      Some (mkOrderWithItems (row_orders first) (flat_map joined_item result))
  end.

(** [getOrders], from the rows as the database returned them. *)
Definition getOrders_of (result : list JoinRow) : list OrderWithItems :=
  fold_left group_row result [].


(* ================================================================== *)
(** * Properties *)

(* ------------------------------------------------------------------ *)
(** ** How placing an order writes the tables *)

Lemma numeric_10_2_value t c :
  Decimal.numeric_10_2 t = Some c -> c = Decimal.to_scale2 t.
Proof.
  unfold Decimal.numeric_10_2.
  destruct (Z.abs (Decimal.to_scale2 t) <? 10 ^ 10); congruence.
Qed.

Lemma create_line_spec k item db :
  match create_line k item db with
  | (Returned _, db') =>
      exists row, stored_as k item row /\
                  fk_ok (ib_productId item) (product_ids db) = true /\
                  db' = insert_orderItem db row
  | (Threw _, db') => db' = db
  end.
Proof.
  unfold create_line, bind, insertOrderItemSchema_parse, createOrderItem.
  destruct (ib_quantity item) as [q|] eqn:Hq; [|reflexivity].
  destruct (ib_price item) as [t|] eqn:Ht; [|reflexivity].
  cbn.
  destruct (int4_ok q); cbn; [|reflexivity].
  destruct (Decimal.numeric_10_2 t) as [c|] eqn:Hc; [|reflexivity].
  destruct (existsb (Z.eqb k) (order_ids db)); cbn; [|reflexivity].
  destruct (fk_ok (ib_productId item) (product_ids db)) eqn:Hfk; cbn;
    [|reflexivity].
  eexists; split; [|split; [reflexivity|reflexivity]].
  unfold stored_as; cbn. repeat split; auto.
  exists t. split; [assumption|]. now apply numeric_10_2_value.
Qed.

(** The loop appends one row per line, in order, up to the first line that
    is refused; it touches no other table. *)
Lemma for_of_create_line k items :
  forall db,
    match for_of items (create_line k) db with
    | (out, db') =>
        products db' = products db /\
        cartItems db' = cartItems db /\
        orders db' = orders db /\
        exists rows,
          orderItems db' = orderItems db ++ rows /\
          Forall2 (stored_as k) (firstn (List.length rows) items) rows /\
          match out with
          | Returned _ => List.length rows = List.length items
          | Threw _ => (List.length rows < List.length items)%nat
          end
    end.
Proof.
  induction items as [|item rest IH]; intros db; cbn.
  - repeat split. exists []. rewrite app_nil_r. repeat split; constructor.
  - unfold bind. pose proof (create_line_spec k item db) as Hstep.
    destruct (create_line k item db) as [[e|[]] db1].
    + subst db1. repeat split. exists []. rewrite app_nil_r.
      repeat split; [constructor | cbn; lia].
    + destruct Hstep as (row & Hrow & _ & ->).
      specialize (IH (insert_orderItem db row)).
      destruct (for_of rest (create_line k) (insert_orderItem db row))
        as [out db2].
      destruct IH as (Hp & Hc & Ho & rows & Hrows & Hall & Hlen).
      cbn in Hp, Hc, Ho, Hrows. repeat split; auto.
      exists (row :: rows). rewrite Hrows, <- app_assoc. split; [reflexivity|].
      split; [cbn; constructor; assumption|].
      destruct out; cbn; lia.
Qed.

(** A line that names a product the catalog does not hold stops the loop. *)
Lemma for_of_unknown_product k items :
  forall db item p,
    In item items -> ib_productId item = Some p ->
    ~ In p (product_ids db) ->
    exists e, fst (for_of items (create_line k) db) = Threw e.
Proof.
  induction items as [|x rest IH]; intros db item p Hin Hp Hno; [easy|].
  cbn. unfold bind. pose proof (create_line_spec k x db) as Hstep.
  destruct (create_line k x db) as [[e|[]] db1]; [now exists e|].
  destruct Hstep as (row & _ & Hfk & ->).
  destruct Hin as [<-|Hin].
  - exfalso. rewrite Hp in Hfk. cbn in Hfk.
    apply existsb_exists in Hfk as (y & Hy & Heq).
    apply Z.eqb_eq in Heq. subst y. contradiction.
  - apply (IH (insert_orderItem db row) item p); auto.
Qed.

Lemma place_order_cases sessionId now body db :
  match place_order sessionId now body db with
  | (Returned order, db') =>
      products db' = products db /\ committed sessionId body db db' order
  | (Threw _, db') =>
      products db' = products db /\
      cartItems db' = cartItems db /\
      (nothing_written db db' \/ partly_written body db db')
  end.
Proof.
  unfold place_order, bind at 1, insertOrderSchema_parse.
  destruct (b_customerName body) as [name|];
    [|cbn; repeat split; left; split; reflexivity].
  destruct (b_customerEmail body) as [email|];
    [|cbn; repeat split; left; split; reflexivity].
  destruct (b_customerAddress body) as [address|];
    [|cbn; repeat split; left; split; reflexivity].
  destruct (b_customerCity body) as [city|];
    [|cbn; repeat split; left; split; reflexivity].
  destruct (b_customerZip body) as [zip|];
    [|cbn; repeat split; left; split; reflexivity].
  destruct (b_totalAmount body) as [total|] eqn:Htotal;
    [|cbn; repeat split; left; split; reflexivity].
  cbn [ret]. unfold bind at 1, createOrder.
  cbn [info_columns info_id io_totalAmount].
  destruct (Decimal.numeric_10_2 total) as [c|] eqn:Hc;
    [|repeat split; left; split; reflexivity].
  apply numeric_10_2_value in Hc. subst c. cbv zeta.
  set (id := match b_id body with Some k => k | None => orders_id_seq db end).
  destruct (existsb (Z.eqb id) (order_ids db)) eqn:Hpk;
    [repeat split; left; split; reflexivity|].
  assert (Hfresh : ~ In id (order_ids db)).
  { intros Hin. rewrite <- not_true_iff_false in Hpk. apply Hpk.
    apply existsb_exists. exists id. split; [assumption|apply Z.eqb_refl]. }
  set (order := mkOrder _ _ _ _ _ _ _ _ _ _).
  set (db0 := insert_order db order _).
  unfold bind at 1, iterable.
  destruct (b_orderItems body) as [items|] eqn:Hitems.
  2:{ cbn. repeat split. right. exists order, []. cbn.
      rewrite app_nil_r. split; [exact Hfresh|].
      repeat split; [constructor | congruence]. }
  cbn [ret]. unfold bind at 1.
  pose proof (for_of_create_line (o_id order) items db0) as Hloop.
  destruct (for_of items (create_line (o_id order)) db0)
    as [[e|[]] db1]; destruct Hloop as (Hp & Hcart & Ho & rows & Hrows & Hall & Hlen);
    cbn in Hp, Hcart, Ho, Hrows.
  - split; [assumption|]. split; [assumption|]. right. exists order, rows.
    split; [exact Hfresh|]. split; [assumption|]. split; [assumption|].
    intros items' E. rewrite Hitems in E. injection E as <-.
    split; assumption.
  - cbn. split; [assumption|].
    exists total, items, rows. rewrite Hlen, firstn_all in Hall.
    split; [assumption|]. split; [assumption|]. split; [exact Hfresh|].
    repeat split; auto. unfold other_sessions. now rewrite Hcart.
Qed.

Lemma post_api_orders_cases sessionId now body db :
  match post_api_orders sessionId now body db with
  | (Status201 order, db') =>
      products db' = products db /\ committed sessionId body db db' order
  | (Status200 _, _) => False
  | (_, db') =>
      products db' = products db /\
      cartItems db' = cartItems db /\
      (nothing_written db db' \/ partly_written body db db')
  end.
Proof.
  unfold post_api_orders.
  pose proof (place_order_cases sessionId now body db) as H.
  destruct (place_order sessionId now body db) as [[e|order] db']; [|exact H].
  destruct e as [| |d]; exact H.
Qed.

(* ------------------------------------------------------------------ *)
(** ** Listing a cart *)

Lemma filter_const {A} (f : A -> bool) (b : bool) (l : list A) :
  (forall x, In x l -> f x = b) -> filter f l = if b then l else [].
Proof.
  induction l as [|x l IH]; intros H; cbn.
  - now destruct b.
  - rewrite (H x (or_introl eq_refl)), IH by (intros; apply H; now right).
    now destruct b.
Qed.

Lemma leftJoin_products_item ps c row :
  In row (leftJoin_products ps c) -> cwp_item row = c.
Proof.
  unfold leftJoin_products.
  destruct (filter _ ps) as [|p m].
  - intros [<-|[]]. reflexivity.
  - intros H. apply in_map_iff in H as (q & <- & _). reflexivity.
Qed.

(** The WHERE clause only reads cart columns, so it can be applied to the
    cart rows before joining. *)
Lemma getCartItems_where_first sessionId db :
  getCartItems sessionId db =
  flat_map (leftJoin_products (products db))
           (filter (in_session sessionId) (cartItems db)).
Proof.
  unfold getCartItems. induction (cartItems db) as [|c cs IH]; [reflexivity|].
  cbn [flat_map filter]. rewrite filter_app, IH.
  rewrite (filter_const _ (in_session sessionId c)).
  - destruct (in_session sessionId c); reflexivity.
  - intros row Hrow. apply leftJoin_products_item in Hrow. now rewrite Hrow.
Qed.

Lemma other_sessions_in sessionId rows c :
  In c (other_sessions sessionId rows) <->
  In c rows /\ ci_sessionId c <> sessionId.
Proof.
  unfold other_sessions. rewrite filter_In, negb_true_iff.
  split; intros [H1 H2]; split; auto.
  - intros E. apply String.eqb_eq in E. congruence.
  - apply String.eqb_neq. assumption.
Qed.

Lemma other_sessions_keeps sessionId other rows :
  other <> sessionId ->
  filter (in_session other) (other_sessions sessionId rows) =
  filter (in_session other) rows.
Proof.
  intros Hne. unfold other_sessions, in_session.
  induction rows as [|c cs IH]; [reflexivity|]. cbn.
  destruct (String.eqb_spec (ci_sessionId c) sessionId) as [E|E]; cbn.
  - destruct (String.eqb_spec (ci_sessionId c) other); [congruence|exact IH].
  - now rewrite IH.
Qed.

Lemma other_sessions_drops sessionId rows :
  filter (in_session sessionId) (other_sessions sessionId rows) = [].
Proof.
  unfold other_sessions, in_session.
  induction rows as [|c cs IH]; [reflexivity|]. cbn.
  destruct (String.eqb_spec (ci_sessionId c) sessionId) as [E|E]; cbn; auto.
  destruct (String.eqb_spec (ci_sessionId c) sessionId); [contradiction|auto].
Qed.

Lemma other_sessions_idem sessionId rows :
  other_sessions sessionId (other_sessions sessionId rows) =
  other_sessions sessionId rows.
Proof.
  unfold other_sessions. induction rows as [|c cs IH]; [reflexivity|]. cbn.
  destruct (negb (ci_sessionId c =? sessionId)%string) eqn:E; cbn; auto.
  now rewrite E, IH.
Qed.

(** C7: Clear-on-checkout.  A successful [POST /api/orders] for session S
    leaves no cart row of S (its listing is empty) and keeps the rows, and
    the listing, of every other session as they were.  [clearCart] never
    fails, removes exactly the rows of its session, keeps all other rows in
    place, touches no other table, and clearing twice is the same as
    clearing once. *)
Theorem clear_on_checkout sessionId now body db order db'
    (Hplaced : post_api_orders sessionId now body db = (Status201 order, db')) :
  (getCartItems sessionId db' = [] /\
   (forall c, In c (cartItems db') -> ci_sessionId c <> sessionId) /\
   (forall other, other <> sessionId ->
      filter (in_session other) (cartItems db') =
      filter (in_session other) (cartItems db) /\
      getCartItems other db' = getCartItems other db)) /\
  (forall s d,
     let d' := snd (clearCart s d) in
     fst (clearCart s d) = Returned tt /\
     (forall c, In c (cartItems d') <-> In c (cartItems d) /\ ci_sessionId c <> s) /\
     (forall other, other <> s ->
        filter (in_session other) (cartItems d') =
        filter (in_session other) (cartItems d)) /\
     products d' = products d /\ orders d' = orders d /\
     orderItems d' = orderItems d /\
     snd (clearCart s d') = d').
Proof.
  split.
  - pose proof (post_api_orders_cases sessionId now body db) as H.
    rewrite Hplaced in H. destruct H as (Hp & _ & _ & _ & _ & _ & _ & _ & _ & _ & _ & Hcart).
    split; [|split].
    + rewrite getCartItems_where_first, Hcart, other_sessions_drops.
      reflexivity.
    + intros c Hc. rewrite Hcart in Hc. now apply other_sessions_in in Hc.
    + intros other Hne.
      assert (Hf : filter (in_session other) (cartItems db') =
                   filter (in_session other) (cartItems db))
        by (rewrite Hcart; now apply other_sessions_keeps).
      split; [exact Hf|].
      now rewrite !getCartItems_where_first, Hf, Hp.
  - intros s d. cbn.
    split; [reflexivity|].
    split; [intros c; apply other_sessions_in|].
    split; [intros other Hne; now apply other_sessions_keeps|].
    do 3 (split; [reflexivity|]).
    unfold set_cartItems. cbn. f_equal.
    apply (other_sessions_idem s (cartItems d)).
Qed.

(* ------------------------------------------------------------------ *)
(** ** Placing an order reads the catalog for its ids only *)

Lemma ignores_ret {A} (a : A) : ignores_catalog (ret a).
Proof. intros db ps' _. split; reflexivity. Qed.

Lemma ignores_throw {A} (e : Exn) : ignores_catalog (@throw A e).
Proof. intros db ps' _. split; reflexivity. Qed.

Lemma ignores_bind {A B} (m : M A) (k : A -> M B) :
  ignores_catalog m -> (forall a, ignores_catalog (k a)) ->
  ignores_catalog (bind m k).
Proof.
  intros Hm Hk db ps' Hids. unfold bind.
  destruct (Hm db ps' Hids) as [E Hp]. rewrite E.
  destruct (m db) as [[e|a] db1]; cbn in *; [split; auto|].
  assert (Hids1 : map p_id ps' = product_ids db1)
    by (unfold product_ids in *; now rewrite Hp).
  destruct (Hk a db1 ps' Hids1) as [E1 Hp1]. split; [exact E1|congruence].
Qed.

Lemma ignores_for_of {A} (body : A -> M unit) (xs : list A) :
  (forall x, ignores_catalog (body x)) -> ignores_catalog (for_of xs body).
Proof.
  intros Hbody. induction xs as [|x xs IH]; cbn.
  - apply ignores_ret.
  - apply ignores_bind; auto.
Qed.

Lemma ignores_createOrder order now : ignores_catalog (createOrder order now).
Proof.
  intros db ps' _. unfold createOrder. cbv zeta.
  destruct (Decimal.numeric_10_2 (io_totalAmount (info_columns order)));
    [|split; reflexivity].
  replace (order_ids (set_products db ps')) with (order_ids db) by reflexivity.
  replace (orders_id_seq (set_products db ps')) with (orders_id_seq db)
    by reflexivity.
  destruct (existsb _ (order_ids db)); split; reflexivity.
Qed.

Lemma ignores_createOrderItem item : ignores_catalog (createOrderItem item).
Proof.
  intros db ps' Hids. unfold createOrderItem.
  destruct (negb (int4_ok (ioi_quantity item))); [split; reflexivity|].
  destruct (Decimal.numeric_10_2 (ioi_price item)); [|split; reflexivity].
  replace (product_ids (set_products db ps')) with (product_ids db)
    by (symmetry; exact Hids).
  replace (order_ids (set_products db ps')) with (order_ids db) by reflexivity.
  destruct (fk_ok (ioi_orderId item) (order_ids db)
            && fk_ok (ioi_productId item) (product_ids db));
    split; reflexivity.
Qed.

Lemma ignores_clearCart sessionId : ignores_catalog (clearCart sessionId).
Proof. intros db ps' _. split; reflexivity. Qed.

Lemma ignores_place_order sessionId now body :
  ignores_catalog (place_order sessionId now body).
Proof.
  unfold place_order. apply ignores_bind.
  { unfold insertOrderSchema_parse.
    destruct (b_customerName body), (b_customerEmail body),
      (b_customerAddress body), (b_customerCity body), (b_customerZip body),
      (b_totalAmount body); (apply ignores_ret || apply ignores_throw). }
  intros orderData. apply ignores_bind; [apply ignores_createOrder|].
  intros order. apply ignores_bind.
  { unfold iterable. destruct (b_orderItems body);
      (apply ignores_ret || apply ignores_throw). }
  intros items. apply ignores_bind.
  { apply ignores_for_of. intros item. unfold create_line.
    apply ignores_bind.
    - unfold insertOrderItemSchema_parse.
      destruct (ib_quantity item), (ib_price item);
        (apply ignores_ret || apply ignores_throw).
    - intros d. apply ignores_bind; [apply ignores_createOrderItem|].
      intros _. apply ignores_ret. }
  intros _. apply ignores_bind; [apply ignores_clearCart|].
  intros _. apply ignores_ret.
Qed.

Lemma post_api_orders_ignores_catalog sessionId now body db ps' :
  map p_id ps' = product_ids db ->
  post_api_orders sessionId now body (set_products db ps') =
  (fst (post_api_orders sessionId now body db),
   set_products (snd (post_api_orders sessionId now body db)) ps').
Proof.
  intros Hids. unfold post_api_orders.
  destruct (ignores_place_order sessionId now body db ps' Hids) as [E _].
  rewrite E. destruct (place_order sessionId now body db) as [[e|o] d];
    reflexivity.
Qed.

Lemma place_order_unknown_product sessionId now body db items item p :
  b_orderItems body = Some items ->
  In item items -> ib_productId item = Some p ->
  ~ In p (product_ids db) ->
  exists e, fst (place_order sessionId now body db) = Threw e.
Proof.
  intros Hitems Hin Hp Hno.
  unfold place_order, bind at 1.
  destruct (insertOrderSchema_parse body db) as [[e|orderData] db0] eqn:E0;
    [now exists e|].
  assert (db0 = db) as ->.
  { unfold insertOrderSchema_parse in E0.
    destruct (b_customerName body), (b_customerEmail body),
      (b_customerAddress body), (b_customerCity body), (b_customerZip body),
      (b_totalAmount body); unfold ret, throw in E0; congruence. }
  unfold bind at 1, createOrder. cbv zeta. cbn [info_columns info_id].
  destruct (Decimal.numeric_10_2 (io_totalAmount orderData)) as [c|];
    [|eexists; reflexivity].
  destruct (existsb _ (order_ids db)); [eexists; reflexivity|].
  set (order := mkOrder _ _ _ _ _ _ _ _ _ _).
  set (db0 := insert_order db order _).
  unfold bind at 1. rewrite Hitems. cbn [iterable ret]. unfold bind at 1.
  destruct (for_of_unknown_product (o_id order) items db0 item p Hin Hp Hno)
    as [e He].
  destruct (for_of items (create_line (o_id order)) db0) as [out db1].
  cbn in He. subst out. now exists e.
Qed.

(** [Decimal.round_half_up n d] is the integer nearest to [n / d], a tie
    going to the larger magnitude. *)
Lemma round_half_up_nearest n d :
  0 < d -> 0 <= n ->
  let q := Decimal.round_half_up n d in
  2 * d * q - d <= 2 * n < 2 * d * q + d.
Proof.
  intros Hd Hn. unfold Decimal.round_half_up. cbn zeta.
  destruct (Z.eq_dec n 0) as [->|Hpos].
  - cbn. lia.
  - rewrite Z.sgn_pos, Z.abs_eq by lia.
    pose proof (Z.div_mod (2 * n + d) (2 * d) ltac:(lia)) as Hdm.
    pose proof (Z.mod_pos_bound (2 * n + d) (2 * d) ltac:(lia)) as Hb.
    lia.
Qed.

Lemma round_half_up_opp n d :
  Decimal.round_half_up (- n) d = - Decimal.round_half_up n d.
Proof.
  unfold Decimal.round_half_up. rewrite Z.sgn_opp, Z.abs_opp. lia.
Qed.

(** 24.995 and -24.995 go to 25.00 and -25.00, 24.994 to 24.99, and the
    binary float 0.1 + 0.2 = 0.30000000000000004 to 0.30; a total of
    100000000.00 does not fit ten digits. *)
Lemma to_scale2_examples :
  Decimal.to_scale2 (Decimal.Literal 24995 3) = 2500 /\
  Decimal.to_scale2 (Decimal.Literal (-24995) 3) = -2500 /\
  Decimal.to_scale2 (Decimal.Literal 24994 3) = 2499 /\
  Decimal.to_scale2 (Decimal.Literal 30000000000000004 17) = 30 /\
  Decimal.numeric_10_2 (Decimal.Literal 9999999999 2) = Some 9999999999 /\
  Decimal.numeric_10_2 (Decimal.Literal 100000000 0) = None.
Proof. repeat split. Qed.

(** The walk-through of the storefront: s1 adds product 1 twice (2, then
    1), the cart shows quantity 3; checkout at 74.97 creates a pending
    order with one line (product 1, quantity 3, price 24.99) and empties
    the cart of s1. *)
Lemma checkout_walkthrough :
  let db' := snd (post_api_orders "s1" 100 Sample.paid Sample.shopping) in
  map ci_quantity (filter (in_session "s1") (cartItems Sample.shopping)) = [3] /\
  map (fun o => (o_totalAmount o, o_status o)) (orders db')
  = [(7497, "pending")] /\
  map (fun i => (oi_productId i, oi_quantity i, oi_price i)) (orderItems db')
  = [(Some 1, 3, 2499)] /\
  getCartItems "s1" db' = [] /\
  List.length (getCartItems "s2" db') = 1%nat.
Proof. cbv zeta. repeat split. Qed.

(* ------------------------------------------------------------------ *)
(** ** Amounts of a placed order *)

(** C1, as stated, fails: the client of session s1 submits a total of 1.00
    and a unit price of 0.01 for three units of a product the catalog sells
    at 24.99; the order is created with exactly these figures, not with the
    catalog's 74.97. *)
Lemma total_taken_from_request :
  exists order db',
    post_api_orders "s1" 100 Sample.underpaid Sample.shopping
    = (Status201 order, db') /\
    o_totalAmount order = 100 /\
    map oi_price (orderItems db') = [1] /\
    catalog_total Sample.shopping [Sample.line 1 3 (Sample.usd 1)] = Some 7497 /\
    currentPrice Sample.shopping 1 = Some 2499 /\
    Some (o_totalAmount order)
    <> catalog_total Sample.shopping [Sample.line 1 3 (Sample.usd 1)].
Proof.
  eexists. eexists. split; [reflexivity|]. repeat split. discriminate.
Qed.

(** C1, amended: For every order created by [POST /api/orders] the stored
    totalAmount is the total submitted in the request, coerced to two
    decimal places (nearest hundredth, ties away from zero), and each stored
    line carries the submitted quantity and the submitted price coerced the
    same way.  The catalog's prices play no part: with any other product
    rows under the same ids the same order and the same lines are stored. *)
Theorem order_amounts_come_from_request sessionId now body db order db'
    (Hplaced : post_api_orders sessionId now body db = (Status201 order, db')) :
  exists total items rows,
    b_totalAmount body = Some total /\
    b_orderItems body = Some items /\
    o_totalAmount order = Decimal.to_scale2 total /\
    orders db' = orders db ++ [order] /\
    orderItems db' = orderItems db ++ rows /\
    Forall2 (fun item row =>
               oi_orderId row = Some (o_id order) /\
               ib_quantity item = Some (oi_quantity row) /\
               exists price, ib_price item = Some price /\
                             oi_price row = Decimal.to_scale2 price)
            items rows /\
    forall ps', map p_id ps' = product_ids db ->
      let repriced :=
        post_api_orders sessionId now body (set_products db ps') in
      fst repriced = Status201 order /\
      orders (snd repriced) = orders db' /\
      orderItems (snd repriced) = orderItems db'.
Proof.
  pose proof (post_api_orders_cases sessionId now body db) as H.
  rewrite Hplaced in H.
  destruct H as (_ & total & items & rows & Ht & Hi & _ & Hamount & Ho & Hr
                 & Hall & _).
  exists total, items, rows. repeat (split; [assumption|]). split.
  - eapply Forall2_impl; [|exact Hall].
    intros item row (Hk & _ & Hq & _ & Hprice). auto.
  - intros ps' Hids. cbn zeta.
    rewrite (post_api_orders_ignores_catalog sessionId now body db ps' Hids).
    rewrite Hplaced. repeat split.
Qed.

Lemma order_amounts_come_from_request_witness :
  exists order,
    fst (post_api_orders "s1" 100 Sample.paid Sample.shopping) = Status201 order
    /\ o_totalAmount order = Decimal.to_scale2 (Sample.usd 7497).
Proof.
  eexists. split; [reflexivity|].
  destruct (order_amounts_come_from_request
              "s1" 100 Sample.paid Sample.shopping _ _ eq_refl)
    as (total & items & rows & Ht & _ & Hamount & _).
  injection Ht as <-. exact Hamount.
Defined.

Lemma clear_on_checkout_witness :
  getCartItems "s1"
    (snd (post_api_orders "s1" 100 Sample.paid Sample.shopping)) = [] /\
  getCartItems "s2"
    (snd (post_api_orders "s1" 100 Sample.paid Sample.shopping)) =
  getCartItems "s2" Sample.shopping.
Proof.
  destruct (clear_on_checkout "s1" 100 Sample.paid Sample.shopping _ _ eq_refl)
    as [(Hmine & _ & Hothers) _].
  split; [exact Hmine|]. apply Hothers. discriminate.
Defined.

(* ------------------------------------------------------------------ *)
(** ** Lines the catalog cannot serve *)

(** C5, as stated, fails: an order for the product that the catalog marks
    as not in stock is accepted; and an order naming a product the catalog
    does not hold is refused with status 500 after its header and its first
    line were written. *)
Lemma sold_out_product_is_ordered :
  (exists order db',
     post_api_orders "s1" 100 Sample.for_sold_out Sample.shopping
     = (Status201 order, db') /\
     ~ failed (Status201 order) /\
     map oi_productId (orderItems db') = [Some 3] /\
     map p_inStock (filter (fun p => p_id p =? 3) (products Sample.shopping))
     = [Some false]) /\
  (let reply := post_api_orders "s1" 100 Sample.for_unknown Sample.shopping in
   fst reply = Status500 /\
   map o_id (orders (snd reply)) = [1] /\
   map oi_productId (orderItems (snd reply)) = [Some 1] /\
   orders (snd reply) <> orders Sample.shopping).
Proof.
  split.
  - eexists. eexists. split; [reflexivity|].
    split; [intros [H|H]; discriminate H|]. split; reflexivity.
  - cbv zeta. repeat split. discriminate.
Qed.

(** C5, amended: Placing an order with a line that references a product id
    absent from the Catalog fails (status 400 or 500, raised by the store's
    foreign key or by an earlier line; there is no NotFound reply), and the
    cart and the catalog are left as they were.  Availability is never
    checked: whatever the stock flags (or any product column other than the
    id) are, every request gets the same reply. *)
Theorem unknown_product_fails_stock_is_ignored
    sessionId now body db items item p
    (Hitems : b_orderItems body = Some items)
    (Hin : In item items)
    (Hproduct : ib_productId item = Some p)
    (Hunknown : ~ In p (product_ids db)) :
  let reply := post_api_orders sessionId now body db in
  (failed (fst reply) /\
   cartItems (snd reply) = cartItems db /\
   products (snd reply) = products db) /\
  (forall s t b ps',
     map p_id ps' = product_ids db ->
     fst (post_api_orders s t b (set_products db ps')) =
     fst (post_api_orders s t b db)).
Proof.
  cbv zeta. split.
  - destruct (place_order_unknown_product sessionId now body db items item p
                Hitems Hin Hproduct Hunknown) as [e He].
    pose proof (place_order_cases sessionId now body db) as H.
    unfold post_api_orders.
    destruct (place_order sessionId now body db) as [out db'].
    cbn in He. subst out. destruct H as (Hp & Hcart & _). cbn [fst snd].
    split; [|auto]. destruct e; [left|right|right]; reflexivity.
  - intros s t b ps' Hids.
    now rewrite (post_api_orders_ignores_catalog s t b db ps' Hids).
Qed.

Lemma unknown_product_fails_stock_is_ignored_witness :
  failed (fst (post_api_orders "s1" 100 Sample.for_unknown Sample.shopping)).
Proof.
  refine (proj1 (proj1 (unknown_product_fails_stock_is_ignored
            "s1" 100 Sample.for_unknown Sample.shopping
            [Sample.line 1 3 (Sample.usd 2499); Sample.line 99 1 (Sample.usd 100)]
            (Sample.line 99 1 (Sample.usd 100)) 99
            eq_refl _ eq_refl _))).
  - right. left. reflexivity.
  - cbn. lia.
Defined.

(* ------------------------------------------------------------------ *)
(** ** Referential consistency is maintained *)

Lemma preserves_ret {A} P (a : A) : preserves P (ret a).
Proof. intros db H. exact H. Qed.

Lemma preserves_throw {A} P (e : Exn) : preserves P (@throw A e).
Proof. intros db H. exact H. Qed.

Lemma preserves_bind {A B} P (m : M A) (k : A -> M B) :
  preserves P m -> (forall a, preserves P (k a)) -> preserves P (bind m k).
Proof.
  intros Hm Hk db H. unfold bind. specialize (Hm db H).
  destruct (m db) as [[e|a] db1]; cbn in *; [exact Hm|].
  now apply Hk.
Qed.

Lemma preserves_for_of {A} P (body : A -> M unit) (xs : list A) :
  (forall x, preserves P (body x)) -> preserves P (for_of xs body).
Proof.
  intros Hbody. induction xs as [|x xs IH]; cbn.
  - apply preserves_ret.
  - apply preserves_bind; auto.
Qed.

Lemma fk_ok_app ref ids more :
  fk_ok ref ids = true -> fk_ok ref (ids ++ more) = true.
Proof.
  destruct ref as [k|]; cbn; [|auto].
  rewrite existsb_app. intros ->. reflexivity.
Qed.

Lemma consistent_createOrder order now :
  preserves consistent (createOrder order now).
Proof.
  intros db Hfk. unfold createOrder. cbv zeta.
  destruct (Decimal.numeric_10_2 (io_totalAmount (info_columns order)));
    [|exact Hfk].
  destruct (existsb _ (order_ids db)); [exact Hfk|].
  cbn [snd]. unfold consistent. cbn [orderItems insert_order].
  eapply Forall_impl; [|exact Hfk]. intros i Hi.
  unfold order_ids. cbn [orders insert_order]. rewrite map_app.
  now apply fk_ok_app.
Qed.

Lemma consistent_createOrderItem item :
  preserves consistent (createOrderItem item).
Proof.
  intros db Hfk. unfold createOrderItem.
  destruct (negb (int4_ok (ioi_quantity item))); [exact Hfk|].
  destruct (Decimal.numeric_10_2 (ioi_price item)); [|exact Hfk].
  destruct (fk_ok (ioi_orderId item) (order_ids db)) eqn:E; cbn; [|exact Hfk].
  destruct (fk_ok (ioi_productId item) (product_ids db)); cbn; [|exact Hfk].
  apply Forall_app. split; [exact Hfk|].
  constructor; [exact E|constructor].
Qed.

Lemma consistent_place_order sessionId now body :
  preserves consistent (place_order sessionId now body).
Proof.
  unfold place_order. apply preserves_bind.
  { unfold insertOrderSchema_parse.
    destruct (b_customerName body), (b_customerEmail body),
      (b_customerAddress body), (b_customerCity body), (b_customerZip body),
      (b_totalAmount body); (apply preserves_ret || apply preserves_throw). }
  intros orderData. apply preserves_bind; [apply consistent_createOrder|].
  intros order. apply preserves_bind.
  { unfold iterable. destruct (b_orderItems body);
      (apply preserves_ret || apply preserves_throw). }
  intros items. apply preserves_bind.
  { apply preserves_for_of. intros item. unfold create_line.
    apply preserves_bind.
    - unfold insertOrderItemSchema_parse.
      destruct (ib_quantity item), (ib_price item);
        (apply preserves_ret || apply preserves_throw).
    - intros d. apply preserves_bind; [apply consistent_createOrderItem|].
      intros _. apply preserves_ret. }
  intros _. apply preserves_bind; [now intros db H|].
  intros _. apply preserves_ret.
Qed.

Lemma consistent_post_api_orders sessionId now body db :
  consistent db -> consistent (snd (post_api_orders sessionId now body db)).
Proof.
  intros H. apply (consistent_place_order sessionId now body) in H.
  unfold post_api_orders.
  now destruct (place_order sessionId now body db) as [[e|o] d].
Qed.

Lemma consistent_cart_operations db :
  consistent db ->
  (forall item, consistent (snd (addToCart item db))) /\
  (forall id q, consistent (snd (updateCartItem id q db))) /\
  (forall id, consistent (snd (removeFromCart id db))) /\
  (forall s, consistent (snd (clearCart s db))) /\
  (forall id patch now, consistent (snd (updateProduct id patch now db))).
Proof.
  intros H. repeat split; intros; try exact H.
  all: try (unfold addToCart;
            destruct (filter (same_line item) (cartItems db));
            repeat match goal with
                   | |- context [if ?b then _ else _] => destruct b
                   end; cbn; apply H).
  all: try (unfold updateCartItem; destruct (int4_ok q); cbn; apply H).
  all: unfold updateProduct;
    destruct (pp_price patch) as [t|]; cbn;
    try destruct (Decimal.numeric_10_2 t); cbn; apply H.
Qed.

Lemma consistent_seeded : consistent Sample.seeded.
Proof. constructor. Qed.

(** No stored line refers to an id that no order has. *)
Lemma consistent_unused_id db k :
  consistent db -> ~ In k (order_ids db) -> order_lines db k = [].
Proof.
  intros Hfk Hfresh. unfold order_lines.
  rewrite (filter_const _ false); [reflexivity|].
  intros i Hi. unfold consistent in Hfk. rewrite Forall_forall in Hfk.
  specialize (Hfk i Hi).
  destruct (oi_orderId i) as [k'|] eqn:E; [|reflexivity]. cbn in *.
  apply Z.eqb_neq. intros <-.
  apply existsb_exists in Hfk as (y & Hy & Heq). apply Z.eqb_eq in Heq.
  now subst y.
Qed.

(* ------------------------------------------------------------------ *)
(** ** Total against lines *)

Lemma stored_lines_total k items rows :
  Forall2 (stored_as k) items rows -> lines_total rows = submitted_total items.
Proof.
  induction 1 as [|item row items rows Hrow _ IH]; [reflexivity|].
  destruct Hrow as (_ & _ & Hq & _ & t & Ht & Hprice).
  unfold lines_total, submitted_total in *. cbn [fold_right].
  rewrite Ht, Hq, Hprice, IH. reflexivity.
Qed.

Lemma stored_lines_selected k items rows :
  Forall2 (stored_as k) items rows ->
  filter (fun i => sql_eq (Some k) (oi_orderId i)) rows = rows.
Proof.
  induction 1 as [|item row items rows Hrow _ IH]; [reflexivity|].
  destruct Hrow as (Hk & _). cbn [filter]. rewrite Hk.
  unfold sql_eq at 1. rewrite Z.eqb_refl, IH. reflexivity.
Qed.

(** C3, as stated, fails: the order created for the underpaying request has
    totalAmount 1.00 while its single line amounts to 3 x 0.01 = 0.03. *)
Lemma total_differs_from_lines :
  exists order db',
    post_api_orders "s1" 100 Sample.underpaid Sample.shopping
    = (Status201 order, db') /\
    o_totalAmount order = 100 /\
    lines_total (order_lines db' (o_id order)) = 3 /\
    o_totalAmount order <> lines_total (order_lines db' (o_id order)).
Proof.
  eexists. eexists. split; [reflexivity|]. repeat split. discriminate.
Qed.

(** C3, amended: For an order created by [POST /api/orders] (on tables
    that are referentially consistent) the order's OrderItems are exactly
    the submitted lines, so the sum of price x quantity over them equals the
    sum of submitted price (coerced to 2 decimals) x submitted quantity,
    while totalAmount is the submitted total coerced to 2 decimals.  The two
    are equal exactly when the request's own figures agree; nothing at
    creation enforces it. *)
Theorem total_matches_lines_iff_request_agrees
    sessionId now body db order db'
    (Hconsistent : consistent db)
    (Hplaced : post_api_orders sessionId now body db = (Status201 order, db')) :
  exists total items,
    b_totalAmount body = Some total /\
    b_orderItems body = Some items /\
    Forall2 (stored_as (o_id order)) items (order_lines db' (o_id order)) /\
    lines_total (order_lines db' (o_id order)) = submitted_total items /\
    o_totalAmount order = Decimal.to_scale2 total /\
    (o_totalAmount order = lines_total (order_lines db' (o_id order)) <->
     Decimal.to_scale2 total = submitted_total items).
Proof.
  pose proof (post_api_orders_cases sessionId now body db) as H.
  rewrite Hplaced in H.
  destruct H as (_ & total & items & rows & Ht & Hi & Hid & Hamount & _ & Hr
                 & Hall & _).
  assert (Hlines : order_lines db' (o_id order) = rows).
  { unfold order_lines. rewrite Hr, filter_app.
    rewrite (stored_lines_selected _ _ _ Hall).
    fold (order_lines db (o_id order)).
    now rewrite consistent_unused_id. }
  exists total, items. rewrite Hlines, (stored_lines_total _ _ _ Hall), Hamount.
  repeat (split; [assumption || reflexivity|]). reflexivity.
Qed.

Lemma total_matches_lines_iff_request_agrees_witness :
  exists order db',
    post_api_orders "s1" 100 Sample.paid Sample.shopping
    = (Status201 order, db') /\
    o_totalAmount order = lines_total (order_lines db' (o_id order)).
Proof.
  eexists. eexists. split; [reflexivity|].
  assert (Hc : consistent Sample.shopping) by (cbv; constructor).
  destruct (total_matches_lines_iff_request_agrees
              "s1" 100 Sample.paid Sample.shopping _ _ Hc eq_refl)
    as (total & items & Ht & Hi & _ & _ & _ & Hiff).
  apply Hiff. injection Ht as <-. injection Hi as <-. reflexivity.
Defined.

(* ------------------------------------------------------------------ *)
(** ** Merging on add *)

Lemma filter_map_same {A} (f : A -> bool) (g : A -> A) (l : list A) :
  (forall x, f (g x) = f x) -> filter f (map g l) = map g (filter f l).
Proof.
  intros H. induction l as [|x l IH]; [reflexivity|]. cbn.
  rewrite H. destruct (f x); cbn; now rewrite IH.
Qed.

Lemma line_of_update sessionId productId k q rows :
  filter (line_of sessionId productId) (update_quantity_where_id k q rows) =
  map (fun c => if ci_id c =? k then set_quantity c q else c)
      (filter (line_of sessionId productId) rows).
Proof.
  unfold update_quantity_where_id. apply filter_map_same.
  intros c. now destruct (ci_id c =? k).
Qed.

(** First add for a pair: a row is created. *)
Lemma addToCart_creates sessionId productId q customizations db :
  filter (line_of sessionId productId) (cartItems db) = [] ->
  In productId (product_ids db) ->
  int4_ok q = true ->
  let newItem :=
    mkCartItem (cart_items_id_seq db) sessionId (Some productId) q
               customizations in
  addToCart (mkInsertCartItem sessionId (Some productId) q customizations) db
  = (Returned (Some newItem), insert_cartItem db newItem).
Proof.
  intros Hnone Hin Hq. unfold addToCart.
  change (filter (same_line _) (cartItems db))
    with (filter (line_of sessionId productId) (cartItems db)).
  rewrite Hnone. cbn. rewrite Hq. cbn.
  replace (existsb (Z.eqb productId) (product_ids db)) with true;
    [reflexivity|].
  symmetry. apply existsb_exists. exists productId.
  split; [assumption|apply Z.eqb_refl].
Qed.

(** Later add for the pair: the existing row's quantity is incremented. *)
Lemma addToCart_increments sessionId productId q customizations db row :
  filter (line_of sessionId productId) (cartItems db) = [row] ->
  int4_ok (ci_quantity row + q) = true ->
  exists returned db',
    addToCart (mkInsertCartItem sessionId (Some productId) q customizations) db
    = (Returned returned, db') /\
    filter (line_of sessionId productId) (cartItems db')
    = [set_quantity row (ci_quantity row + q)] /\
    List.length (cartItems db') = List.length (cartItems db) /\
    products db' = products db.
Proof.
  intros Hone Hq. unfold addToCart.
  change (filter (same_line _) (cartItems db))
    with (filter (line_of sessionId productId) (cartItems db)).
  rewrite Hone. cbn [ici_quantity]. rewrite Hq.
  eexists. eexists. split; [reflexivity|]. cbn [cartItems set_cartItems].
  rewrite line_of_update, Hone. cbn. rewrite Z.eqb_refl.
  repeat split. unfold update_quantity_where_id. apply length_map.
Qed.

Lemma addItems_increments sessionId productId calls :
  forall db row,
    filter (line_of sessionId productId) (cartItems db) = [row] ->
    sums_in_range (ci_quantity row) (map fst calls) = true ->
    exists returned db',
      addItems sessionId productId calls db = (Returned returned, db') /\
      filter (line_of sessionId productId) (cartItems db')
      = [set_quantity row (ci_quantity row + total_quantity (map fst calls))] /\
      List.length (cartItems db') = List.length (cartItems db) /\
      List.length returned = List.length calls.
Proof.
  induction calls as [|[q customizations] rest IH]; intros db row Hone Hsums.
  - exists [], db. cbn. rewrite Z.add_0_r.
    repeat split. rewrite Hone. now destruct row.
  - cbn in Hsums. apply andb_true_iff in Hsums as [Hq Hrest].
    destruct (addToCart_increments sessionId productId q customizations db
                row Hone Hq) as (r & db1 & Hadd & Hone1 & Hlen1 & _).
    destruct (IH db1 _ Hone1 Hrest) as (more & db2 & Hrun & Hone2 & Hlen2 & Hn).
    exists (r :: more), db2. cbn [addItems]. unfold bind at 1. rewrite Hadd.
    unfold bind at 1. rewrite Hrun. cbn in *.
    repeat split; [|congruence|congruence].
    rewrite Hone2. unfold set_quantity, total_quantity. cbn. do 2 f_equal. lia.
Qed.

(** A whole sequence of adds for a fresh pair. *)
Lemma addItems_from_fresh sessionId productId calls db :
  filter (line_of sessionId productId) (cartItems db) = [] ->
  In productId (product_ids db) ->
  calls <> [] ->
  sums_in_range 0 (map fst calls) = true ->
  exists returned db' row,
    addItems sessionId productId calls db = (Returned returned, db') /\
    filter (line_of sessionId productId) (cartItems db') = [row] /\
    ci_quantity row = total_quantity (map fst calls) /\
    ci_id row = cart_items_id_seq db /\
    List.length (cartItems db') = S (List.length (cartItems db)) /\
    List.length returned = List.length calls.
Proof.
  intros Hfresh Hproduct Hcalls Hrange.
  destruct calls as [|[q customizations] rest]; [contradiction|].
  cbn in Hrange. apply andb_true_iff in Hrange as [Hq Hrest].
  pose proof (addToCart_creates sessionId productId q customizations db
                Hfresh Hproduct Hq) as Hadd. cbv zeta in Hadd.
  set (newItem := mkCartItem _ _ _ _ _) in Hadd.
  assert (Hone : filter (line_of sessionId productId)
                        (cartItems (insert_cartItem db newItem)) = [newItem]).
  { cbn [cartItems insert_cartItem]. rewrite filter_app, Hfresh. cbn.
    unfold line_of, in_session. cbn.
    now rewrite String.eqb_refl, Z.eqb_refl. }
  destruct (addItems_increments sessionId productId rest
              (insert_cartItem db newItem) newItem Hone Hrest)
    as (more & db2 & Hrun & Hone2 & Hlen2 & Hn).
  exists (Some newItem :: more), db2,
    (set_quantity newItem (q + total_quantity (map fst rest))).
  cbn [addItems]. unfold bind at 1. rewrite Hadd.
  unfold bind at 1. rewrite Hrun. cbn in *.
  repeat split; [assumption| |congruence].
  rewrite Hlen2, length_app. cbn. lia.
Qed.

Lemma sums_in_range_firstn n qs :
  forall acc,
    sums_in_range acc qs = true -> sums_in_range acc (firstn n qs) = true.
Proof.
  revert qs. induction n as [|n IH]; intros [|q qs] acc H; cbn; auto.
  cbn in H. apply andb_true_iff in H as [Hq Hrest].
  rewrite Hq. cbn. now apply IH.
Qed.

(** C4: Merge invariant.  Start from a cart with no row for the pair
    (session, product), with the product in the catalog and every running
    total within the integer column.  Then after the first n calls of any
    sequence of add-to-cart calls for that pair, for every n from 1 up to
    the whole sequence, all calls have succeeded and exactly one row exists
    for the pair, with quantity q1 + ... + qn.  It is always the row the
    first call created (it bears the id the sequence issued then), and the
    table has grown by that single row: later calls increment it, they do
    not duplicate it. *)
Theorem addToCart_merges sessionId productId calls db
    (Hfresh : filter (line_of sessionId productId) (cartItems db) = [])
    (Hproduct : In productId (product_ids db))
    (Hrange : sums_in_range 0 (map fst calls) = true) :
  forall n, (0 < n <= List.length calls)%nat ->
    exists returned db' row,
      addItems sessionId productId (firstn n calls) db
      = (Returned returned, db') /\
      filter (line_of sessionId productId) (cartItems db') = [row] /\
      ci_quantity row = total_quantity (map fst (firstn n calls)) /\
      ci_id row = cart_items_id_seq db /\
      List.length (cartItems db') = S (List.length (cartItems db)) /\
      List.length returned = n.
Proof.
  intros n [Hpos Hle].
  assert (Hprefix : firstn n calls <> []).
  { destruct n; [lia|]. destruct calls; [cbn in Hle; lia|discriminate]. }
  assert (Hsums : sums_in_range 0 (map fst (firstn n calls)) = true).
  { rewrite <- firstn_map. now apply sums_in_range_firstn. }
  destruct (addItems_from_fresh sessionId productId (firstn n calls) db
              Hfresh Hproduct Hprefix Hsums)
    as (returned & db' & row & Hrun & Hone & Hq & Hid & Hlen & Hn).
  exists returned, db', row. repeat (split; [assumption|]).
  rewrite Hn. apply firstn_length_le. exact Hle.
Qed.

Lemma addToCart_merges_witness :
  exists returned db' row,
    addItems "s1" 1 [(2, None); (1, None)] Sample.seeded
    = (Returned returned, db') /\
    filter (line_of "s1" 1) (cartItems db') = [row] /\
    ci_quantity row = 3.
Proof.
  destruct (addToCart_merges "s1" 1 [(2, None); (1, None)] Sample.seeded)
    with (n := 2%nat)
    as (returned & db' & row & Hrun & Hone & Hq & _).
  - reflexivity.
  - cbn. lia.
  - reflexivity.
  - cbn. lia.
  - exists returned, db', row. repeat split; assumption.
Defined.

(* ------------------------------------------------------------------ *)
(** ** Setting a quantity *)

Lemma update_returning_first id q rows :
  hd_error (filter (fun c => ci_id c =? id)
                   (update_quantity_where_id id q rows)) =
  option_map (fun c => set_quantity c q) (find (fun c => ci_id c =? id) rows).
Proof.
  induction rows as [|c rows IH]; [reflexivity|]. cbn.
  destruct (ci_id c =? id) eqn:E; cbn; rewrite E; [reflexivity|exact IH].
Qed.

Lemma update_without_match id q rows :
  find (fun c => ci_id c =? id) rows = None ->
  update_quantity_where_id id q rows = rows.
Proof.
  unfold update_quantity_where_id.
  induction rows as [|c rows IH]; [reflexivity|]. cbn.
  destruct (ci_id c =? id); [discriminate|]. intros H. now rewrite IH.
Qed.

Lemma update_rowwise id q rows :
  Forall2 (fun c c' =>
             ci_id c' = ci_id c /\
             ci_sessionId c' = ci_sessionId c /\
             ci_productId c' = ci_productId c /\
             ci_customizations c' = ci_customizations c /\
             ci_quantity c' = if ci_id c =? id then q else ci_quantity c)
          rows (update_quantity_where_id id q rows).
Proof.
  induction rows as [|c rows IH]; cbn; constructor; [|exact IH].
  destruct (ci_id c =? id); repeat split.
Qed.

(** C9, as stated, fails: updating the quantity of item 99, which does not
    exist, is answered 200 with no item and no change; setting a quantity
    of zero, or a negative one, on an existing item is accepted and
    stored. *)
Lemma quantity_update_is_unchecked :
  put_api_cart_id (Some 99) 5 Sample.shopping
  = (Status200 None, Sample.shopping) /\
  find (fun c => ci_id c =? 99) (cartItems Sample.shopping) = None /\
  ~ failed (fst (put_api_cart_id (Some 99) 5 Sample.shopping)) /\
  ~ failed (fst (put_api_cart_id (Some 1) 0 Sample.shopping)) /\
  option_map ci_quantity (find (fun c => ci_id c =? 1) (cartItems Sample.shopping))
  = Some 3 /\
  (let reply := put_api_cart_id (Some 1) 0 Sample.shopping in
   status (fst reply) = 200 /\
   option_map ci_quantity (find (fun c => ci_id c =? 1) (cartItems (snd reply)))
   = Some 0) /\
  (let reply := put_api_cart_id (Some 1) (-4) Sample.shopping in
   status (fst reply) = 200 /\
   option_map ci_quantity (find (fun c => ci_id c =? 1) (cartItems (snd reply)))
   = Some (-4)).
Proof.
  cbv zeta. repeat split; try (intros [H|H]; discriminate H).
Qed.

(** C9, amended: [PUT /api/cart/:id] with an id and a quantity that the
    integer columns can hold, the quantity positive or not, never fails.
    When a cart item has the given id, the reply is 200 with that item
    carrying the new quantity; every row with that id gets exactly its
    quantity replaced, every other row and every other table is unchanged.
    When no cart item has the id the reply is 200 without an item and
    nothing changes.  An id that [parseInt] reads as [NaN], or an id or a
    quantity outside the integer range, is answered 500 and changes
    nothing. *)
Theorem quantity_update_sets_any_quantity id quantity db
    (Hid : int4_ok id = true)
    (Hrange : int4_ok quantity = true) :
  let reply := put_api_cart_id (Some id) quantity db in
  let db' := snd reply in
  (match find (fun c => ci_id c =? id) (cartItems db) with
   | Some c => fst reply = Status200 (Some (set_quantity c quantity))
   | None => fst reply = Status200 None /\ cartItems db' = cartItems db
   end /\
   Forall2 (fun c c' =>
              ci_id c' = ci_id c /\
              ci_sessionId c' = ci_sessionId c /\
              ci_productId c' = ci_productId c /\
              ci_customizations c' = ci_customizations c /\
              ci_quantity c' =
              if ci_id c =? id then quantity else ci_quantity c)
           (cartItems db) (cartItems db') /\
   products db' = products db /\
   orders db' = orders db /\
   orderItems db' = orderItems db) /\
  (forall n q,
     n = None \/ (exists k, n = Some k /\ int4_ok k = false) \/
     int4_ok q = false ->
     put_api_cart_id n q db = (Status500, db)).
Proof.
  cbv zeta. split.
  - unfold put_api_cart_id, bind, int4_param, updateCartItem.
    rewrite Hid, Hrange.
    cbn [ret fst snd cartItems set_cartItems products orders orderItems].
    rewrite update_returning_first. split.
    + destruct (find (fun c => ci_id c =? id) (cartItems db)) eqn:E;
        [reflexivity|].
      split; [reflexivity|]. now apply update_without_match.
    + split; [apply update_rowwise|repeat split].
  - intros n q [->|[(k & -> & Hk)|Hq]]; unfold put_api_cart_id, bind, int4_param.
    + reflexivity.
    + now rewrite Hk.
    + unfold updateCartItem. rewrite Hq.
      destruct n as [k|]; [|reflexivity]. now destruct (int4_ok k).
Qed.

Lemma quantity_update_sets_any_quantity_witness :
  fst (put_api_cart_id (Some 1) 7 Sample.shopping)
  = Status200 (Some (mkCartItem 1 "s1" (Some 1) 7 None)).
Proof.
  exact (proj1 (proj1 (quantity_update_sets_any_quantity 1 7 Sample.shopping
                         eq_refl eq_refl))).
Defined.

(* ------------------------------------------------------------------ *)
(** ** The cart listing and its product join *)

Lemma leftJoin_products_row ps c row :
  In row (leftJoin_products ps c) ->
  match cwp_product row with
  | Some p => In p ps /\ ci_productId c = Some (p_id p)
  | None => forall p, In p ps -> ci_productId c <> Some (p_id p)
  end.
Proof.
  unfold leftJoin_products.
  destruct (filter (fun p => sql_eq (ci_productId c) (Some (p_id p))) ps)
    as [|p0 m] eqn:E.
  - intros [<-|[]]. cbn. intros p Hp Heq.
    assert (Hin : In p (filter (fun p => sql_eq (ci_productId c) (Some (p_id p))) ps)).
    { apply filter_In. split; [assumption|]. rewrite Heq. cbn.
      apply Z.eqb_refl. }
    rewrite E in Hin. contradiction.
  - intros H. apply in_map_iff in H as (p & <- & Hp). cbn.
    rewrite <- E in Hp. apply filter_In in Hp as [Hin Hmatch].
    split; [assumption|].
    destruct (ci_productId c) as [k|]; [|discriminate]. cbn in Hmatch.
    apply Z.eqb_eq in Hmatch. now subst k.
Qed.

Lemma leftJoin_products_nonempty ps c : leftJoin_products ps c <> [].
Proof.
  unfold leftJoin_products. now destruct (filter _ ps).
Qed.

(** Under the primary key, at most one product matches a reference. *)
Lemma filter_primary_key ref ps :
  NoDup (map p_id ps) ->
  (List.length (filter (fun p => sql_eq ref (Some (p_id p))) ps) <= 1)%nat.
Proof.
  induction ps as [|p ps IH]; intros Hnd; cbn; [lia|].
  inversion Hnd as [|? ? Hnotin Hnd']; subst.
  destruct (sql_eq ref (Some (p_id p))) eqn:E; [|auto].
  cbn. rewrite (filter_const _ false); [cbn; lia|].
  intros x Hx. destruct ref as [k|]; [|reflexivity]. cbn in *.
  apply Z.eqb_eq in E. subst k. apply Z.eqb_neq. intros Heq.
  apply Hnotin. rewrite Heq. now apply in_map.
Qed.

Lemma leftJoin_products_single ps c :
  NoDup (map p_id ps) -> map cwp_item (leftJoin_products ps c) = [c].
Proof.
  intros Hnd. pose proof (filter_primary_key (ci_productId c) ps Hnd) as Hle.
  unfold leftJoin_products.
  destruct (filter (fun p => sql_eq (ci_productId c) (Some (p_id p))) ps)
    as [|p [|p' m]]; cbn in *; [reflexivity|reflexivity|lia].
Qed.

(** C10: Listing a cart.  With product ids unique (the primary key),
    [getCartItems] returns exactly one entry per cart row of the session,
    in table order; no row is filtered out.  An entry's product is the
    catalog row its item references, and it is NULL exactly when the
    catalog holds no such row (the reference is NULL or the product is
    gone).  Hence every listed product is present, as the view's type
    asserts, if and only if every cart row of the session references a
    product the catalog holds. *)
Theorem getCartItems_left_join sessionId db
    (Hkey : NoDup (product_ids db)) :
  map cwp_item (getCartItems sessionId db) =
  filter (in_session sessionId) (cartItems db) /\
  (forall row, In row (getCartItems sessionId db) ->
     match cwp_product row with
     | Some p =>
         In p (products db) /\ ci_productId (cwp_item row) = Some (p_id p)
     | None =>
         forall p, In p (products db) ->
                   ci_productId (cwp_item row) <> Some (p_id p)
     end) /\
  ((forall row, In row (getCartItems sessionId db) -> cwp_product row <> None)
   <->
   (forall c, In c (cartItems db) -> ci_sessionId c = sessionId ->
      exists p, In p (products db) /\ ci_productId c = Some (p_id p))).
Proof.
  rewrite getCartItems_where_first.
  assert (Hrow : forall row,
             In row (flat_map (leftJoin_products (products db))
                              (filter (in_session sessionId) (cartItems db))) ->
             exists c, In c (cartItems db) /\ ci_sessionId c = sessionId /\
                       In row (leftJoin_products (products db) c)).
  { intros row H. apply in_flat_map in H as (c & Hc & Hrow).
    apply filter_In in Hc as [Hc Hs]. apply String.eqb_eq in Hs. eauto. }
  split; [|split; [|split]].
  - clear Hrow.
    induction (filter (in_session sessionId) (cartItems db)) as [|c cs IH];
      [reflexivity|].
    cbn [flat_map]. rewrite map_app, IH, leftJoin_products_single by exact Hkey.
    reflexivity.
  - intros row H. destruct (Hrow row H) as (c & _ & _ & Hin).
    rewrite (leftJoin_products_item _ _ _ Hin).
    now apply leftJoin_products_row.
  - intros Hsafe c Hc Hs.
    destruct (leftJoin_products (products db) c) as [|row rest] eqn:E;
      [now apply leftJoin_products_nonempty in E|].
    assert (Hin : In row (leftJoin_products (products db) c))
      by (rewrite E; now left).
    assert (Hlisted : In row (flat_map (leftJoin_products (products db))
                        (filter (in_session sessionId) (cartItems db)))).
    { apply in_flat_map. exists c. split; [|exact Hin].
      apply filter_In. split; [exact Hc|]. now apply String.eqb_eq. }
    specialize (Hsafe row Hlisted).
    pose proof (leftJoin_products_row _ _ _ Hin) as Hspec.
    destruct (cwp_product row) as [p|]; [|contradiction]. now exists p.
  - intros Hall row H Hnull. destruct (Hrow row H) as (c & Hc & Hs & Hin).
    destruct (Hall c Hc Hs) as (p & Hp & Href).
    pose proof (leftJoin_products_row _ _ _ Hin) as Hspec.
    rewrite Hnull in Hspec. exact (Hspec p Hp Href).
Qed.

Lemma getCartItems_left_join_witness :
  map cwp_item (getCartItems "s1" Sample.shopping) =
  filter (in_session "s1") (cartItems Sample.shopping).
Proof.
  refine (proj1 (getCartItems_left_join "s1" Sample.shopping _)).
  repeat constructor; cbn; intuition lia.
Defined.

(* ------------------------------------------------------------------ *)
(** ** Order reads under a change of product rows *)

Section ProductChange.

Variable g : Product -> Product.
Hypothesis g_keeps_id : forall p, p_id (g p) = p_id p.

Lemma leftJoin_itemProduct_map ps r :
  leftJoin_itemProduct (map g ps) r = map (row_map g) (leftJoin_itemProduct ps r).
Proof.
  unfold leftJoin_itemProduct. destruct (snd r) as [i|]; [|reflexivity].
  rewrite filter_map_same with (g := g)
    by (intros p; now rewrite g_keeps_id).
  destruct (filter _ ps) as [|p m]; [reflexivity|].
  cbn. f_equal. rewrite !map_map. reflexivity.
Qed.

Lemma flat_map_map_commute {A B} (h : B -> B) (f f' : A -> list B) l :
  (forall x, f' x = map h (f x)) -> flat_map f' l = map h (flat_map f l).
Proof.
  intros H. induction l as [|x l IH]; [reflexivity|].
  cbn. now rewrite map_app, H, IH.
Qed.

Lemma insert_desc_map r l :
  insert_desc (row_map g r) (map (row_map g) l) =
  map (row_map g) (insert_desc r l).
Proof.
  induction l as [|x l IH]; [reflexivity|]. cbn.
  destruct (o_createdAt (row_orders x) <=? o_createdAt (row_orders r));
    [reflexivity|]. cbn. now rewrite IH.
Qed.

Lemma orderBy_map l :
  orderBy_desc_createdAt (map (row_map g) l) =
  map (row_map g) (orderBy_desc_createdAt l).
Proof.
  unfold orderBy_desc_createdAt. induction l as [|x l IH]; [reflexivity|].
  cbn. now rewrite IH, insert_desc_map.
Qed.

Lemma map_has_map m k : map_has (map (ow_map g) m) k = map_has m k.
Proof.
  unfold map_has. induction m as [|e m IH]; [reflexivity|].
  cbn. now rewrite IH.
Qed.

Lemma map_push_map m k i p :
  map_push (map (ow_map g) m) k (i, g p) = map (ow_map g) (map_push m k (i, p)).
Proof.
  unfold map_push. rewrite !map_map. apply map_ext. intros e. cbn.
  destruct (o_id (ow_order e) =? k); [|reflexivity].
  unfold ow_map. cbn. now rewrite map_app.
Qed.

Lemma group_row_map m row :
  group_row (map (ow_map g) m) (row_map g row) =
  map (ow_map g) (group_row m row).
Proof.
  unfold group_row. cbn [row_map row_orders row_order_items row_products].
  rewrite map_has_map.
  assert (E : (if map_has m (o_id (row_orders row))
               then map (ow_map g) m
               else map (ow_map g) m ++ [mkOrderWithItems (row_orders row) []])
              = map (ow_map g)
                    (if map_has m (o_id (row_orders row)) then m
                     else m ++ [mkOrderWithItems (row_orders row) []])).
  { destruct (map_has m (o_id (row_orders row))); [reflexivity|].
    now rewrite map_app. }
  rewrite E. destruct (row_order_items row) as [i|]; [|reflexivity].
  destruct (row_products row) as [p|]; [|reflexivity].
  cbn. apply map_push_map.
Qed.

Lemma fold_group_map rows :
  forall m,
    fold_left group_row (map (row_map g) rows) (map (ow_map g) m) =
    map (ow_map g) (fold_left group_row rows m).
Proof.
  induction rows as [|row rows IH]; intros m; [reflexivity|].
  cbn. now rewrite group_row_map, IH.
Qed.

Lemma snapshot_ow_map ow : snapshot (ow_map g ow) = snapshot ow.
Proof.
  unfold snapshot, ow_map. cbn. now rewrite map_map.
Qed.

Lemma joined_item_map r :
  joined_item (row_map g r) = map (fun l => (fst l, g (snd l))) (joined_item r).
Proof.
  unfold joined_item, row_map. cbn.
  destruct (row_order_items r), (row_products r); reflexivity.
Qed.

Lemma flat_joined_item_map l :
  flat_map joined_item (map (row_map g) l) =
  map (fun x => (fst x, g (snd x))) (flat_map joined_item l).
Proof.
  induction l as [|r l IH]; [reflexivity|].
  cbn [map flat_map]. now rewrite map_app, joined_item_map, IH.
Qed.

Lemma reads_after_product_change db :
  (forall k,
     option_map snapshot (getOrder k (set_products db (map g (products db)))) =
     option_map snapshot (getOrder k db)) /\
  map snapshot (getOrders (set_products db (map g (products db)))) =
  map snapshot (getOrders db).
Proof.
  assert (Hrows : order_rows (set_products db (map g (products db))) =
                  map (row_map g) (order_rows db)).
  { unfold order_rows. cbn [products orders orderItems set_products].
    apply flat_map_map_commute. intros r. apply leftJoin_itemProduct_map. }
  split.
  - intros k. unfold getOrder. rewrite Hrows.
    rewrite filter_map_same by reflexivity.
    destruct (filter (fun r => o_id (row_orders r) =? k) (order_rows db))
      as [|first rest]; [reflexivity|].
    change (map (row_map g) (first :: rest))
      with (row_map g first :: map (row_map g) rest).
    cbv iota beta.
    change (row_map g first :: map (row_map g) rest)
      with (map (row_map g) (first :: rest)).
    rewrite flat_joined_item_map.
    cbn [option_map]. f_equal. unfold snapshot. cbn [ow_order ow_orderItems].
    f_equal. rewrite map_map. reflexivity.
  - unfold getOrders. rewrite Hrows, orderBy_map.
    rewrite (fold_group_map _ []), map_map.
    apply map_ext. intros ow. apply snapshot_ow_map.
Qed.

End ProductChange.

(** C6: Snapshot invariant.  [updateProduct], whatever fields it changes
    and whether or not it succeeds, leaves the order and order-item tables
    untouched, and every order read shows the same header (totalAmount
    included) and the same lines with the same prices and quantities as
    before the call. *)
Theorem updateProduct_keeps_orders id product now db :
  let db' := snd (updateProduct id product now db) in
  orders db' = orders db /\
  orderItems db' = orderItems db /\
  (forall k, option_map snapshot (getOrder k db') =
             option_map snapshot (getOrder k db)) /\
  map snapshot (getOrders db') = map snapshot (getOrders db).
Proof.
  cbv zeta. unfold updateProduct.
  destruct (match pp_price product with
            | Some t => option_map Some (Decimal.numeric_10_2 t)
            | None => Some None
            end) as [price|]; cbn [snd]; [|repeat split].
  split; [reflexivity|]. split; [reflexivity|].
  apply (reads_after_product_change
           (fun p => if p_id p =? id then apply_patch now price product p
                     else p)).
  intros p. now destruct (p_id p =? id).
Qed.

(* ------------------------------------------------------------------ *)
(** ** What the order reads return *)

Lemma sql_eq_true a b : sql_eq a b = true <-> exists k, a = Some k /\ b = Some k.
Proof.
  destruct a as [x|], b as [y|]; cbn; split;
    try discriminate; try (intros (k & H1 & H2); discriminate).
  - intros H%Z.eqb_eq. subst. eauto.
  - intros (k & H1 & H2). apply Z.eqb_eq. congruence.
Qed.

(** The fully joined rows are the triples order / line of that order /
    catalog row of that line. *)
Lemma order_rows_joined db o i p :
  In (mkJoinRow o (Some i) (Some p)) (order_rows db) <->
  In o (orders db) /\ joins db (o_id o) i p.
Proof.
  unfold order_rows, joins. rewrite in_flat_map. split.
  - intros ([o' oi] & Hpair & Hrow).
    apply in_flat_map in Hpair as (o0 & Ho0 & Hpair).
    unfold leftJoin_orderItems in Hpair.
    unfold leftJoin_itemProduct in Hrow. cbn [fst snd] in Hrow.
    destruct oi as [i'|]; [|destruct Hrow as [Hrow|[]]; discriminate].
    assert (Hi' : In (o', Some i')
                    (map (fun i => (o0, Some i))
                       (filter (fun i => sql_eq (Some (o_id o0)) (oi_orderId i))
                               (orderItems db)))).
    { destruct (filter _ (orderItems db)); [|exact Hpair].
      destruct Hpair as [Hpair|[]]; discriminate. }
    apply in_map_iff in Hi' as (i0 & Heq & Hi0). injection Heq as <- <-.
    apply filter_In in Hi0 as [Hi0 Hmatch].
    apply sql_eq_true in Hmatch as (k & Hk1 & Hk2). injection Hk1 as <-.
    assert (Hp : In (mkJoinRow o (Some i) (Some p))
                   (map (fun p => mkJoinRow o0 (Some i0) (Some p))
                      (filter (fun p => sql_eq (oi_productId i0) (Some (p_id p)))
                              (products db)))).
    { destruct (filter _ (products db)); [|exact Hrow].
      destruct Hrow as [Hrow|[]]; discriminate. }
    apply in_map_iff in Hp as (p0 & Heq & Hp0). injection Heq as <- <- <-.
    apply filter_In in Hp0 as [Hp0 Hmatch].
    apply sql_eq_true in Hmatch as (k & Hk1 & Hk3). injection Hk3 as <-.
    auto.
  - intros (Ho & Hi & Hk & Hp & Href).
    exists (o, Some i). split.
    + apply in_flat_map. exists o. split; [assumption|].
      unfold leftJoin_orderItems.
      assert (Hin : In i (filter (fun i => sql_eq (Some (o_id o)) (oi_orderId i))
                                 (orderItems db))).
      { apply filter_In. split; [assumption|]. rewrite Hk. cbn.
        apply Z.eqb_refl. }
      destruct (filter _ (orderItems db)); [contradiction|].
      apply in_map_iff. eauto.
    + unfold leftJoin_itemProduct. cbn [fst snd].
      assert (Hin : In p (filter (fun p => sql_eq (oi_productId i) (Some (p_id p)))
                                 (products db))).
      { apply filter_In. split; [assumption|]. rewrite Href. cbn.
        apply Z.eqb_refl. }
      destruct (filter _ (products db)); [contradiction|].
      apply in_map_iff. eauto.
Qed.

Lemma leftJoin_itemProduct_order ps r row :
  In row (leftJoin_itemProduct ps r) -> row_orders row = fst r.
Proof.
  unfold leftJoin_itemProduct. destruct (snd r) as [i|].
  - destruct (filter _ ps).
    + intros [<-|[]]. reflexivity.
    + intros H. apply in_map_iff in H as (q & <- & _). reflexivity.
  - intros [<-|[]]. reflexivity.
Qed.

Lemma leftJoin_orderItems_order items o r :
  In r (leftJoin_orderItems items o) -> fst r = o.
Proof.
  unfold leftJoin_orderItems. destruct (filter _ items).
  - intros [<-|[]]. reflexivity.
  - intros H. apply in_map_iff in H as (i & <- & _). reflexivity.
Qed.

(** Every joined row carries an order of the table, and every order of the
    table heads at least one row. *)
Lemma order_rows_orders db o :
  In o (orders db) <-> exists row, In row (order_rows db) /\ row_orders row = o.
Proof.
  unfold order_rows. split.
  - intros Ho.
    destruct (leftJoin_orderItems (orderItems db) o) as [|r rs] eqn:E1.
    { unfold leftJoin_orderItems in E1. now destruct (filter _ (orderItems db)). }
    assert (Hr : In r (leftJoin_orderItems (orderItems db) o))
      by (rewrite E1; now left).
    destruct (leftJoin_itemProduct (products db) r) as [|row rows] eqn:E2.
    { unfold leftJoin_itemProduct in E2.
      destruct (snd r); [|discriminate].
      now destruct (filter _ (products db)). }
    assert (Hrow : In row (leftJoin_itemProduct (products db) r))
      by (rewrite E2; now left).
    exists row. split.
    + apply in_flat_map. exists r. split; [|exact Hrow].
      apply in_flat_map. now exists o.
    + rewrite (leftJoin_itemProduct_order _ _ _ Hrow).
      now apply leftJoin_orderItems_order in Hr.
  - intros (row & Hrow & <-).
    apply in_flat_map in Hrow as (r & Hr & Hrow).
    apply in_flat_map in Hr as (o & Ho & Hr).
    rewrite (leftJoin_itemProduct_order _ _ _ Hrow).
    now rewrite (leftJoin_orderItems_order _ _ _ Hr).
Qed.

Lemma joined_item_In row x :
  In x (joined_item row) <->
  row = mkJoinRow (row_orders row) (Some (fst x)) (Some (snd x)).
Proof.
  unfold joined_item. destruct row as [o [i|] [p|]]; cbn; split;
    try contradiction; try discriminate.
  - intros [<-|[]]. reflexivity.
  - intros H. injection H as -> ->. left. now destruct x.
Qed.

Lemma insert_desc_In r l x : In x (insert_desc r l) <-> x = r \/ In x l.
Proof.
  induction l as [|y l IH]; cbn; [intuition|].
  destruct (o_createdAt (row_orders y) <=? o_createdAt (row_orders r)); cbn;
    [intuition|].
  rewrite IH. intuition.
Qed.

Lemma orderBy_In l x : In x (orderBy_desc_createdAt l) <-> In x l.
Proof.
  unfold orderBy_desc_createdAt. induction l as [|y l IH]; cbn; [reflexivity|].
  rewrite insert_desc_In, IH. intuition.
Qed.

(** *** The grouping map of [getOrders] *)

Lemma map_has_keys m k : map_has m k = true <-> In k (keys m).
Proof.
  unfold map_has, keys. rewrite existsb_exists, in_map_iff. split.
  - intros (e & He & Hk). apply Z.eqb_eq in Hk. eauto.
  - intros (e & Hk & He). exists e. split; [assumption|]. now apply Z.eqb_eq.
Qed.

Lemma keys_push m k y : keys (map_push m k y) = keys m.
Proof.
  unfold keys, map_push. rewrite map_map. apply map_ext. intros e.
  now destruct (o_id (ow_order e) =? k).
Qed.

Lemma listed_new_entry m o k x :
  listed (m ++ [mkOrderWithItems o []]) k x <-> listed m k x.
Proof.
  unfold listed. split; intros (e & He & Hk & Hx).
  - apply in_app_or in He as [He|[<-|[]]]; [eauto|contradiction].
  - exists e. split; [apply in_or_app; now left|auto].
Qed.

Lemma listed_push m k0 y k x :
  listed (map_push m k0 y) k x <->
  listed m k x \/ (k = k0 /\ x = y /\ In k0 (keys m)).
Proof.
  unfold listed, map_push, keys. split.
  - intros (e' & He & Hk & Hx). apply in_map_iff in He as (e & <- & He).
    destruct (o_id (ow_order e) =? k0) eqn:E; [|left; eauto].
    apply Z.eqb_eq in E. cbn in Hk, Hx. apply in_app_or in Hx as [Hx|[<-|[]]].
    + left. eauto.
    + right. subst. repeat split. apply in_map_iff. eauto.
  - intros [(e & He & Hk & Hx)|(-> & -> & Hin)].
    + exists (if o_id (ow_order e) =? k0
              then mkOrderWithItems (ow_order e) (ow_orderItems e ++ [y])
              else e).
      split; [apply in_map_iff; eauto|].
      destruct (o_id (ow_order e) =? k0); cbn; [|auto].
      split; [assumption|]. apply in_or_app. now left.
    + apply in_map_iff in Hin as (e & Hk & He).
      exists (mkOrderWithItems (ow_order e) (ow_orderItems e ++ [y])).
      split; [|cbn; split; [assumption|apply in_or_app; right; now left]].
      apply in_map_iff. exists e. split; [|assumption].
      apply Z.eqb_eq in Hk. now rewrite Hk.
Qed.

Lemma group_row_listed m row k x :
  listed (group_row m row) k x <->
  listed m k x \/ (o_id (row_orders row) = k /\ In x (joined_item row)).
Proof.
  unfold group_row, joined_item.
  set (id := o_id (row_orders row)).
  set (m1 := if map_has m id then m
             else m ++ [mkOrderWithItems (row_orders row) []]).
  assert (Hm1 : listed m1 k x <-> listed m k x).
  { unfold m1. destruct (map_has m id); [reflexivity|].
    apply listed_new_entry. }
  assert (Hid : In id (keys m1)).
  { unfold m1. destruct (map_has m id) eqn:E; [now apply map_has_keys|].
    unfold keys. rewrite map_app. apply in_or_app. right. now left. }
  destruct (row_order_items row) as [i|], (row_products row) as [p|];
    cbn [In]; try (rewrite Hm1; intuition).
  rewrite listed_push, Hm1. intuition; subst; auto.
Qed.

Lemma fold_group_listed rows k x :
  forall m,
    listed (fold_left group_row rows m) k x <->
    listed m k x \/
    exists row, In row rows /\ o_id (row_orders row) = k /\
                In x (joined_item row).
Proof.
  induction rows as [|row rows IH]; intros m; cbn [fold_left].
  - split; [auto|]. intros [H|(row & [] & _)]. exact H.
  - rewrite IH, group_row_listed. split.
    + intros [[H|H]|(r & Hr & H)]; [auto| |].
      * right. exists row. split; [now left|exact H].
      * right. exists r. split; [now right|exact H].
    + intros [H|(r & [<-|Hr] & H)]; [auto|auto|].
      right. eauto.
Qed.

Lemma group_row_keys m row :
  NoDup (keys m) ->
  NoDup (keys (group_row m row)) /\
  forall k, In k (keys (group_row m row)) <->
            In k (keys m) \/ k = o_id (row_orders row).
Proof.
  intros Hnd. unfold group_row.
  set (id := o_id (row_orders row)).
  set (m1 := if map_has m id then m
             else m ++ [mkOrderWithItems (row_orders row) []]).
  assert (Hm1 : NoDup (keys m1) /\
                forall k, In k (keys m1) <-> In k (keys m) \/ k = id).
  { unfold m1. destruct (map_has m id) eqn:E.
    - split; [assumption|]. intros k. split; [auto|].
      intros [H| ->]; [assumption|now apply map_has_keys].
    - unfold keys. rewrite map_app. cbn. fold (keys m). split.
      + apply NoDup_app; [assumption|repeat constructor; auto|].
        intros k Hk [<-|[]]. apply map_has_keys in Hk.
        fold id in Hk. congruence.
      + intros k. rewrite in_app_iff. cbn. intuition. }
  destruct (row_order_items row), (row_products row);
    rewrite ?keys_push; exact Hm1.
Qed.

Lemma fold_group_keys rows :
  forall m,
    NoDup (keys m) ->
    NoDup (keys (fold_left group_row rows m)) /\
    forall k, In k (keys (fold_left group_row rows m)) <->
              In k (keys m) \/
              exists row, In row rows /\ o_id (row_orders row) = k.
Proof.
  induction rows as [|row rows IH]; intros m Hnd; cbn [fold_left].
  - split; [assumption|]. intros k. split; [auto|].
    intros [H|(row & [] & _)]. exact H.
  - destruct (group_row_keys m row Hnd) as [Hnd1 Hk1].
    destruct (IH _ Hnd1) as [Hnd2 Hk2]. split; [assumption|].
    intros k. rewrite Hk2, Hk1. split.
    + intros [[H| ->]|(r & Hr & H)]; [auto| |].
      * right. exists row. split; [now left|reflexivity].
      * right. exists r. split; [now right|exact H].
    + intros [H|(r & [<-|Hr] & H)]; [auto|auto|]. right. eauto.
Qed.

(** Every entry shows the order of some joined row. *)
Lemma fold_group_orders (P : Order -> Prop) rows :
  forall m,
    Forall (fun e => P (ow_order e)) m ->
    Forall (fun row => P (row_orders row)) rows ->
    Forall (fun e => P (ow_order e)) (fold_left group_row rows m).
Proof.
  induction rows as [|row rows IH]; intros m Hm Hrows; cbn [fold_left];
    [assumption|].
  inversion Hrows as [|? ? Hrow Hrest]; subst. apply IH; [|assumption].
  unfold group_row.
  set (m1 := if map_has m (o_id (row_orders row)) then m
             else m ++ [mkOrderWithItems (row_orders row) []]).
  assert (Hm1 : Forall (fun e => P (ow_order e)) m1).
  { unfold m1. destruct (map_has m (o_id (row_orders row))); [assumption|].
    apply Forall_app. split; [assumption|]. now repeat constructor. }
  destruct (row_order_items row), (row_products row); try exact Hm1.
  unfold map_push. apply Forall_map. eapply Forall_impl; [|exact Hm1].
  intros e He. now destruct (o_id (ow_order e) =? o_id (row_orders row)).
Qed.

Lemma keys_unique m e e' :
  NoDup (keys m) -> In e m -> In e' m ->
  o_id (ow_order e) = o_id (ow_order e') -> e = e'.
Proof.
  unfold keys. induction m as [|a m IH]; intros Hnd He He' Hk; [contradiction|].
  cbn in Hnd. inversion Hnd as [|? ? Hnotin Hnd']; subst.
  destruct He as [<-|He], He' as [<-|He']; auto.
  - exfalso. apply Hnotin. rewrite Hk.
    now apply (in_map (fun e => o_id (ow_order e))).
  - exfalso. apply Hnotin. rewrite <- Hk.
    now apply (in_map (fun e => o_id (ow_order e))).
Qed.

(** *** Order of the returned lines *)

Lemma flat_map_flat_map {A B C} (f : A -> list B) (g : B -> list C) l :
  flat_map g (flat_map f l) = flat_map (fun x => flat_map g (f x)) l.
Proof.
  induction l as [|x l IH]; [reflexivity|].
  cbn. now rewrite flat_map_app, IH.
Qed.

Lemma order_rows_by_order db :
  order_rows db = flat_map (rows_of_order db) (orders db).
Proof. unfold order_rows, rows_of_order. apply flat_map_flat_map. Qed.

Lemma rows_of_order_order db o row :
  In row (rows_of_order db o) -> row_orders row = o.
Proof.
  unfold rows_of_order. intros H. apply in_flat_map in H as (r & Hr & Hrow).
  rewrite (leftJoin_itemProduct_order _ _ _ Hrow).
  now apply leftJoin_orderItems_order in Hr.
Qed.

Lemma joined_of_line ps o i :
  flat_map joined_item (leftJoin_itemProduct ps (o, Some i)) =
  map (pair i) (filter (fun p => sql_eq (oi_productId i) (Some (p_id p))) ps).
Proof.
  unfold leftJoin_itemProduct. cbn [fst snd].
  destruct (filter _ ps) as [|p m]; [reflexivity|].
  generalize (p :: m). intros l. induction l as [|q l IH]; [reflexivity|].
  cbn. now rewrite <- IH.
Qed.

Lemma joined_of_order db o :
  flat_map joined_item (rows_of_order db o) = joined_lines db (o_id o).
Proof.
  unfold rows_of_order, joined_lines, order_lines, leftJoin_orderItems.
  rewrite flat_map_flat_map.
  destruct (filter (fun i => sql_eq (Some (o_id o)) (oi_orderId i))
                   (orderItems db)) as [|i m]; [reflexivity|].
  generalize (i :: m). intros l. induction l as [|j l IH]; [reflexivity|].
  cbn [map flat_map]. now rewrite joined_of_line, IH.
Qed.

Lemma rows_where_order db k :
  filter (fun r => o_id (row_orders r) =? k) (order_rows db) =
  flat_map (rows_of_order db) (filter (fun o => o_id o =? k) (orders db)).
Proof.
  rewrite order_rows_by_order.
  induction (orders db) as [|o os IH]; [reflexivity|].
  cbn [flat_map filter]. rewrite filter_app, IH.
  rewrite (filter_const _ (o_id o =? k)).
  - destruct (o_id o =? k); reflexivity.
  - intros row Hrow. now rewrite (rows_of_order_order _ _ _ Hrow).
Qed.

Lemma order_primary_key os k :
  NoDup (map o_id os) ->
  (List.length (filter (fun o => (o_id o =? k)%Z) os) <= 1)%nat.
Proof.
  induction os as [|o os IH]; intros Hnd; cbn; [lia|].
  inversion Hnd as [|? ? Hnotin Hnd']; subst.
  destruct (o_id o =? k) eqn:E; [|auto].
  cbn. rewrite (filter_const _ false); [cbn; lia|].
  intros x Hx. apply Z.eqb_eq in E. subst k. apply Z.eqb_neq. intros Heq.
  apply Hnotin. rewrite <- Heq. now apply in_map.
Qed.

(** Under the primary key, the rows selected for an order id are the rows
    of the one order that has it. *)
Lemma joined_where_order db o :
  NoDup (order_ids db) -> In o (orders db) ->
  flat_map joined_item
           (filter (fun r => o_id (row_orders r) =? o_id o) (order_rows db))
  = joined_lines db (o_id o).
Proof.
  intros Hkey Ho. rewrite rows_where_order.
  pose proof (order_primary_key (orders db) (o_id o) Hkey) as Hle.
  assert (Hin : In o (filter (fun o' => o_id o' =? o_id o) (orders db)))
    by (apply filter_In; split; [assumption|apply Z.eqb_refl]).
  destruct (filter (fun o' => o_id o' =? o_id o) (orders db))
    as [|o1 [|o2 rest]]; cbn in Hle; [contradiction| |lia].
  destruct Hin as [->|[]]. cbn [flat_map]. rewrite app_nil_r.
  apply joined_of_order.
Qed.

Lemma same_id_same_order os o o' :
  NoDup (map o_id os) -> In o os -> In o' os -> o_id o = o_id o' -> o = o'.
Proof.
  induction os as [|a os IH]; intros Hnd Ho Ho' Hk; [contradiction|].
  cbn in Hnd. inversion Hnd as [|? ? Hnotin Hnd']; subst.
  destruct Ho as [<-|Ho], Ho' as [<-|Ho']; auto.
  - exfalso. apply Hnotin. rewrite Hk. now apply in_map.
  - exfalso. apply Hnotin. rewrite <- Hk. now apply in_map.
Qed.

(** The sort is stable: rows that share their creation time keep their
    relative order. *)
Lemma insert_desc_stable (P : JoinRow -> bool) r l :
  (P r = true -> forall x, In x l -> P x = true ->
                 o_createdAt (row_orders x) = o_createdAt (row_orders r)) ->
  filter P (insert_desc r l) = (if P r then [r] else []) ++ filter P l.
Proof.
  induction l as [|x l IH]; intros Hsame; cbn [insert_desc].
  - cbn. now destruct (P r).
  - destruct (o_createdAt (row_orders x) <=? o_createdAt (row_orders r)) eqn:E.
    + cbn [filter]. now destruct (P r).
    + cbn [filter]. rewrite IH by (intros Hr y Hy; apply Hsame; auto; now right).
      destruct (P r) eqn:Hr; [|reflexivity].
      destruct (P x) eqn:Hx; [|reflexivity].
      exfalso. specialize (Hsame eq_refl x (or_introl eq_refl) Hx).
      apply Z.leb_gt in E. lia.
Qed.

Lemma orderBy_stable (P : JoinRow -> bool) l :
  (forall x y, In x l -> In y l -> P x = true -> P y = true ->
               o_createdAt (row_orders x) = o_createdAt (row_orders y)) ->
  filter P (orderBy_desc_createdAt l) = filter P l.
Proof.
  unfold orderBy_desc_createdAt.
  induction l as [|r l IH]; intros Hsame; [reflexivity|].
  cbn [fold_right]. rewrite insert_desc_stable.
  - rewrite IH by (intros x y Hx Hy; apply Hsame; now right).
    cbn [filter]. now destruct (P r).
  - intros Hr x Hx HPx. fold (orderBy_desc_createdAt l) in Hx.
    rewrite orderBy_In in Hx. apply Hsame; auto; [now right|now left].
Qed.

Lemma items_of_unique m e :
  NoDup (keys m) -> In e m -> items_of m (o_id (ow_order e)) = ow_orderItems e.
Proof.
  unfold items_of, keys. induction m as [|a m IH]; intros Hnd He; [contradiction|].
  cbn in Hnd. inversion Hnd as [|? ? Hnotin Hnd']; subst. cbn [filter].
  destruct He as [->|He].
  - rewrite Z.eqb_refl. cbn [flat_map].
    rewrite (filter_const _ false); [cbn; apply app_nil_r|].
    intros x Hx. apply Z.eqb_neq. intros Heq. apply Hnotin. rewrite <- Heq.
    now apply (in_map (fun e => o_id (ow_order e))).
  - destruct (o_id (ow_order a) =? o_id (ow_order e)) eqn:E; [|auto].
    exfalso. apply Z.eqb_eq in E. apply Hnotin. rewrite E.
    now apply (in_map (fun e => o_id (ow_order e))).
Qed.

Lemma items_of_push m k0 y k :
  NoDup (keys m) -> In k0 (keys m) ->
  items_of (map_push m k0 y) k =
  items_of m k ++ (if k0 =? k then [y] else []).
Proof.
  unfold items_of, map_push, keys.
  induction m as [|a m IH]; intros Hnd Hin; [contradiction|].
  cbn in Hnd. inversion Hnd as [|? ? Hnotin Hnd']; subst.
  cbn [map filter].
  destruct (o_id (ow_order a) =? k0) eqn:Ea.
  - apply Z.eqb_eq in Ea. cbn [ow_order]. rewrite Ea.
    assert (Hrest : map (fun e => if o_id (ow_order e) =? k0
                                  then mkOrderWithItems (ow_order e)
                                         (ow_orderItems e ++ [y])
                                  else e) m = m).
    { rewrite <- (map_id m) at 2. apply map_ext_in. intros e He.
      destruct (o_id (ow_order e) =? k0) eqn:E; [|reflexivity].
      exfalso. apply Z.eqb_eq in E. apply Hnotin. rewrite Ea, <- E.
      now apply (in_map (fun e => o_id (ow_order e))). }
    rewrite Hrest.
    destruct (k0 =? k) eqn:Ek; cbn [flat_map ow_orderItems].
    + rewrite (filter_const _ false); [cbn; now rewrite !app_nil_r|].
      intros x Hx. apply Z.eqb_eq in Ek. subst k. apply Z.eqb_neq.
      intros Heq. apply Hnotin. rewrite Ea, <- Heq.
      now apply (in_map (fun e => o_id (ow_order e))).
    + now rewrite app_nil_r.
  - destruct Hin as [Hin|Hin]; [apply Z.eqb_neq in Ea; contradiction|].
    destruct (o_id (ow_order a) =? k); cbn [flat_map];
      rewrite (IH Hnd' Hin); [now rewrite app_assoc|reflexivity].
Qed.

Lemma items_of_new_entry m o k :
  items_of (m ++ [mkOrderWithItems o []]) k = items_of m k.
Proof.
  unfold items_of. rewrite filter_app, flat_map_app. cbn.
  destruct (o_id o =? k); cbn; apply app_nil_r.
Qed.

Lemma group_row_items_of m row k :
  NoDup (keys m) ->
  items_of (group_row m row) k =
  items_of m k ++ (if o_id (row_orders row) =? k then joined_item row else []).
Proof.
  intros Hnd. unfold group_row, joined_item.
  set (id := o_id (row_orders row)).
  set (m1 := if map_has m id then m
             else m ++ [mkOrderWithItems (row_orders row) []]).
  assert (Hitems : items_of m1 k = items_of m k).
  { unfold m1. destruct (map_has m id); [reflexivity|].
    apply items_of_new_entry. }
  assert (Hm1 : NoDup (keys m1) /\ In id (keys m1)).
  { unfold m1. destruct (map_has m id) eqn:E.
    - split; [assumption|now apply map_has_keys].
    - unfold keys. rewrite map_app. cbn. fold (keys m). split.
      + apply NoDup_app; [assumption|repeat constructor; auto|].
        intros k' Hk [<-|[]]. apply map_has_keys in Hk. fold id in Hk.
        congruence.
      + apply in_or_app. right. now left. }
  destruct Hm1 as [Hnd1 Hin1].
  destruct (row_order_items row) as [i|], (row_products row) as [p|];
    rewrite ?Hitems; try (destruct (id =? k); now rewrite app_nil_r).
  rewrite items_of_push, Hitems by assumption. reflexivity.
Qed.

Lemma fold_group_items_of rows k :
  forall m,
    NoDup (keys m) ->
    items_of (fold_left group_row rows m) k =
    items_of m k ++
    flat_map joined_item (filter (fun r => o_id (row_orders r) =? k) rows).
Proof.
  induction rows as [|row rows IH]; intros m Hnd; cbn [fold_left filter].
  - cbn. now rewrite app_nil_r.
  - rewrite IH by (now apply group_row_keys).
    rewrite group_row_items_of by assumption. rewrite <- app_assoc.
    destruct (o_id (row_orders row) =? k); reflexivity.
Qed.

(** Every order of the table is found by [getOrder]. *)
Lemma getOrder_finds db o : In o (orders db) -> getOrder (o_id o) db <> None.
Proof.
  intros Ho. unfold getOrder.
  apply order_rows_orders in Ho as (row & Hrow & <-).
  assert (H : In row (filter (fun r => o_id (row_orders r) =? o_id (row_orders row))
                             (order_rows db)))
    by (apply filter_In; split; [assumption|apply Z.eqb_refl]).
  destruct (filter _ (order_rows db)); [contradiction|discriminate].
Qed.

Lemma getOrders_entries db :
  NoDup (keys (getOrders db)) /\
  (forall k, In k (keys (getOrders db)) <->
             exists o, In o (orders db) /\ o_id o = k) /\
  (forall k x, listed (getOrders db) k x <->
               (exists o, In o (orders db) /\ o_id o = k) /\
               joins db k (fst x) (snd x)) /\
  Forall (fun e => In (ow_order e) (orders db)) (getOrders db).
Proof.
  unfold getOrders.
  destruct (fold_group_keys (orderBy_desc_createdAt (order_rows db)) []
              (NoDup_nil _)) as [Hnd Hkeys].
  split; [exact Hnd|]. split; [|split].
  - intros k. rewrite Hkeys. split.
    + intros [[]|(row & Hrow & Hk)]. rewrite orderBy_In in Hrow.
      exists (row_orders row). split; [|exact Hk].
      apply order_rows_orders. exists row. now split.
    + intros (o & Ho & Hk). right.
      apply order_rows_orders in Ho as (row & Hrow & <-).
      exists row. split; [now apply orderBy_In|exact Hk].
  - intros k x. rewrite fold_group_listed. split.
    + intros [(e & [] & _)|(row & Hrow & Hk & Hx)].
      rewrite orderBy_In in Hrow. apply joined_item_In in Hx.
      rewrite Hx in Hrow. apply order_rows_joined in Hrow as [Ho Hj].
      rewrite Hk in Hj. eauto.
    + intros ((o & Ho & <-) & Hj). right.
      exists (mkJoinRow o (Some (fst x)) (Some (snd x))).
      split; [|split; [reflexivity|now apply joined_item_In]].
      apply orderBy_In. now apply order_rows_joined.
  - apply (fold_group_orders (fun o => In o (orders db))); [constructor|].
    apply Forall_forall. intros row Hrow. rewrite orderBy_In in Hrow.
    apply order_rows_orders. exists row. now split.
Qed.

(** *** The reads, whatever order the rows come in *)

Lemma Permutation_filter_same {A} (f : A -> bool) (l l' : list A) :
  Permutation l l' -> Permutation (filter f l) (filter f l').
Proof.
  induction 1 as [|x l l' _ IH|x y l|l l' l'' _ IH1 _ IH2]; cbn.
  - constructor.
  - destruct (f x); [now constructor|exact IH].
  - destruct (f x), (f y); try apply Permutation_refl. constructor.
  - now transitivity (filter f l').
Qed.

Lemma insert_desc_permutation r l : Permutation (r :: l) (insert_desc r l).
Proof.
  induction l as [|x l IH]; cbn; [apply Permutation_refl|].
  destruct (o_createdAt (row_orders x) <=? o_createdAt (row_orders r));
    [apply Permutation_refl|].
  transitivity (x :: r :: l); [constructor|now constructor].
Qed.

Lemma orderBy_permutation l : Permutation l (orderBy_desc_createdAt l).
Proof.
  unfold orderBy_desc_createdAt. induction l as [|r l IH]; cbn; [constructor|].
  transitivity (r :: fold_right insert_desc [] l); [now constructor|].
  apply insert_desc_permutation.
Qed.

Lemma result_rows {A} (l result : list A) :
  Permutation l result -> forall x, In x result <-> In x l.
Proof.
  intros H x. split; intros Hx.
  - apply Permutation_sym in H. now apply (Permutation_in x H).
  - now apply (Permutation_in x H).
Qed.

Lemma getOrders_of_entries db result :
  Permutation (order_rows db) result ->
  NoDup (keys (getOrders_of result)) /\
  (forall k, In k (keys (getOrders_of result)) <->
             exists o, In o (orders db) /\ o_id o = k) /\
  (forall k x, listed (getOrders_of result) k x <->
               (exists o, In o (orders db) /\ o_id o = k) /\
               joins db k (fst x) (snd x)) /\
  Forall (fun e => In (ow_order e) (orders db)) (getOrders_of result).
Proof.
  intros Hperm. pose proof (result_rows _ _ Hperm) as Hrows.
  unfold getOrders_of.
  destruct (fold_group_keys result [] (NoDup_nil _)) as [Hnd Hkeys].
  split; [exact Hnd|]. split; [|split].
  - intros k. rewrite Hkeys. split.
    + intros [[]|(row & Hrow & Hk)]. rewrite Hrows in Hrow.
      exists (row_orders row). split; [|exact Hk].
      apply order_rows_orders. exists row. now split.
    + intros (o & Ho & Hk). right.
      apply order_rows_orders in Ho as (row & Hrow & <-).
      exists row. split; [now apply Hrows|exact Hk].
  - intros k x. rewrite fold_group_listed. split.
    + intros [(e & [] & _)|(row & Hrow & Hk & Hx)].
      rewrite Hrows in Hrow. apply joined_item_In in Hx.
      rewrite Hx in Hrow. apply order_rows_joined in Hrow as [Ho Hj].
      rewrite Hk in Hj. eauto.
    + intros ((o & Ho & <-) & Hj). right.
      exists (mkJoinRow o (Some (fst x)) (Some (snd x))).
      split; [|split; [reflexivity|now apply joined_item_In]].
      apply Hrows. now apply order_rows_joined.
  - apply (fold_group_orders (fun o => In o (orders db))); [constructor|].
    apply Forall_forall. intros row Hrow. rewrite Hrows in Hrow.
    apply order_rows_orders. exists row. now split.
Qed.

Lemma getOrder_of_first result ow :
  getOrder_of result = Some ow ->
  exists first, In first result /\ ow_order ow = row_orders first /\
                ow_orderItems ow = flat_map joined_item result.
Proof.
  unfold getOrder_of. destruct result as [|first rest]; [discriminate|].
  intros H. injection H as <-. exists first. split; [now left|now split].
Qed.

Lemma order_query_In k db row :
  In row (order_query k db) <->
  In row (order_rows db) /\ o_id (row_orders row) = k.
Proof. unfold order_query. now rewrite filter_In, Z.eqb_eq. Qed.

Lemma joined_lines_of_result db o result :
  NoDup (order_ids db) -> In o (orders db) ->
  Permutation (order_query (o_id o) db) result ->
  Permutation (flat_map joined_item result) (joined_lines db (o_id o)).
Proof.
  intros Hkey Ho Hperm. rewrite <- (joined_where_order db o Hkey Ho).
  apply Permutation_sym. now apply Permutation_flat_map.
Qed.

(** C8, as stated, fails: of the two lines stored for order 1, the one that
    references no product is missing from what [getOrder] and [getOrders]
    return, in whatever order the database returns the rows. *)
Lemma line_without_product_is_dropped :
  map oi_id (order_lines Sample.ordered 1) = [1; 2] /\
  (forall result ow,
     Permutation (order_query 1 Sample.ordered) result ->
     getOrder_of result = Some ow ->
     map (fun l => oi_id (fst l)) (ow_orderItems ow) = [1]) /\
  option_map (fun ow => map (fun l => oi_id (fst l)) (ow_orderItems ow))
             (getOrder 1 Sample.ordered) = Some [1] /\
  map (fun ow => map (fun l => oi_id (fst l)) (ow_orderItems ow))
      (getOrders Sample.ordered) = [[1]].
Proof.
  split; [reflexivity|]. split; [|split; reflexivity].
  intros result ow Hperm Hget.
  apply getOrder_of_first in Hget as (_ & _ & _ & ->).
  assert (Hlines :
            Permutation
              (flat_map joined_item (order_query 1 Sample.ordered))
              (flat_map joined_item result))
    by now apply Permutation_flat_map.
  remember (flat_map joined_item result) as lines eqn:E. clear E.
  vm_compute in Hlines. apply Permutation_length_1_inv in Hlines.
  now rewrite Hlines.
Qed.

(** C8, amended: [getOrder] and [getOrders] return every order of the
    table (an order with no returned line still appears, with an empty
    list), and under each order exactly those of its OrderItems whose
    product reference joins a row of the Catalog, each paired with that
    row.  A line whose reference is NULL or names no Catalog row is left
    out.  With order ids unique (the primary key) each such line is
    returned exactly once per catalog row it matches.  All of this holds
    in whatever order the database returns the rows of the two queries,
    and of the order of the returned lines nothing is said. *)
Theorem order_reads_return_joined_lines db :
  (forall k result ow,
     Permutation (order_query k db) result ->
     getOrder_of result = Some ow ->
     In (ow_order ow) (orders db) /\ o_id (ow_order ow) = k /\
     forall i p, In (i, p) (ow_orderItems ow) <-> joins db k i p) /\
  (forall result ow,
     Permutation (order_rows db) result ->
     In ow (getOrders_of result) ->
     In (ow_order ow) (orders db) /\
     forall i p, In (i, p) (ow_orderItems ow) <->
                 joins db (o_id (ow_order ow)) i p) /\
  (forall o,
     In o (orders db) ->
     (forall result, Permutation (order_query (o_id o) db) result ->
                     getOrder_of result <> None) /\
     (forall result, Permutation (order_rows db) result ->
        exists ow, In ow (getOrders_of result) /\
                   o_id (ow_order ow) = o_id o)) /\
  (NoDup (order_ids db) ->
   (forall k result ow,
      Permutation (order_query k db) result ->
      getOrder_of result = Some ow ->
      Permutation (ow_orderItems ow) (joined_lines db k)) /\
   (forall result ow,
      Permutation (order_rows db) result ->
      In ow (getOrders_of result) ->
      Permutation (ow_orderItems ow)
                  (joined_lines db (o_id (ow_order ow))))) /\
  (forall k, getOrder k db = getOrder_of (order_query k db)) /\
  getOrders db = getOrders_of (orderBy_desc_createdAt (order_rows db)) /\
  Permutation (order_rows db) (orderBy_desc_createdAt (order_rows db)).
Proof.
  assert (Hheader : forall k result ow,
            Permutation (order_query k db) result ->
            getOrder_of result = Some ow ->
            In (ow_order ow) (orders db) /\ o_id (ow_order ow) = k /\
            ow_orderItems ow = flat_map joined_item result).
  { intros k result ow Hperm Hget.
    apply getOrder_of_first in Hget as (first & Hfirst & Ho & Hlines).
    apply (result_rows _ _ Hperm) in Hfirst.
    apply order_query_In in Hfirst as [Hfirst Hk].
    rewrite Ho. split; [|now split].
    apply order_rows_orders. exists first. now split. }
  split; [|split; [|split; [|split; [|split; [|split]]]]].
  - intros k result ow Hperm Hget.
    destruct (Hheader k result ow Hperm Hget) as (Ho & Hk & Hlines).
    split; [exact Ho|]. split; [exact Hk|].
    intros i p. rewrite Hlines, in_flat_map. split.
    + intros (row & Hrow & Hx).
      apply (result_rows _ _ Hperm) in Hrow.
      apply order_query_In in Hrow as [Hrow Hid].
      apply joined_item_In in Hx. cbn in Hx.
      rewrite Hx in Hrow. apply order_rows_joined in Hrow as [_ Hj].
      now rewrite Hid in Hj.
    + intros Hj. exists (mkJoinRow (ow_order ow) (Some i) (Some p)).
      split; [|now apply joined_item_In].
      apply (result_rows _ _ Hperm). apply order_query_In.
      split; [|exact Hk].
      apply order_rows_joined. split; [exact Ho|]. now rewrite Hk.
  - intros result ow Hperm How.
    destruct (getOrders_of_entries db result Hperm)
      as (Hnd & Hkeys & Hlisted & Horders).
    rewrite Forall_forall in Horders.
    split; [now apply Horders|]. intros i p. split.
    + intros Hx.
      apply (proj1 (Hlisted (o_id (ow_order ow)) (i, p))).
      now exists ow.
    + intros Hj.
      destruct (proj2 (Hlisted (o_id (ow_order ow)) (i, p)))
        as (e & He & Hk & Hx).
      { split; [|exact Hj]. exists (ow_order ow).
        split; [now apply Horders|reflexivity]. }
      now rewrite <- (keys_unique _ _ _ Hnd He How Hk).
  - intros o Ho. split.
    + intros result Hperm Hnone.
      apply order_rows_orders in Ho as (row & Hrow & <-).
      assert (Hin : In row result).
      { apply (result_rows _ _ Hperm). now apply order_query_In. }
      destruct result; [contradiction|discriminate].
    + intros result Hperm.
      destruct (getOrders_of_entries db result Hperm) as (_ & Hkeys & _).
      assert (H : In (o_id o) (keys (getOrders_of result)))
        by (apply Hkeys; eauto).
      unfold keys in H. apply in_map_iff in H as (ow & Hk & How). eauto.
  - intros Hkey. split.
    + intros k result ow Hperm Hget.
      destruct (Hheader k result ow Hperm Hget) as (Ho & <- & ->).
      now apply joined_lines_of_result.
    + intros result ow Hperm How.
      destruct (getOrders_of_entries db result Hperm)
        as (Hnd & _ & _ & Horders).
      rewrite Forall_forall in Horders.
      rewrite <- (items_of_unique _ _ Hnd How). unfold getOrders_of.
      rewrite fold_group_items_of by constructor.
      cbn [items_of filter flat_map app].
      apply joined_lines_of_result; [assumption|now apply Horders|].
      now apply Permutation_filter_same.
  - reflexivity.
  - reflexivity.
  - apply orderBy_permutation.
Qed.

(** C2, as stated, fails: the second of two submitted lines lacks its price.
    The request is refused with status 400, yet the order header and the
    first line stay in the tables and are returned by the order reads; the
    header is there without all its lines. *)
Lemma refused_order_remains_visible :
  let reply := post_api_orders "s1" 100 Sample.unpriced Sample.shopping in
  fst reply = Status400 /\
  orders Sample.shopping = [] /\
  getOrder 1 Sample.shopping = None /\
  map o_id (orders (snd reply)) = [1] /\
  map oi_orderId (orderItems (snd reply)) = [Some 1] /\
  option_map (fun o => map (fun l => oi_id (fst l)) (ow_orderItems o))
             (getOrder 1 (snd reply)) = Some [1] /\
  List.length (getOrders (snd reply)) = 1%nat /\
  ~ (failed (fst reply) ->
     orders (snd reply) = orders Sample.shopping /\
     orderItems (snd reply) = orderItems Sample.shopping).
Proof.
  cbv zeta. repeat split.
  intros H. destruct (H (or_introl eq_refl)) as [H1 _]. discriminate H1.
Qed.

(** C2, amended: The commit sequence is not atomic, it is ordered.  When
    [POST /api/orders] replies with a failure, every cart is exactly as
    before and either nothing was written, or the order header was written
    together with the lines that precede the refused one (a proper prefix
    of the submitted lines); what was written stays, and the order reads
    return every header the table holds.  When it replies 201, the header
    and one order item per submitted line have been written and the cart of
    the session has been cleared.  So the cart is never cleared unless the
    header and all lines were written. *)
Theorem order_commit_is_sequential sessionId now body db :
  let reply := post_api_orders sessionId now body db in
  let db' := snd reply in
  match fst reply with
  | Status201 order =>
      exists items rows,
        b_orderItems body = Some items /\
        orders db' = orders db ++ [order] /\
        orderItems db' = orderItems db ++ rows /\
        Forall2 (stored_as (o_id order)) items rows /\
        cartItems db' = other_sessions sessionId (cartItems db)
  | r =>
      failed r /\
      cartItems db' = cartItems db /\
      (nothing_written db db' \/ partly_written body db db') /\
      forall o, In o (orders db') -> getOrder (o_id o) db' <> None
  end.
Proof.
  cbv zeta. pose proof (post_api_orders_cases sessionId now body db) as H.
  destruct (post_api_orders sessionId now body db) as [[j|order| |] db'];
    cbn [fst snd].
  - contradiction.
  - destruct H as (_ & total & items & rows & _ & Hi & _ & _ & Ho & Hr & Hall
                   & Hcart).
    exists items, rows. auto.
  - destruct H as (_ & Hcart & Hw). split; [now left|].
    repeat (split; [assumption|]). intros o. apply getOrder_finds.
  - destruct H as (_ & Hcart & Hw). split; [now right|].
    repeat (split; [assumption|]). intros o. apply getOrder_finds.
Qed.

(* ================================================================== *)
(** * Further properties of the storage layer and the routes *)

(* ------------------------------------------------------------------ *)
(** ** Removing a cart item *)

Lemma filter_idem {A} (f : A -> bool) (l : list A) :
  filter f (filter f l) = filter f l.
Proof.
  induction l as [|x l IH]; [reflexivity|]. cbn.
  destruct (f x) eqn:E; cbn; [rewrite E; now f_equal|exact IH].
Qed.

(** X1: [DELETE /api/cart/:id] replies 204 for every id that the integer
    column can hold.  It removes exactly the cart rows with that id and
    leaves every other row and table alone; when no row has the id nothing
    changes, so a repeated removal is a no-op.  An id that [parseInt] reads
    as [NaN] or that lies outside the integer range is answered 500 and
    changes nothing. *)
Theorem remove_is_idempotent id db
    (Hid : int4_ok id = true) :
  let reply := delete_api_cart_id (Some id) db in
  let db' := snd reply in
  fst reply = NoContent /\
  (forall c, In c (cartItems db') <-> In c (cartItems db) /\ ci_id c <> id) /\
  (forall n c, nth_error (cartItems db) n = Some c -> ci_id c <> id ->
               In c (cartItems db')) /\
  (~ In id (map ci_id (cartItems db)) -> db' = db) /\
  products db' = products db /\
  orders db' = orders db /\
  orderItems db' = orderItems db /\
  delete_api_cart_id (Some id) db' = (NoContent, db') /\
  (forall n,
     n = None \/ (exists k, n = Some k /\ int4_ok k = false) ->
     delete_api_cart_id n db = (Message 500 "Failed to remove from cart", db)).
Proof.
  cbv zeta. unfold delete_api_cart_id, bind, int4_param, removeFromCart.
  rewrite Hid. cbn [ret fst snd].
  set (keep := fun c => negb (ci_id c =? id)).
  assert (Hin : forall c, In c (filter keep (cartItems db)) <->
                          In c (cartItems db) /\ ci_id c <> id).
  { intros c. rewrite filter_In. unfold keep. rewrite negb_true_iff, Z.eqb_neq.
    reflexivity. }
  split; [reflexivity|]. split; [exact Hin|]. split.
  { intros n c Hn Hne. apply Hin. split; [|assumption].
    eapply nth_error_In. exact Hn. }
  split.
  { intros Habsent. destruct db as [ps cs os ois s1 s2 s3].
    unfold set_cartItems. cbn in *. f_equal.
    rewrite (filter_const _ true); [reflexivity|].
    intros c Hc. unfold keep. apply negb_true_iff, Z.eqb_neq. intros Heq.
    apply Habsent. rewrite <- Heq. now apply in_map. }
  do 3 (split; [reflexivity|]). split.
  { unfold set_cartItems. cbn. do 2 f_equal. apply filter_idem. }
  intros n [->|(k & -> & Hk)]; [reflexivity|]. now rewrite Hk.
Qed.

Lemma remove_is_idempotent_witness :
  cartItems (snd (delete_api_cart_id (Some 2) Sample.shopping))
  = filter (fun c => negb (ci_id c =? 2)) (cartItems Sample.shopping) /\
  delete_api_cart_id (Some 2147483648) Sample.shopping
  = (Message 500 "Failed to remove from cart", Sample.shopping).
Proof.
  destruct (remove_is_idempotent 2 Sample.shopping eq_refl)
    as (_ & _ & _ & _ & _ & _ & _ & _ & Hrefused).
  split; [reflexivity|].
  apply Hrefused. right. exists 2147483648. split; reflexivity.
Defined.

(* ------------------------------------------------------------------ *)
(** ** Adding to the cart: what else it touches *)

Lemma update_other_ids k q rows :
  forall n c, nth_error rows n = Some c -> ci_id c <> k ->
              nth_error (update_quantity_where_id k q rows) n = Some c.
Proof.
  intros n c Hn Hne. unfold update_quantity_where_id.
  rewrite nth_error_map, Hn. cbn.
  apply Z.eqb_neq in Hne. now rewrite Hne.
Qed.

Lemma same_id_same_row rows (c c' : CartItem) :
  NoDup (map ci_id rows) -> In c rows -> In c' rows ->
  ci_id c = ci_id c' -> c = c'.
Proof.
  induction rows as [|a rows IH]; intros Hnd Hc Hc' Hk; [contradiction|].
  cbn in Hnd. inversion Hnd as [|? ? Hnotin Hnd']; subst.
  destruct Hc as [<-|Hc], Hc' as [<-|Hc']; auto.
  - exfalso. apply Hnotin. rewrite Hk. now apply in_map.
  - exfalso. apply Hnotin. rewrite <- Hk. now apply in_map.
Qed.

(** X2: with cart ids unique, [addToCart] never changes a row of another
    line: every row that does not match the (session, product) of the call
    stays where it is, unchanged; at most one row is added, no other table
    is written, and a call that throws leaves the cart table as it was
    too. *)
Theorem addToCart_frame item db
    (Hkey : NoDup (map ci_id (cartItems db))) :
  let out := fst (addToCart item db) in
  let db' := snd (addToCart item db) in
  (forall n c, nth_error (cartItems db) n = Some c ->
               same_line item c = false ->
               nth_error (cartItems db') n = Some c) /\
  (List.length (cartItems db) <= List.length (cartItems db')
   <= S (List.length (cartItems db)))%nat /\
  products db' = products db /\
  orders db' = orders db /\
  orderItems db' = orderItems db /\
  (forall e, out = Threw e -> cartItems db' = cartItems db).
Proof.
  cbv zeta. unfold addToCart.
  destruct (filter (same_line item) (cartItems db)) as [|existing rest] eqn:E.
  - destruct (negb (int4_ok (ici_quantity item)));
      [cbn; repeat split; auto; lia|].
    destruct (negb (fk_ok (ici_productId item) (product_ids db)));
      [cbn; repeat split; auto; lia|].
    cbn [fst snd cartItems insert_cartItem products orders orderItems].
    split; [|split; [rewrite length_app; cbn; lia|repeat split; discriminate]].
    intros n c Hn _. rewrite nth_error_app1; [exact Hn|].
    apply nth_error_Some. congruence.
  - assert (Hex : In existing (cartItems db) /\ same_line item existing = true).
    { apply filter_In. rewrite E. now left. }
    destruct Hex as [Hex Hmatch].
    destruct (int4_ok (ci_quantity existing + ici_quantity item));
      [|cbn; repeat split; auto; lia].
    cbn [fst snd cartItems set_cartItems products orders orderItems].
    split; [|split; [unfold update_quantity_where_id; rewrite length_map; lia
                    |repeat split; discriminate]].
    intros n c Hn Hother. apply update_other_ids; [exact Hn|].
    intros Heq. apply nth_error_In in Hn.
    rewrite (same_id_same_row _ _ _ Hkey Hn Hex Heq) in Hother. congruence.
Qed.

Lemma addToCart_frame_witness :
  nth_error (cartItems (snd (addToCart (Sample.add "s1" 1 5) Sample.shopping))) 1
  = nth_error (cartItems Sample.shopping) 1.
Proof.
  refine (proj1 (addToCart_frame (Sample.add "s1" 1 5) Sample.shopping _)
            1%nat _ eq_refl eq_refl).
  repeat constructor; cbn; intuition lia.
Defined.

(** X3: a cart item without a product reference is never merged: the
    lookup compares with NULL and finds nothing, so every such call (with a
    quantity the column can hold) appends a new row, whatever the cart
    already holds. *)
Theorem addToCart_without_product_appends item db
    (Hnull : ici_productId item = None)
    (Hrange : int4_ok (ici_quantity item) = true) :
  exists newItem,
    addToCart item db = (Returned (Some newItem), insert_cartItem db newItem) /\
    ci_id newItem = cart_items_id_seq db /\
    ci_sessionId newItem = ici_sessionId item /\
    ci_productId newItem = None /\
    ci_quantity newItem = ici_quantity item /\
    cartItems (insert_cartItem db newItem) = cartItems db ++ [newItem].
Proof.
  unfold addToCart.
  rewrite (filter_const _ false).
  - rewrite Hrange, Hnull. cbn. eexists. repeat split.
  - intros c _. unfold same_line. rewrite Hnull.
    destruct (ci_productId c); cbn; apply andb_false_r.
Qed.

Lemma addToCart_without_product_appends_witness :
  List.length
    (cartItems
       (snd (addToCart (mkInsertCartItem "s1" None 1 None)
               (snd (addToCart (mkInsertCartItem "s1" None 1 None)
                       Sample.seeded))))) = 2%nat.
Proof.
  destruct (addToCart_without_product_appends
              (mkInsertCartItem "s1" None 1 None) Sample.seeded
              eq_refl eq_refl) as (n1 & H1 & _ & _ & _ & _ & L1).
  destruct (addToCart_without_product_appends
              (mkInsertCartItem "s1" None 1 None)
              (insert_cartItem Sample.seeded n1)
              eq_refl eq_refl) as (n2 & H2 & _ & _ & _ & _ & L2).
  rewrite H1. cbn [snd]. rewrite H2. cbn [snd]. rewrite L2, L1.
  reflexivity.
Defined.

(** X4: removing the item an add returned.  When the add created the row
    (no row for the pair before), the removal restores the cart table as it
    was; when the add merged into an existing row, the removal deletes that
    whole row, earlier quantity included. *)
Theorem add_then_remove item db c db1
    (Hseq : Forall (fun x => ci_id x < cart_items_id_seq db) (cartItems db))
    (Hadd : addToCart item db = (Returned (Some c), db1)) :
  let db2 := snd (removeFromCart (ci_id c) db1) in
  match filter (same_line item) (cartItems db) with
  | [] => cartItems db2 = cartItems db
  | existing :: _ =>
      ci_id c = ci_id existing /\
      ci_quantity c = ci_quantity existing + ici_quantity item /\
      cartItems db2 =
      filter (fun x => negb (ci_id x =? ci_id existing)) (cartItems db)
  end.
Proof.
  cbv zeta. unfold addToCart in Hadd.
  destruct (filter (same_line item) (cartItems db)) as [|existing rest] eqn:E.
  - destruct (negb (int4_ok (ici_quantity item))); [discriminate|].
    destruct (negb (fk_ok (ici_productId item) (product_ids db)));
      [discriminate|].
    injection Hadd as <- <-. cbn. rewrite filter_app. cbn.
    rewrite Z.eqb_refl. cbn. rewrite app_nil_r.
    apply filter_const with (b := true).
    intros x Hx. rewrite Forall_forall in Hseq. specialize (Hseq x Hx).
    apply negb_true_iff, Z.eqb_neq. lia.
  - destruct (int4_ok (ci_quantity existing + ici_quantity item));
      [|discriminate].
    injection Hadd as Hret <-. rewrite update_returning_first in Hret.
    assert (Hex : In existing (cartItems db)).
    { apply (proj1 (filter_In (same_line item) existing (cartItems db))).
      rewrite E. now left. }
    destruct (find (fun x => ci_id x =? ci_id existing) (cartItems db))
      as [found|] eqn:Hfind.
    2:{ exfalso. apply (find_none _ _ Hfind) in Hex.
        now rewrite Z.eqb_refl in Hex. }
    cbn in Hret. injection Hret as <-.
    apply find_some in Hfind as [_ Hid]. apply Z.eqb_eq in Hid.
    cbn [ci_id ci_quantity set_quantity]. split; [exact Hid|].
    split; [reflexivity|]. cbn. rewrite Hid.
    unfold update_quantity_where_id. rewrite filter_map_same.
    + rewrite <- (map_id (filter _ (cartItems db))) at 2.
      apply map_ext_in. intros x Hx. apply filter_In in Hx as [_ Hx].
      apply negb_true_iff in Hx. now rewrite Hx.
    + intros x.
      destruct (ci_id x =? ci_id existing) eqn:Hb;
        cbn [ci_id set_quantity]; rewrite ?Hb; reflexivity.
Qed.

Lemma add_then_remove_witness :
  cartItems
    (snd (removeFromCart 1 (snd (addToCart (Sample.add "s1" 1 2) Sample.seeded))))
  = cartItems Sample.seeded.
Proof.
  exact (add_then_remove (Sample.add "s1" 1 2) Sample.seeded _ _
           (Forall_nil _) eq_refl).
Defined.

(* ------------------------------------------------------------------ *)
(** ** The cart listing and badge after an add *)

Lemma listing_items sessionId db :
  NoDup (product_ids db) ->
  map cwp_item (getCartItems sessionId db) =
  filter (in_session sessionId) (cartItems db).
Proof.
  intros Hkey. rewrite getCartItems_where_first.
  induction (filter (in_session sessionId) (cartItems db)) as [|c cs IH];
    [reflexivity|].
  cbn [flat_map]. rewrite map_app, IH, leftJoin_products_single by exact Hkey.
  reflexivity.
Qed.

Lemma cartCount_total l :
  cartCount l = total_quantity (map ci_quantity (map cwp_item l)).
Proof.
  unfold cartCount, total_quantity. rewrite map_map.
  assert (H : forall a,
             fold_left (fun sum item => sum + ci_quantity (cwp_item item)) l a =
             a + fold_right Z.add 0
                   (map (fun x => ci_quantity (cwp_item x)) l)).
  { induction l as [|x l IH]; intros a; cbn; [lia|]. rewrite IH. lia. }
  now rewrite H.
Qed.

Lemma total_quantity_app xs ys :
  total_quantity (xs ++ ys) = total_quantity xs + total_quantity ys.
Proof.
  unfold total_quantity. induction xs as [|x xs IH]; cbn; [reflexivity|].
  rewrite IH. lia.
Qed.

Lemma update_absent_id k q rows :
  ~ In k (map ci_id rows) -> update_quantity_where_id k q rows = rows.
Proof.
  intros Habsent. apply update_without_match.
  destruct (find (fun c => ci_id c =? k) rows) as [c|] eqn:E; [|reflexivity].
  exfalso. apply find_some in E as [Hc Hk]. apply Z.eqb_eq in Hk.
  apply Habsent. rewrite <- Hk. now apply in_map.
Qed.

(** Under unique ids, an update by id shifts the total of a session by the
    change of the one row it hits, if that row is in the session. *)
Lemma update_total sessionId e q rows :
  NoDup (map ci_id rows) -> In e rows ->
  total_quantity
    (map ci_quantity
       (filter (in_session sessionId)
               (update_quantity_where_id (ci_id e) q rows))) =
  total_quantity (map ci_quantity (filter (in_session sessionId) rows)) +
  (if in_session sessionId e then q - ci_quantity e else 0).
Proof.
  induction rows as [|a rows IH]; intros Hnd He; [contradiction|].
  cbn in Hnd. inversion Hnd as [|? ? Hnotin Hnd']; subst.
  change (update_quantity_where_id (ci_id e) q (a :: rows))
    with ((if ci_id a =? ci_id e then set_quantity a q else a)
          :: update_quantity_where_id (ci_id e) q rows).
  destruct He as [->|He].
  - rewrite Z.eqb_refl, update_absent_id by assumption.
    cbn [filter]. change (in_session sessionId (set_quantity e q))
      with (in_session sessionId e).
    destruct (in_session sessionId e); cbn; unfold total_quantity; cbn; lia.
  - assert (Hne : (ci_id a =? ci_id e) = false).
    { apply Z.eqb_neq. intros Heq. apply Hnotin. rewrite Heq.
      now apply in_map. }
    rewrite Hne. cbn [filter]. specialize (IH Hnd' He).
    destruct (in_session sessionId a); cbn [map]; unfold total_quantity in *;
      cbn [fold_right]; lia.
Qed.

(** X5: after a successful [POST /api/cart] with quantity q, and with
    product and cart ids unique, the cart badge of the session (the sum of
    the listed quantities) has grown by exactly q, whether the add created
    a row or merged into one, and the listing of every other session is
    what it was. *)
Theorem cart_badge_after_add sessionId body db returned db'
    (Hproducts : NoDup (product_ids db))
    (Hcart : NoDup (map ci_id (cartItems db)))
    (Hadded : post_api_cart sessionId body db = (Json 201 returned, db')) :
  exists q,
    cb_quantity body = Some q /\
    cartCount (getCartItems sessionId db') =
    cartCount (getCartItems sessionId db) + q /\
    forall other, other <> sessionId ->
                  getCartItems other db' = getCartItems other db.
Proof.
  unfold post_api_cart, bind, insertCartItemSchema_parse in Hadded.
  destruct (cb_quantity body) as [q|]; [|discriminate]. exists q.
  split; [reflexivity|]. cbn [ret] in Hadded.
  set (item := mkInsertCartItem sessionId (cb_productId body) q
                                (cb_customizations body)) in *.
  pose proof (addToCart_frame item db Hcart) as Hframe. cbv zeta in Hframe.
  destruct Hframe as (_ & _ & Hps & _ & _ & _).
  assert (Hps' : products db' = products db).
  { destruct (addToCart item db) as [[e|r] d]; cbn in Hps.
    - destruct e as [| |d0]; discriminate.
    - now injection Hadded as _ <-. }
  assert (Hkey' : NoDup (product_ids db'))
    by (unfold product_ids; now rewrite Hps').
  rewrite !cartCount_total, !listing_items by assumption.
  unfold addToCart in Hadded.
  destruct (filter (same_line item) (cartItems db)) as [|existing rest] eqn:E.
  - destruct (negb (int4_ok (ici_quantity item))); [discriminate|].
    destruct (negb (fk_ok (ici_productId item) (product_ids db)));
      [discriminate|].
    injection Hadded as _ <-. cbn [cartItems insert_cartItem]. split.
    + rewrite filter_app, map_app, total_quantity_app. cbn [filter].
      unfold in_session at 2. cbn [ci_sessionId item ici_sessionId].
      rewrite String.eqb_refl. unfold total_quantity. cbn. lia.
    + intros other Hne. rewrite !getCartItems_where_first.
      cbn [cartItems insert_cartItem products]. rewrite filter_app. cbn.
      unfold in_session at 2. cbn.
      destruct (String.eqb_spec sessionId other); [congruence|].
      now rewrite app_nil_r.
  - assert (Hex : In existing (cartItems db) /\ same_line item existing = true).
    { apply filter_In. rewrite E. now left. }
    destruct Hex as [Hex Hmatch].
    assert (Hs : in_session sessionId existing = true).
    { unfold same_line in Hmatch. apply andb_true_iff in Hmatch as [H _].
      exact H. }
    destruct (int4_ok (ci_quantity existing + ici_quantity item));
      [|discriminate].
    injection Hadded as _ <-. cbn [cartItems set_cartItems]. split.
    + rewrite update_total by assumption. rewrite Hs. cbn. lia.
    + intros other Hne. rewrite !getCartItems_where_first.
      cbn [cartItems set_cartItems products]. f_equal.
      unfold update_quantity_where_id. rewrite filter_map_same by
        (intros x; now destruct (ci_id x =? ci_id existing)).
      rewrite <- (map_id (filter _ (cartItems db))) at 2.
      apply map_ext_in. intros x Hx. apply filter_In in Hx as [Hx Hxs].
      destruct (ci_id x =? ci_id existing) eqn:Hid; [|reflexivity].
      exfalso. apply Z.eqb_eq in Hid.
      rewrite (same_id_same_row _ _ _ Hcart Hx Hex Hid) in Hxs.
      apply String.eqb_eq in Hs, Hxs. congruence.
Qed.

Lemma cart_badge_after_add_witness :
  cartCount
    (getCartItems "s1"
       (snd (post_api_cart "s1" (mkCartBody (Some 1) (Some 4) None)
               Sample.shopping))) = 7.
Proof.
  assert (H1 : NoDup (product_ids Sample.shopping))
    by (repeat constructor; cbn; intuition lia).
  assert (H2 : NoDup (map ci_id (cartItems Sample.shopping)))
    by (repeat constructor; cbn; intuition lia).
  destruct (cart_badge_after_add "s1" (mkCartBody (Some 1) (Some 4) None)
              Sample.shopping _ _ H1 H2 eq_refl)
    as (q & Hq & Hcount & _).
  injection Hq as <-. exact Hcount.
Defined.

(* ------------------------------------------------------------------ *)
(** ** Order reads under a change of order headers *)

Section OrderChange.

Variable h : Order -> Order.
Hypothesis h_keeps_id : forall o, o_id (h o) = o_id o.
Hypothesis h_keeps_createdAt : forall o, o_createdAt (h o) = o_createdAt o.




Lemma insert_desc_header r l :
  insert_desc (row_map_order h r) (map (row_map_order h) l) =
  map (row_map_order h) (insert_desc r l).
Proof.
  induction l as [|x l IH]; [reflexivity|]. cbn.
  rewrite !h_keeps_createdAt.
  destruct (o_createdAt (row_orders x) <=? o_createdAt (row_orders r));
    [reflexivity|]. cbn. now rewrite IH.
Qed.

Lemma orderBy_header l :
  orderBy_desc_createdAt (map (row_map_order h) l) =
  map (row_map_order h) (orderBy_desc_createdAt l).
Proof.
  unfold orderBy_desc_createdAt. induction l as [|x l IH]; [reflexivity|].
  cbn. now rewrite IH, insert_desc_header.
Qed.







End OrderChange.

(* ------------------------------------------------------------------ *)
(** ** Changing an order's status *)

Lemma with_status_keeps id status now o :
  o_id (with_status id status now o) = o_id o /\
  o_createdAt (with_status id status now o) = o_createdAt o /\
  o_totalAmount (with_status id status now o) = o_totalAmount o /\
  o_customerName (with_status id status now o) = o_customerName o /\
  o_customerEmail (with_status id status now o) = o_customerEmail o /\
  o_customerAddress (with_status id status now o) = o_customerAddress o /\
  o_customerCity (with_status id status now o) = o_customerCity o /\
  o_customerZip (with_status id status now o) = o_customerZip o.
Proof.
  unfold with_status. destruct (o_id o =? id); repeat split.
Qed.

Lemma updateOrderStatus_eq id status now db :
  updateOrderStatus id status now db =
  (Returned (option_map (with_status id status now)
                        (find (fun o => o_id o =? id) (orders db))),
   set_orders db (map (with_status id status now) (orders db))).
Proof.
  unfold updateOrderStatus. cbv zeta. f_equal. f_equal.
  change (fun o => if o_id o =? id then set_status o status now else o)
    with (with_status id status now).
  induction (orders db) as [|o os IH]; [reflexivity|]. cbn [map filter find].
  rewrite (proj1 (with_status_keeps id status now o)).
  destruct (o_id o =? id); [reflexivity|exact IH].
Qed.

(* ------------------------------------------------------------------ *)
(** ** Primary keys are kept *)

Lemma NoDup_map_filter {A B} (f : A -> B) (g : A -> bool) (l : list A) :
  NoDup (map f l) -> NoDup (map f (filter g l)).
Proof.
  induction l as [|x l IH]; intros H; [constructor|].
  cbn in H. inversion H as [|? ? Hnotin Hnd]; subst. cbn.
  destruct (g x); [|auto]. cbn. constructor; [|auto].
  intros Hin. apply Hnotin. apply in_map_iff in Hin as (y & Hy & Hin).
  apply filter_In in Hin as [Hin _]. rewrite <- Hy. now apply in_map.
Qed.

Lemma Forall_filter {A} (P : A -> Prop) (g : A -> bool) (l : list A) :
  Forall P l -> Forall P (filter g l).
Proof.
  intros H. apply Forall_forall. intros x Hx. apply filter_In in Hx as [Hx _].
  rewrite Forall_forall in H. auto.
Qed.

Lemma update_quantity_ids k q rows :
  map ci_id (update_quantity_where_id k q rows) = map ci_id rows.
Proof.
  unfold update_quantity_where_id. rewrite map_map. apply map_ext.
  intros c. now destruct (ci_id c =? k).
Qed.

Lemma update_quantity_below k q rows bound :
  Forall (fun c => ci_id c < bound) rows ->
  Forall (fun c => ci_id c < bound) (update_quantity_where_id k q rows).
Proof.
  intros H. unfold update_quantity_where_id. apply Forall_map.
  eapply Forall_impl; [|exact H]. intros c Hc. now destruct (ci_id c =? k).
Qed.

Lemma NoDup_snoc_below (ids : list Z) bound :
  NoDup ids -> Forall (fun i => i < bound) ids -> NoDup (ids ++ [bound]).
Proof.
  intros Hnd Hlt. apply NoDup_app; [assumption|repeat constructor; auto|].
  intros i Hi [<-|[]]. rewrite Forall_forall in Hlt. specialize (Hlt _ Hi). lia.
Qed.

Lemma Forall_below_snoc {A} (f : A -> Z) (l : list A) (x : A) bound :
  Forall (fun a => f a < bound) l -> f x = bound ->
  Forall (fun a => f a < bound + 1) (l ++ [x]).
Proof.
  intros H Hx. apply Forall_app. split.
  - eapply Forall_impl; [|exact H]. cbn. intros a Ha. lia.
  - constructor; [lia|constructor].
Qed.

Lemma keyed_addToCart item : preserves keyed (addToCart item).
Proof.
  intros db (Hp & Hc & Ho & Hi & Hcs & His). unfold addToCart.
  destruct (filter (same_line item) (cartItems db)) as [|existing rest].
  - destruct (negb (int4_ok (ici_quantity item)));
      [cbn; repeat split; assumption|].
    destruct (negb (fk_ok (ici_productId item) (product_ids db)));
      [cbn; repeat split; assumption|].
    cbn [snd]. unfold keyed. cbn. rewrite map_app. cbn.
    repeat split; try assumption.
    + apply NoDup_snoc_below; [assumption|].
      apply Forall_map. exact Hcs.
    + now apply Forall_below_snoc.
  - destruct (int4_ok (ci_quantity existing + ici_quantity item));
      [|cbn; repeat split; assumption].
    cbn [snd]. unfold keyed. cbn. rewrite update_quantity_ids.
    repeat split; try assumption. now apply update_quantity_below.
Qed.

Lemma keyed_updateCartItem id q : preserves keyed (updateCartItem id q).
Proof.
  intros db (Hp & Hc & Ho & Hi & Hcs & His). unfold updateCartItem.
  destruct (int4_ok q); [|cbn; repeat split; assumption].
  cbn [snd]. unfold keyed. cbn. rewrite update_quantity_ids.
  repeat split; try assumption. now apply update_quantity_below.
Qed.

Lemma keyed_removeFromCart id : preserves keyed (removeFromCart id).
Proof.
  intros db (Hp & Hc & Ho & Hi & Hcs & His). unfold removeFromCart, keyed. cbn.
  repeat split; try assumption;
    [now apply NoDup_map_filter|now apply Forall_filter].
Qed.

Lemma keyed_clearCart sessionId : preserves keyed (clearCart sessionId).
Proof.
  intros db (Hp & Hc & Ho & Hi & Hcs & His). unfold clearCart, keyed. cbn.
  repeat split; try assumption;
    [now apply NoDup_map_filter|now apply Forall_filter].
Qed.

Lemma updateProduct_ids id product now db :
  product_ids (snd (updateProduct id product now db)) = product_ids db.
Proof.
  unfold updateProduct.
  destruct (match pp_price product with
            | Some t => option_map Some (Decimal.numeric_10_2 t)
            | None => Some None
            end) as [price|]; [|reflexivity].
  unfold product_ids. cbn. rewrite map_map. apply map_ext.
  intros p. now destruct (p_id p =? id).
Qed.

Lemma updateProduct_other_tables id product now db :
  cartItems (snd (updateProduct id product now db)) = cartItems db /\
  orders (snd (updateProduct id product now db)) = orders db /\
  orderItems (snd (updateProduct id product now db)) = orderItems db /\
  cart_items_id_seq (snd (updateProduct id product now db))
  = cart_items_id_seq db /\
  order_items_id_seq (snd (updateProduct id product now db))
  = order_items_id_seq db.
Proof.
  unfold updateProduct.
  destruct (match pp_price product with
            | Some t => option_map Some (Decimal.numeric_10_2 t)
            | None => Some None
            end) as [price|]; repeat split.
Qed.

Lemma keyed_updateProduct id product now :
  preserves keyed (updateProduct id product now).
Proof.
  intros db (Hp & Hc & Ho & Hi & Hcs & His). unfold keyed.
  rewrite updateProduct_ids.
  destruct (updateProduct_other_tables id product now db)
    as (E1 & E2 & E3 & E4 & E5).
  unfold order_ids. rewrite E1, E2, E3, E4, E5. repeat split; assumption.
Qed.

Lemma keyed_updateOrderStatus id status now :
  preserves keyed (updateOrderStatus id status now).
Proof.
  intros db (Hp & Hc & Ho & Hi & Hcs & His).
  rewrite updateOrderStatus_eq. unfold keyed, order_ids. cbn.
  rewrite map_map.
  rewrite (map_ext _ o_id)
    by (intros o; apply (proj1 (with_status_keeps id status now o))).
  repeat split; assumption.
Qed.

Lemma keyed_createOrder order now : preserves keyed (createOrder order now).
Proof.
  intros db (Hp & Hc & Ho & Hi & Hcs & His). unfold createOrder. cbv zeta.
  destruct (Decimal.numeric_10_2 (io_totalAmount (info_columns order)));
    [|cbn; repeat split; assumption].
  set (id := match info_id order with Some k => k | None => orders_id_seq db end).
  destruct (existsb (Z.eqb id) (order_ids db)) eqn:Hpk;
    [cbn; repeat split; assumption|].
  cbn [snd]. unfold keyed, order_ids. cbn. rewrite map_app. cbn.
  repeat split; try assumption.
  apply NoDup_app; [assumption|repeat constructor; auto|].
  intros k Hk [<-|[]]. rewrite <- not_true_iff_false in Hpk. apply Hpk.
  apply existsb_exists. exists id. split; [assumption|apply Z.eqb_refl].
Qed.

Lemma keyed_createOrderItem item : preserves keyed (createOrderItem item).
Proof.
  intros db (Hp & Hc & Ho & Hi & Hcs & His). unfold createOrderItem.
  destruct (negb (int4_ok (ioi_quantity item)));
    [cbn; repeat split; assumption|].
  destruct (Decimal.numeric_10_2 (ioi_price item));
    [|cbn; repeat split; assumption].
  destruct (fk_ok (ioi_orderId item) (order_ids db)
            && fk_ok (ioi_productId item) (product_ids db));
    [|cbn; repeat split; assumption].
  cbn [snd]. unfold keyed. cbn. rewrite map_app. cbn.
  repeat split; try assumption.
  - apply NoDup_snoc_below; [assumption|]. apply Forall_map. exact His.
  - now apply Forall_below_snoc.
Qed.

(** Any invariant that the three storage calls of the order handler keep is
    kept by the handler, however it ends. *)
Lemma preserves_place_order P sessionId now body :
  (forall order t, preserves P (createOrder order t)) ->
  (forall item, preserves P (createOrderItem item)) ->
  (forall s, preserves P (clearCart s)) ->
  preserves P (place_order sessionId now body).
Proof.
  intros H1 H2 H3. unfold place_order. apply preserves_bind.
  { unfold insertOrderSchema_parse.
    destruct (b_customerName body), (b_customerEmail body),
      (b_customerAddress body), (b_customerCity body), (b_customerZip body),
      (b_totalAmount body); (apply preserves_ret || apply preserves_throw). }
  intros orderData. apply preserves_bind; [apply H1|].
  intros order. apply preserves_bind.
  { unfold iterable. destruct (b_orderItems body);
      (apply preserves_ret || apply preserves_throw). }
  intros items. apply preserves_bind.
  { apply preserves_for_of. intros item. unfold create_line.
    apply preserves_bind.
    - unfold insertOrderItemSchema_parse.
      destruct (ib_quantity item), (ib_price item);
        (apply preserves_ret || apply preserves_throw).
    - intros d. apply preserves_bind; [apply H2|].
      intros _. apply preserves_ret. }
  intros _. apply preserves_bind; [apply H3|].
  intros _. apply preserves_ret.
Qed.

Lemma post_api_orders_state sessionId now body db :
  snd (post_api_orders sessionId now body db) =
  snd (place_order sessionId now body db).
Proof.
  unfold post_api_orders.
  now destruct (place_order sessionId now body db) as [[e|o] d].
Qed.

Lemma post_api_cart_state sessionId body db :
  snd (post_api_cart sessionId body db) = db \/
  exists item, snd (post_api_cart sessionId body db) = snd (addToCart item db).
Proof.
  unfold post_api_cart, bind, insertCartItemSchema_parse.
  destruct (cb_quantity body) as [q|]; [|now left]. cbn [ret]. right.
  exists (mkInsertCartItem sessionId (cb_productId body) q
                           (cb_customizations body)).
  destruct (addToCart _ db) as [[e|r] d]; [|reflexivity].
  destruct e as [| |e]; reflexivity.
Qed.

Lemma int4_param_cases n db :
  (exists e, int4_param n db = (Threw e, db)) \/
  (exists k, n = Some k /\ int4_ok k = true /\
             int4_param n db = (Returned k, db)).
Proof.
  unfold int4_param. destruct n as [k|]; [|left; eexists; reflexivity].
  destruct (int4_ok k) eqn:E; [right; exists k; now repeat split|].
  left. eexists. reflexivity.
Qed.

Lemma put_api_cart_id_state id quantity db :
  snd (put_api_cart_id id quantity db) = db \/
  exists k, snd (put_api_cart_id id quantity db)
            = snd (updateCartItem k quantity db).
Proof.
  unfold put_api_cart_id, bind.
  destruct (int4_param_cases id db) as [(e & ->)|(k & _ & _ & ->)];
    [now left|].
  right. exists k. now destruct (updateCartItem k quantity db) as [[e|r] d].
Qed.

Lemma delete_api_cart_id_state id db :
  snd (delete_api_cart_id id db) = db \/
  exists k, snd (delete_api_cart_id id db) = snd (removeFromCart k db).
Proof.
  unfold delete_api_cart_id, bind.
  destruct (int4_param_cases id db) as [(e & ->)|(k & _ & _ & ->)];
    [now left|].
  right. exists k. reflexivity.
Qed.

(* ------------------------------------------------------------------ *)
(** ** References are kept *)

Lemma update_quantity_refs k q rows ids :
  Forall (fun c => fk_ok (ci_productId c) ids = true) rows ->
  Forall (fun c => fk_ok (ci_productId c) ids = true)
         (update_quantity_where_id k q rows).
Proof.
  intros H. unfold update_quantity_where_id. apply Forall_map.
  eapply Forall_impl; [|exact H]. intros c Hc. now destruct (ci_id c =? k).
Qed.

Lemma referential_addToCart item : preserves referential (addToCart item).
Proof.
  intros db (Hc & Hi & Hcart). unfold addToCart.
  destruct (filter (same_line item) (cartItems db)) as [|existing rest].
  - destruct (negb (int4_ok (ici_quantity item)));
      [cbn; repeat split; assumption|].
    destruct (fk_ok (ici_productId item) (product_ids db)) eqn:Hfk;
      [|cbn; repeat split; assumption].
    cbn [negb snd]. unfold referential. repeat split; try assumption. cbn.
    apply Forall_app. split; [assumption|]. now repeat constructor.
  - destruct (int4_ok (ci_quantity existing + ici_quantity item));
      [|cbn; repeat split; assumption].
    cbn [snd]. unfold referential. repeat split; try assumption.
    cbn. now apply update_quantity_refs.
Qed.

Lemma referential_updateCartItem id q :
  preserves referential (updateCartItem id q).
Proof.
  intros db (Hc & Hi & Hcart). unfold updateCartItem.
  destruct (int4_ok q); [|cbn; repeat split; assumption].
  cbn [snd]. unfold referential. repeat split; try assumption.
  cbn. now apply update_quantity_refs.
Qed.

Lemma referential_removeFromCart id :
  preserves referential (removeFromCart id).
Proof.
  intros db (Hc & Hi & Hcart). unfold removeFromCart, referential.
  repeat split; try assumption. cbn. now apply Forall_filter.
Qed.

Lemma referential_clearCart sessionId :
  preserves referential (clearCart sessionId).
Proof.
  intros db (Hc & Hi & Hcart). unfold clearCart, referential.
  repeat split; try assumption. cbn. now apply Forall_filter.
Qed.

Lemma referential_updateProduct id product now :
  preserves referential (updateProduct id product now).
Proof.
  intros db (Hc & Hi & Hcart). unfold referential, consistent.
  rewrite updateProduct_ids.
  destruct (updateProduct_other_tables id product now db)
    as (E1 & E2 & E3 & _). unfold order_ids.
  rewrite E1, E2, E3. repeat split; assumption.
Qed.

Lemma referential_updateOrderStatus id status now :
  preserves referential (updateOrderStatus id status now).
Proof.
  intros db (Hc & Hi & Hcart). rewrite updateOrderStatus_eq.
  unfold referential, consistent, order_ids. cbn. rewrite map_map.
  rewrite (map_ext _ o_id)
    by (intros o; apply (proj1 (with_status_keeps id status now o))).
  repeat split; assumption.
Qed.

Lemma referential_createOrder order now :
  preserves referential (createOrder order now).
Proof.
  intros db (Hc & Hi & Hcart).
  pose proof (consistent_createOrder order now db Hc) as Hc'.
  unfold referential. split; [exact Hc'|].
  unfold createOrder in *. cbv zeta in *.
  destruct (Decimal.numeric_10_2 (io_totalAmount (info_columns order)));
    [|split; assumption].
  destruct (existsb _ (order_ids db)); split; assumption.
Qed.

Lemma referential_createOrderItem item :
  preserves referential (createOrderItem item).
Proof.
  intros db (Hc & Hi & Hcart).
  pose proof (consistent_createOrderItem item db Hc) as Hc'.
  unfold referential. split; [exact Hc'|].
  unfold createOrderItem in *.
  destruct (negb (int4_ok (ioi_quantity item))); [split; assumption|].
  destruct (Decimal.numeric_10_2 (ioi_price item)); [|split; assumption].
  destruct (fk_ok (ioi_orderId item) (order_ids db)); cbn [andb];
    [|split; assumption].
  destruct (fk_ok (ioi_productId item) (product_ids db)) eqn:Hfk;
    [|split; assumption].
  cbn. split; [|assumption].
  apply Forall_app. split; [assumption|]. now repeat constructor.
Qed.

(** The same for the operations on the remaining tables. *)

Lemma fk_ok_after_delete ref ids id :
  fk_ok ref ids = true -> sql_eq ref (Some id) = false ->
  fk_ok ref (filter (fun k => negb (k =? id)) ids) = true.
Proof.
  destruct ref as [k|]; cbn; [|auto]. intros Hin Hne.
  apply existsb_exists in Hin as (y & Hy & Heq). apply Z.eqb_eq in Heq.
  subst y. apply existsb_exists. exists k. split; [|apply Z.eqb_refl].
  apply filter_In. split; [assumption|]. now rewrite Hne.
Qed.

Lemma product_ids_filter id ps :
  map p_id (filter (fun p => negb (p_id p =? id)) ps) =
  filter (fun k => negb (k =? id)) (map p_id ps).
Proof.
  induction ps as [|p ps IH]; [reflexivity|]. cbn.
  destruct (p_id p =? id); cbn; now rewrite IH.
Qed.

Lemma filter_absent_id id ps :
  existsb (fun p => p_id p =? id) ps = false ->
  filter (fun p => negb (p_id p =? id)) ps = ps.
Proof.
  intros H. apply filter_const with (b := true). intros p Hp.
  apply negb_true_iff. destruct (p_id p =? id) eqn:E; [|reflexivity].
  rewrite <- H. symmetry. apply existsb_exists. eauto.
Qed.

Lemma Forall_refs_after_delete {A} (ref : A -> option Z) (l : list A) ids id :
  existsb (fun x => sql_eq (ref x) (Some id)) l = false ->
  Forall (fun x => fk_ok (ref x) ids = true) l ->
  Forall (fun x => fk_ok (ref x) (filter (fun k => negb (k =? id)) ids) = true)
         l.
Proof.
  intros Hnone H. apply Forall_forall. intros x Hx.
  rewrite Forall_forall in H. apply fk_ok_after_delete; [auto|].
  destruct (sql_eq (ref x) (Some id)) eqn:E; [|reflexivity].
  rewrite <- Hnone. symmetry. apply existsb_exists. eauto.
Qed.

Lemma referential_deleteProduct id st :
  store_referential st -> store_referential (snd (deleteProduct id st)).
Proof.
  intros ((Hc & Hi & Hcart) & Hn). unfold deleteProduct.
  destruct (existsb (fun p => p_id p =? id) (products (tables st))) eqn:Hex;
    cbn [andb].
  - destruct (product_referenced id st) eqn:Href;
      [cbn; repeat split; assumption|].
    unfold product_referenced in Href.
    apply orb_false_iff in Href as [Href Hrn].
    apply orb_false_iff in Href as [Hrc Hri].
    cbn [snd]. unfold store_referential, referential, consistent, product_ids.
    cbn. rewrite product_ids_filter.
    repeat split; try assumption; now apply Forall_refs_after_delete.
  - cbn [snd]. rewrite filter_absent_id by assumption.
    destruct st as [[ps cs os ois s1 s2 s3] s4 au s5 ns s6].
    cbn. repeat split; assumption.
Qed.

Lemma Forall_refs_more {A} (ref : A -> option Z) (l : list A) ids more :
  Forall (fun x => fk_ok (ref x) ids = true) l ->
  Forall (fun x => fk_ok (ref x) (ids ++ more) = true) l.
Proof.
  intros H. eapply Forall_impl; [|exact H]. intros x. apply fk_ok_app.
Qed.

Lemma referential_createProduct product now st :
  store_referential st -> store_referential (snd (createProduct product now st)).
Proof.
  intros ((Hc & Hi & Hcart) & Hn). unfold createProduct.
  destruct (Decimal.numeric_10_2 (ip_price product));
    [|cbn; repeat split; assumption].
  cbn [snd]. unfold store_referential, referential, consistent, product_ids.
  cbn. rewrite map_app.
  repeat split; try assumption; now apply Forall_refs_more.
Qed.

Lemma referential_createNotification notification now st :
  store_referential st ->
  store_referential (snd (createNotification notification now st)).
Proof.
  intros (Hr & Hn). unfold createNotification.
  destruct (fk_ok (in_productId notification) (product_ids (tables st)))
    eqn:Hfk; [|now split].
  cbn [snd]. split; [exact Hr|]. cbn.
  apply Forall_app. split; [assumption|]. now repeat constructor.
Qed.

Lemma referential_createAdminUser admin st :
  store_referential st -> store_referential (snd (createAdminUser admin st)).
Proof.
  intros H. unfold createAdminUser.
  now destruct (existsb _ (adminUsers st)).
Qed.

(* ------------------------------------------------------------------ *)
(** ** Invariants of the whole API *)

Lemma products_addToCart item db :
  products (snd (addToCart item db)) = products db.
Proof.
  unfold addToCart.
  destruct (filter (same_line item) (cartItems db)) as [|existing rest].
  - destruct (negb (int4_ok (ici_quantity item))); [reflexivity|].
    now destruct (fk_ok (ici_productId item) (product_ids db)).
  - now destruct (int4_ok (ci_quantity existing + ici_quantity item)).
Qed.

Lemma products_updateCartItem id q db :
  products (snd (updateCartItem id q db)) = products db.
Proof. unfold updateCartItem. now destruct (int4_ok q). Qed.

Lemma products_place_order sessionId now body db :
  products (snd (place_order sessionId now body db)) = products db.
Proof.
  now apply (ignores_place_order sessionId now body db (products db)).
Qed.

(** The product table after a request that is open to every client. *)
Lemma cart_routes_keep_products db :
  (forall s b, products (snd (post_api_cart s b db)) = products db) /\
  (forall k q, products (snd (put_api_cart_id k q db)) = products db) /\
  (forall k, products (snd (delete_api_cart_id k db)) = products db) /\
  (forall s, products (snd (delete_api_cart s db)) = products db) /\
  (forall s t b, products (snd (post_api_orders s t b db)) = products db).
Proof.
  repeat split; intros.
  - destruct (post_api_cart_state s b db) as [E|[item E]]; rewrite E;
      [reflexivity|apply products_addToCart].
  - destruct (put_api_cart_id_state k q db) as [E|[i E]]; rewrite E;
      [reflexivity|apply products_updateCartItem].
  - destruct (delete_api_cart_id_state k db) as [E|[i E]]; rewrite E;
      reflexivity.
  - rewrite post_api_orders_state. apply products_place_order.
Qed.

Lemma cart_routes_preserve (P : Db -> Prop) :
  (forall item, preserves P (addToCart item)) ->
  (forall k q, preserves P (updateCartItem k q)) ->
  (forall k, preserves P (removeFromCart k)) ->
  (forall s, preserves P (clearCart s)) ->
  (forall order t, preserves P (createOrder order t)) ->
  (forall item, preserves P (createOrderItem item)) ->
  forall db, P db ->
    (forall s b, P (snd (post_api_cart s b db))) /\
    (forall k q, P (snd (put_api_cart_id k q db))) /\
    (forall k, P (snd (delete_api_cart_id k db))) /\
    (forall s, P (snd (delete_api_cart s db))) /\
    (forall s t b, P (snd (post_api_orders s t b db))).
Proof.
  intros Ha Hu Hr Hc Ho Hi db HP. repeat split; intros.
  - destruct (post_api_cart_state s b db) as [E|[item E]]; rewrite E;
      [assumption|now apply Ha].
  - destruct (put_api_cart_id_state k q db) as [E|[i E]]; rewrite E;
      [assumption|now apply Hu].
  - destruct (delete_api_cart_id_state k db) as [E|[i E]]; rewrite E;
      [assumption|now apply (Hr i)].
  - now apply (Hc s).
  - rewrite post_api_orders_state.
    now apply (preserves_place_order P s t b Ho Hi Hc).
Qed.

Lemma keyed_createProduct product now st :
  store_keyed st -> store_keyed (snd (createProduct product now st)).
Proof.
  intros Hk. unfold createProduct.
  destruct (Decimal.numeric_10_2 (ip_price product)); [|exact Hk].
  destruct Hk as ((K1 & K2 & K3 & K4 & K5 & K6) & Hp & Hrest).
  cbn [snd]. unfold store_keyed, keyed, product_ids, order_ids in *. cbn.
  repeat split; try assumption; try apply Hrest.
  - rewrite map_app. cbn. apply NoDup_snoc_below;
      [assumption|].
    apply Forall_map. exact Hp.
  - apply Forall_app. split.
    + eapply Forall_impl; [|exact Hp]. cbn. intros. lia.
    + repeat constructor. cbn. lia.
Qed.

Lemma keyed_deleteProduct id st :
  store_keyed st -> store_keyed (snd (deleteProduct id st)).
Proof.
  intros Hk. unfold deleteProduct.
  destruct (existsb _ (products (tables st)) && product_referenced id st);
    [exact Hk|].
  destruct Hk as ((K1 & K2 & K3 & K4 & K5 & K6) & Hp & Hrest).
  cbn [snd]. unfold store_keyed, keyed, product_ids, order_ids in *. cbn.
  repeat split; try assumption; try apply Hrest.
  - now apply NoDup_map_filter.
  - now apply Forall_filter.
Qed.

Lemma not_in_column {A} (f : A -> string) (v : string) (l : list A) :
  existsb (fun a => String.eqb (f a) v) l = false -> ~ In v (map f l).
Proof.
  intros H Hin. apply in_map_iff in Hin as (a & Ha & Hin).
  assert (existsb (fun a => String.eqb (f a) v) l = true) as E.
  { apply existsb_exists. exists a. split; [assumption|].
    now apply String.eqb_eq. }
  congruence.
Qed.

Lemma NoDup_snoc {A} (l : list A) (x : A) :
  NoDup l -> ~ In x l -> NoDup (l ++ [x]).
Proof.
  intros Hl Hx. apply NoDup_app; [assumption|repeat constructor; auto|].
  intros y Hy [<-|[]]. contradiction.
Qed.

Lemma keyed_createAdminUser admin st :
  store_keyed st -> store_keyed (snd (createAdminUser admin st)).
Proof.
  intros Hk. unfold createAdminUser.
  destruct (existsb _ (adminUsers st)) eqn:Hex; [exact Hk|].
  destruct Hk as (K & Hp & A1 & A2 & A3 & A4 & N1 & N2).
  cbn [snd]. unfold store_keyed. cbn. rewrite !map_app. cbn.
  assert (existsb (fun a => String.eqb (au_username a) (iau_username admin))
                  (adminUsers st) = false
          /\ existsb (fun a => String.eqb (au_email a) (iau_email admin))
                     (adminUsers st) = false) as [Hu He].
  { clear -Hex. induction (adminUsers st) as [|a l IH]; [now split|].
    cbn in *. apply orb_false_iff in Hex as [Ha Hl].
    apply orb_false_iff in Ha as [Ha1 Ha2].
    destruct (IH Hl) as [-> ->]. now rewrite Ha1, Ha2. }
  split; [exact K|]. split; [exact Hp|]. repeat split; try assumption.
  - apply NoDup_snoc_below;
      [assumption|].
    apply Forall_map. exact A2.
  - apply Forall_app. split.
    + eapply Forall_impl; [|exact A2]. cbn. intros. lia.
    + repeat constructor. cbn. lia.
  - apply NoDup_snoc; [assumption|]. now apply not_in_column.
  - apply NoDup_snoc; [assumption|]. now apply not_in_column.
Qed.

Lemma keyed_createNotification notification now st :
  store_keyed st -> store_keyed (snd (createNotification notification now st)).
Proof.
  intros Hk. unfold createNotification.
  destruct (fk_ok (in_productId notification) (product_ids (tables st)));
    [|exact Hk].
  destruct Hk as (K & Hp & A1 & A2 & A3 & A4 & N1 & N2).
  cbn [snd]. unfold store_keyed. cbn. rewrite !map_app. cbn.
  split; [exact K|]. split; [exact Hp|]. repeat split; try assumption.
  - apply NoDup_snoc_below;
      [assumption|].
    apply Forall_map. exact N2.
  - apply Forall_app. split.
    + eapply Forall_impl; [|exact N2]. cbn. intros. lia.
    + repeat constructor. cbn. lia.
Qed.

Lemma keyed_set_tables st db :
  store_keyed st -> keyed db -> product_ids db = product_ids (tables st) ->
  store_keyed (set_tables st db).
Proof.
  intros (K & Hp & Hrest) Hk Hids. unfold store_keyed. cbn.
  split; [exact Hk|]. split; [|exact Hrest].
  apply Forall_map with (f := p_id) (P := fun k => k < products_id_seq st).
  fold (product_ids db). rewrite Hids. apply Forall_map. exact Hp.
Qed.

Lemma referential_set_tables st db :
  store_referential st -> referential db ->
  product_ids db = product_ids (tables st) ->
  store_referential (set_tables st db).
Proof.
  intros (Hr & Hn) Hdb Hids. split; [exact Hdb|]. cbn. now rewrite Hids.
Qed.

Lemma set_tables_same st : set_tables st (tables st) = st.
Proof. now destruct st. Qed.

Lemma set_products_same db : set_products db (products db) = db.
Proof. now destruct db. Qed.

Lemma update_product_state id body now db :
  snd (update_product id body now db) = db \/
  exists k patch,
    snd (update_product id body now db) = snd (updateProduct k patch now db).
Proof.
  unfold update_product, bind at 1, insertProductSchema_partial_parse.
  destruct (refused (ppb_name body) || refused (ppb_details body)
            || refused (ppb_price body) || refused (ppb_inStock body));
    [now left|].
  unfold bind, ret. cbv beta iota.
  destruct (int4_param_cases id db) as [(e & ->)|(k & _ & _ & ->)];
    [now left|].
  right. repeat eexists.
Qed.

Lemma status_update_state id status now db :
  snd ((k <- int4_param id ;; updateOrderStatus k status now) db) = db \/
  exists k,
    snd ((k <- int4_param id ;; updateOrderStatus k status now) db)
    = snd (updateOrderStatus k status now db).
Proof.
  unfold bind.
  destruct (int4_param_cases id db) as [(e & ->)|(k & _ & _ & ->)];
    [now left|].
  right. repeat eexists.
Qed.

Lemma delete_product_state id st :
  snd (delete_product id st) = st \/
  exists k, snd (delete_product id st) = snd (deleteProduct k st).
Proof.
  unfold delete_product.
  destruct (int4_param_cases id (tables st)) as [(e & ->)|(k & _ & _ & ->)];
    [now left|].
  right. repeat eexists.
Qed.

Section Invariants.

Variable jwt_verify : string -> bool.
Variable bcrypt_hash : string -> string -> string.

Lemma authenticateAdmin_preserves {A} (P : Store -> Prop) authorization
      (next : Store -> Reply A * Store) st :
  P st -> (P st -> P (snd (next st))) ->
  P (snd (authenticateAdmin jwt_verify authorization next st)).
Proof.
  intros HP Hnext. unfold authenticateAdmin.
  destruct (authorization_token authorization) as [token|]; [|exact HP].
  destruct (String.eqb token ""); [exact HP|].
  destruct (jwt_verify token); [now apply Hnext|exact HP].
Qed.

(** The database after a request to an admin route that writes one of the
    cart and order tables or the products. *)
Lemma put_api_products_id_state authorization id body now st :
  snd (put_api_products_id jwt_verify authorization id body now st) = st \/
  exists k patch,
    snd (put_api_products_id jwt_verify authorization id body now st)
    = set_tables st (snd (updateProduct k patch now (tables st))).
Proof.
  unfold put_api_products_id.
  apply authenticateAdmin_preserves; [now left|]. intros _.
  unfold on_tables.
  destruct (update_product_state id body now (tables st))
    as [E|(k & patch & E)].
  - left. destruct (update_product id body now (tables st)) as [[e|r] d].
    + cbn in E. subst d. destruct e; cbn; apply set_tables_same.
    + cbn in E. subst d. cbn. apply set_tables_same.
  - right. exists k, patch. rewrite <- E.
    destruct (update_product id body now (tables st)) as [[e|r] d];
      [destruct e|]; reflexivity.
Qed.

Lemma put_api_orders_id_status_state authorization id status now st :
  snd (put_api_orders_id_status jwt_verify authorization id status now st)
  = st \/
  exists k,
    snd (put_api_orders_id_status jwt_verify authorization id status now st)
    = set_tables st (snd (updateOrderStatus k status now (tables st))).
Proof.
  unfold put_api_orders_id_status.
  apply authenticateAdmin_preserves; [now left|]. intros _.
  unfold on_tables.
  destruct (status_update_state id status now (tables st)) as [E|(k & E)].
  - left.
    destruct ((k <- int4_param id ;; updateOrderStatus k status now)
                (tables st)) as [[e|r] d];
      cbn in E; subst d; cbn; apply set_tables_same.
  - right. exists k. rewrite <- E.
    destruct ((k <- int4_param id ;; updateOrderStatus k status now)
                (tables st)) as [[e|r] d]; reflexivity.
Qed.

Lemma delete_api_products_id_state authorization id st :
  snd (delete_api_products_id jwt_verify authorization id st) = st \/
  exists k,
    snd (delete_api_products_id jwt_verify authorization id st)
    = snd (deleteProduct k st).
Proof.
  unfold delete_api_products_id.
  apply authenticateAdmin_preserves; [now left|]. intros _.
  destruct (delete_product_state id st) as [E|(k & E)].
  - left. now destruct (delete_product id st) as [[e|r] d].
  - right. exists k. rewrite <- E.
    now destruct (delete_product id st) as [[e|r] d].
Qed.

Lemma serve_keyed request st :
  store_keyed st -> store_keyed (serve jwt_verify bcrypt_hash request st).
Proof.
  intros Hk.
  pose proof (cart_routes_preserve keyed keyed_addToCart keyed_updateCartItem
                keyed_removeFromCart keyed_clearCart keyed_createOrder
                keyed_createOrderItem (tables st) (proj1 Hk))
    as (C1 & C2 & C3 & C4 & C5).
  pose proof (cart_routes_keep_products (tables st)) as (E1 & E2 & E3 & E4 & E5).
  destruct request
    as [s b|k q|k|s|s t b|authorization body now
        |authorization id productData now|authorization id
        |authorization id stat now|authorization body now
        |username password email salt];
    cbn [serve];
    try (apply keyed_set_tables; [exact Hk|auto|unfold product_ids; congruence]).
  - unfold post_api_products. apply authenticateAdmin_preserves; [exact Hk|].
    intros _. destruct (insertProductSchema_parse body) as [d|]; [|exact Hk].
    pose proof (keyed_createProduct d now st Hk) as H.
    now destruct (createProduct d now st) as [[e|r] st'].
  - destruct (put_api_products_id_state authorization id productData now st)
      as [->|(k & patch & ->)]; [exact Hk|].
    apply keyed_set_tables; [exact Hk| |apply updateProduct_ids].
    apply keyed_updateProduct, Hk.
  - destruct (delete_api_products_id_state authorization id st)
      as [->|(k & ->)]; [exact Hk|].
    now apply keyed_deleteProduct.
  - destruct (put_api_orders_id_status_state authorization id stat now st)
      as [->|(k & ->)]; [exact Hk|].
    apply keyed_set_tables; [exact Hk| |reflexivity].
    apply keyed_updateOrderStatus, Hk.
  - unfold post_api_notifications. apply authenticateAdmin_preserves;
      [exact Hk|].
    intros _. destruct (insertNotificationSchema_parse body) as [d|];
      [|exact Hk].
    pose proof (keyed_createNotification d now st Hk) as H.
    now destruct (createNotification d now st) as [[e|r] st'].
  - unfold post_api_admin_register.
    destruct (getAdminUser username st); [exact Hk|].
    cbv zeta.
    pose proof (keyed_createAdminUser
                  (mkInsertAdminUser username (bcrypt_hash password salt) email)
                  st Hk) as H.
    now destruct (createAdminUser _ st) as [[e|r] st'].
Qed.

Lemma serve_referential request st :
  store_referential st ->
  store_referential (serve jwt_verify bcrypt_hash request st).
Proof.
  intros Hr.
  pose proof (cart_routes_preserve referential referential_addToCart
                referential_updateCartItem referential_removeFromCart
                referential_clearCart referential_createOrder
                referential_createOrderItem (tables st) (proj1 Hr))
    as (C1 & C2 & C3 & C4 & C5).
  pose proof (cart_routes_keep_products (tables st)) as (E1 & E2 & E3 & E4 & E5).
  destruct request
    as [s b|k q|k|s|s t b|authorization body now
        |authorization id productData now|authorization id
        |authorization id stat now|authorization body now
        |username password email salt];
    cbn [serve];
    try (apply referential_set_tables;
         [exact Hr|auto|unfold product_ids; congruence]).
  - unfold post_api_products. apply authenticateAdmin_preserves; [exact Hr|].
    intros _. destruct (insertProductSchema_parse body) as [d|]; [|exact Hr].
    pose proof (referential_createProduct d now st Hr) as H.
    now destruct (createProduct d now st) as [[e|r] st'].
  - destruct (put_api_products_id_state authorization id productData now st)
      as [->|(k & patch & ->)]; [exact Hr|].
    apply referential_set_tables; [exact Hr| |apply updateProduct_ids].
    apply referential_updateProduct, Hr.
  - destruct (delete_api_products_id_state authorization id st)
      as [->|(k & ->)]; [exact Hr|].
    now apply referential_deleteProduct.
  - destruct (put_api_orders_id_status_state authorization id stat now st)
      as [->|(k & ->)]; [exact Hr|].
    apply referential_set_tables; [exact Hr| |reflexivity].
    apply referential_updateOrderStatus, Hr.
  - unfold post_api_notifications. apply authenticateAdmin_preserves;
      [exact Hr|].
    intros _. destruct (insertNotificationSchema_parse body) as [d|];
      [|exact Hr].
    pose proof (referential_createNotification d now st Hr) as H.
    now destruct (createNotification d now st) as [[e|r] st'].
  - unfold post_api_admin_register.
    destruct (getAdminUser username st); [exact Hr|].
    cbv zeta.
    pose proof (referential_createAdminUser
                  (mkInsertAdminUser username (bcrypt_hash password salt) email)
                  st Hr) as H.
    now destruct (createAdminUser _ st) as [[e|r] st'].
Qed.

Lemma serve_all_invariant (P : Store -> Prop) :
  (forall request st, P st -> P (serve jwt_verify bcrypt_hash request st)) ->
  forall requests st,
    P st -> P (serve_all jwt_verify bcrypt_hash requests st).
Proof.
  intros Hstep requests. unfold serve_all.
  induction requests as [|r rs IH]; intros st HP; [exact HP|].
  cbn [fold_left]. apply IH, Hstep, HP.
Qed.

(** X7: Integrity under the whole API.  Whatever requests are served, in
    whatever order, with tokens that verify or not, and whether each succeeds
    or fails: ids stay unique in every table, admin names and emails stay
    unique, issued ids stay below their sequences, and every product or
    order reference of a cart row, an order line or a notification stays
    NULL or names an existing row. *)
Theorem api_keeps_keys_and_references requests st
    (Hkeys : store_keyed st) (Hrefs : store_referential st) :
  store_keyed (serve_all jwt_verify bcrypt_hash requests st) /\
  store_referential (serve_all jwt_verify bcrypt_hash requests st).
Proof.
  split.
  - now apply (serve_all_invariant store_keyed serve_keyed).
  - now apply (serve_all_invariant store_referential serve_referential).
Qed.

End Invariants.

Lemma api_keeps_keys_and_references_witness :
  let requests :=
    [ POST_products (Some "Bearer t")
        (mkProductBody (Some "House Blend") (Some "") (Some (Sample.usd 1899))
                       None) 0;
      POST_cart "s1" (mkCartBody (Some 1) (Some 2) None);
      POST_orders "s1" 5 (Sample.checkout (Sample.usd 3798)
                                          [Sample.line 1 2 (Sample.usd 1899)]);
      DELETE_products_id (Some "Bearer t") (Some 1);
      POST_admin_register "admin" "admin123" "admin@kcup.com" "salt" ] in
  store_keyed (serve_all (String.eqb "t") append requests empty_store) /\
  store_referential (serve_all (String.eqb "t") append requests empty_store).
Proof.
  intros requests.
  apply (api_keeps_keys_and_references (String.eqb "t") append requests
           empty_store).
  - repeat split; constructor.
  - repeat split; constructor.
Defined.

(* ------------------------------------------------------------------ *)
(** ** What the reads show in a database the API has written *)

Lemma fk_ok_names ref ps :
  fk_ok ref (map p_id ps) = true ->
  forall k, ref = Some k -> exists p, In p ps /\ p_id p = k.
Proof.
  intros H k ->. cbn in H. apply existsb_exists in H as (y & Hy & E).
  apply Z.eqb_eq in E. subst y. apply in_map_iff in Hy as (p & Hp & Hin).
  eauto.
Qed.

Lemma listing_resolves sessionId db row :
  referential db -> In row (getCartItems sessionId db) ->
  (cwp_product row = None <-> ci_productId (cwp_item row) = None).
Proof.
  intros (_ & _ & Hcart) Hrow. unfold getCartItems in Hrow.
  apply filter_In in Hrow as [Hrow _].
  apply in_flat_map in Hrow as (c & Hc & Hrow).
  pose proof (leftJoin_products_item _ _ _ Hrow) as Hitem.
  pose proof (leftJoin_products_row _ _ _ Hrow) as Hjoin.
  rewrite Forall_forall in Hcart. specialize (Hcart c Hc).
  rewrite Hitem. destruct (cwp_product row) as [p|].
  - destruct Hjoin as [_ Hp]. rewrite Hp. split; discriminate.
  - split; [|reflexivity]. intros _.
    destruct (ci_productId c) as [k|] eqn:E; [|reflexivity].
    destruct (fk_ok_names _ _ Hcart k eq_refl) as (p & Hp & Hid).
    exfalso. apply (Hjoin p Hp). now rewrite Hid.
Qed.

Section Reads.

Variable jwt_verify : string -> bool.
Variable bcrypt_hash : string -> string -> string.

(** X8: Cart listings resolve their products.  In a database that had
    sound keys and references and then served any sequence of requests, a
    cart listing has exactly one entry per cart row of the session, in
    whatever order the database returns the rows, and an entry's product
    is missing only for a row that names no product: no product deletion,
    product update or failed request leaves a cart row whose product cannot
    be shown. *)
Theorem cart_listing_resolves requests st sessionId
    (Hkeys : store_keyed st) (Hrefs : store_referential st) :
  let db := tables (serve_all jwt_verify bcrypt_hash requests st) in
  forall listing,
    Permutation (getCartItems sessionId db) listing ->
    Permutation (map cwp_item listing)
                (filter (in_session sessionId) (cartItems db)) /\
    forall row, In row listing ->
      (cwp_product row = None <-> ci_productId (cwp_item row) = None).
Proof.
  intros db listing Hperm.
  pose proof (serve_all_invariant jwt_verify bcrypt_hash store_keyed
                (serve_keyed jwt_verify bcrypt_hash) requests st Hkeys) as Hk.
  pose proof (serve_all_invariant jwt_verify bcrypt_hash store_referential
                (serve_referential jwt_verify bcrypt_hash) requests st Hrefs)
    as Hr.
  split.
  - rewrite <- (listing_items sessionId db) by apply Hk.
    apply Permutation_sym. now apply Permutation_map.
  - intros row Hrow. apply (listing_resolves sessionId db); [apply Hr|].
    now apply (result_rows _ _ Hperm).
Qed.

End Reads.

Lemma cart_listing_resolves_witness :
  let requests :=
    [ POST_products (Some "Bearer t")
        (mkProductBody (Some "House Blend") (Some "") (Some (Sample.usd 1899))
                       None) 0;
      POST_cart "s1" (mkCartBody (Some 1) (Some 2) None);
      POST_cart "s1" (mkCartBody None (Some 1) None);
      DELETE_products_id (Some "Bearer t") (Some 1) ] in
  let db := tables (serve_all (String.eqb "t") append requests empty_store) in
  Permutation (map cwp_item (rev (getCartItems "s1" db)))
              (filter (in_session "s1") (cartItems db)).
Proof.
  intros requests db.
  apply (cart_listing_resolves (String.eqb "t") append requests empty_store
           "s1").
  - repeat split; constructor.
  - repeat split; constructor.
  - apply Permutation_rev.
Defined.

(* ------------------------------------------------------------------ *)
(** ** Reading back a placed order *)

Lemma getOrder_of_order db o :
  NoDup (order_ids db) -> In o (orders db) ->
  getOrder (o_id o) db =
  Some (mkOrderWithItems o (joined_lines db (o_id o))).
Proof.
  intros Hkey Ho. pose proof (getOrder_finds db o Ho) as Hsome.
  unfold getOrder in *.
  destruct (filter (fun r => o_id (row_orders r) =? o_id o) (order_rows db))
    as [|first rest] eqn:E; [contradiction|].
  assert (Hfirst : In first (order_rows db) /\ o_id (row_orders first) = o_id o).
  { assert (H : In first (first :: rest)) by now left.
    rewrite <- E in H. apply filter_In in H as [H1 H2].
    now apply Z.eqb_eq in H2. }
  destruct Hfirst as [Hfirst Hid].
  assert (Hsame : row_orders first = o).
  { apply (same_id_same_order (orders db)); try assumption.
    apply order_rows_orders. exists first. now split. }
  rewrite Hsame. do 2 f_equal. rewrite <- E. now apply joined_where_order.
Qed.

Lemma resolved_lines ps rows :
  NoDup (map p_id ps) ->
  Forall (fun i => fk_ok (oi_productId i) (map p_id ps) = true) rows ->
  map fst
      (flat_map
         (fun i => map (pair i)
                       (filter (fun p => sql_eq (oi_productId i) (Some (p_id p)))
                               ps))
         rows)
  = filter names_product rows.
Proof.
  intros Hkey Hfk. induction Hfk as [|i rows Hi _ IH]; [reflexivity|].
  cbn [flat_map filter]. rewrite map_app, IH. unfold names_product at 2.
  pose proof (filter_primary_key (oi_productId i) ps Hkey) as Hle.
  destruct (oi_productId i) as [k|] eqn:E.
  - destruct (fk_ok_names _ _ Hi k eq_refl) as (p & Hp & Hid).
    assert (Hin : In p (filter (fun p => sql_eq (Some k) (Some (p_id p))) ps)).
    { apply filter_In. split; [assumption|]. cbn. rewrite Hid.
      apply Z.eqb_refl. }
    destruct (filter (fun p => sql_eq (Some k) (Some (p_id p))) ps)
      as [|p1 [|p2 m]]; cbn in Hle; [contradiction|reflexivity|lia].
  - rewrite (filter_const _ false) by reflexivity. reflexivity.
Qed.

(** X9: Reading back a placed order.  In a database with sound keys and
    references, once [POST /api/orders] has answered 201 with an order,
    [getOrder] on its id returns that very order, and under it the stored
    copy of each submitted line that names a product, once, with its
    catalog row; the submitted lines without a productId are stored but not
    returned.  This holds in whatever order the database returns the rows
    of the query; of the order of the returned lines nothing is said. *)
Theorem placed_order_reads_back sessionId now body db order db'
    (Hkeys : keyed db) (Hrefs : referential db)
    (Hplaced : post_api_orders sessionId now body db = (Status201 order, db')) :
  exists items rows,
    b_orderItems body = Some items /\
    Forall2 (stored_as (o_id order)) items rows /\
    order_lines db' (o_id order) = rows /\
    forall result,
      Permutation (order_query (o_id order) db') result ->
      exists lines,
        getOrder_of result = Some (mkOrderWithItems order lines) /\
        Permutation (map fst lines) (filter names_product rows) /\
        forall i p, In (i, p) lines ->
                    In p (products db) /\ oi_productId i = Some (p_id p).
Proof.
  pose proof (post_api_orders_cases sessionId now body db) as Hcases.
  pose proof (preserves_place_order referential sessionId now body
                referential_createOrder referential_createOrderItem
                referential_clearCart db Hrefs) as Hrefs'.
  rewrite <- post_api_orders_state, Hplaced in Hrefs'. cbn [snd] in Hrefs'.
  rewrite Hplaced in Hcases.
  destruct Hcases as (Hps & total & items & rows & _ & Hitems & Hfresh & _
                      & Horders & Hlines & Hstored & _).
  destruct Hkeys as (Kp & _ & Ko & _).
  destruct Hrefs as (Hcons & _).
  destruct Hrefs' as (_ & Hfk' & _).
  assert (Hko' : NoDup (order_ids db')).
  { unfold order_ids. rewrite Horders, map_app. cbn.
    apply NoDup_app; [exact Ko|repeat constructor; auto|].
    intros k Hk [<-|[]]. contradiction. }
  assert (Hsel : order_lines db' (o_id order) = rows).
  { unfold order_lines. rewrite Hlines, filter_app.
    fold (order_lines db (o_id order)).
    rewrite (consistent_unused_id db _ Hcons Hfresh).
    apply (stored_lines_selected _ _ _ Hstored). }
  assert (Hin' : In order (orders db'))
    by (rewrite Horders; apply in_or_app; right; now left).
  exists items, rows.
  split; [exact Hitems|]. split; [exact Hstored|]. split; [exact Hsel|].
  intros result Hperm.
  assert (Hjoined : Permutation (flat_map joined_item result)
                                (joined_lines db' (o_id order)))
    by now apply joined_lines_of_result.
  exists (flat_map joined_item result). split; [|split].
  - pose proof (getOrder_of_order db' order Hko' Hin') as Hget.
    unfold getOrder in Hget. fold (order_query (o_id order) db') in Hget.
    destruct result as [|first rest].
    { apply Permutation_sym, Permutation_nil in Hperm.
      rewrite Hperm in Hget. discriminate. }
    cbn [getOrder_of]. do 2 f_equal.
    assert (Hfirst : In first (order_query (o_id order) db'))
      by (apply (result_rows _ _ Hperm); now left).
    apply order_query_In in Hfirst as [Hfirst Hid].
    apply (same_id_same_order (orders db')); try assumption.
    apply order_rows_orders. exists first. now split.
  - transitivity (map fst (joined_lines db' (o_id order)));
      [now apply Permutation_map|].
    unfold joined_lines. rewrite Hsel.
    rewrite resolved_lines; [apply Permutation_refl| |].
    + rewrite Hps. exact Kp.
    + unfold product_ids in Hfk'. rewrite Hlines in Hfk'.
      apply Forall_app in Hfk'. apply Hfk'.
  - intros i p Hin. apply (Permutation_in _ Hjoined) in Hin.
    unfold joined_lines in Hin.
    apply in_flat_map in Hin as (j & _ & Hin).
    apply in_map_iff in Hin as (q & Heq & Hq). injection Heq as <- <-.
    apply filter_In in Hq as [Hq Hmatch]. rewrite Hps in Hq.
    split; [exact Hq|].
    destruct (oi_productId j) as [k|]; [|discriminate]. cbn in Hmatch.
    apply Z.eqb_eq in Hmatch. now subst k.
Qed.

Lemma placed_order_reads_back_witness :
  let body :=
    Sample.checkout (Sample.usd 10296)
      [ Sample.line 1 3 (Sample.usd 2499);
        mkOrderItemBody None (Some 1) (Some (Sample.usd 500)) None;
        Sample.line 2 1 (Sample.usd 2299) ] in
  let db' := snd (post_api_orders "s1" 100 body Sample.shopping) in
  exists order lines,
    getOrder_of (rev (order_query 1 db'))
    = Some (mkOrderWithItems order lines) /\
    Permutation (map (fun l => oi_id (fst l)) lines) [1; 3].
Proof.
  intros body db'.
  assert (Hk : keyed Sample.shopping)
    by (repeat split; repeat constructor; cbn; intuition lia).
  assert (Hr : referential Sample.shopping)
    by (repeat split; repeat constructor).
  destruct (placed_order_reads_back "s1" 100 body Sample.shopping
              (mkOrder 1 "Ada" "ada@example.org" "1 Main St" "Springfield"
                       "12345" 10296 "pending" 100 100)
              db' Hk Hr eq_refl)
    as (items & rows & _ & _ & Hsel & Hread).
  cbn [o_id] in Hsel, Hread.
  destruct (Hread (rev (order_query 1 db')) (Permutation_rev _))
    as (lines & Hget & Hperm & _).
  eexists. exists lines. split; [exact Hget|].
  rewrite <- Hsel in Hperm.
  apply (Permutation_map oi_id) in Hperm. rewrite map_map in Hperm.
  exact Hperm.
Defined.

(* ------------------------------------------------------------------ *)
(** ** The order history only grows *)

Lemma addToCart_order_tables item db :
  orders (snd (addToCart item db)) = orders db /\
  orderItems (snd (addToCart item db)) = orderItems db.
Proof.
  unfold addToCart.
  destruct (filter (same_line item) (cartItems db)) as [|existing rest].
  - destruct (negb (int4_ok (ici_quantity item))); [now split|].
    now destruct (fk_ok (ici_productId item) (product_ids db)).
  - now destruct (int4_ok (ci_quantity existing + ici_quantity item)).
Qed.

Lemma updateCartItem_order_tables id q db :
  orders (snd (updateCartItem id q db)) = orders db /\
  orderItems (snd (updateCartItem id q db)) = orderItems db.
Proof. unfold updateCartItem. now destruct (int4_ok q). Qed.

Lemma post_api_orders_appends sessionId now body db :
  (exists new, orders (snd (post_api_orders sessionId now body db))
               = orders db ++ new) /\
  (exists lines, orderItems (snd (post_api_orders sessionId now body db))
                 = orderItems db ++ lines).
Proof.
  pose proof (post_api_orders_cases sessionId now body db) as H.
  destruct (post_api_orders sessionId now body db) as [[o|o| |] db'];
    cbn [snd].
  - contradiction.
  - destruct H as (_ & total & items & rows & _ & _ & _ & _ & Ho & Hl & _).
    split; [now exists [o]|now exists rows].
  - destruct H as (_ & _ & [[Ho Hl]|(o & rows & _ & Ho & Hl & _)]).
    + split; exists []; now rewrite app_nil_r.
    + split; [now exists [o]|now exists rows].
  - destruct H as (_ & _ & [[Ho Hl]|(o & rows & _ & Ho & Hl & _)]).
    + split; exists []; now rewrite app_nil_r.
    + split; [now exists [o]|now exists rows].
Qed.

Lemma placed_with_status id status now o :
  placed (with_status id status now o) = placed o.
Proof.
  unfold with_status, placed. now destruct (o_id o =? id).
Qed.

Section History.

Variable jwt_verify : string -> bool.
Variable bcrypt_hash : string -> string -> string.

(** What a single request does to the two order tables. *)
Lemma serve_history request st :
  (exists lines,
     orderItems (tables (serve jwt_verify bcrypt_hash request st))
     = orderItems (tables st) ++ lines) /\
  (exists headers,
     map placed (orders (tables (serve jwt_verify bcrypt_hash request st)))
     = map placed (orders (tables st)) ++ headers).
Proof.
  set (P := fun s : Store =>
              (exists lines,
                 orderItems (tables s) = orderItems (tables st) ++ lines) /\
              (exists headers,
                 map placed (orders (tables s))
                 = map placed (orders (tables st)) ++ headers)).
  assert (HP : P st) by (split; exists []; now rewrite app_nil_r).
  assert (Hsame : forall s, orders (tables s) = orders (tables st) ->
                            orderItems (tables s) = orderItems (tables st) ->
                            P s).
  { intros s Ho Hl. unfold P. rewrite Ho, Hl. exact HP. }
  change (P (serve jwt_verify bcrypt_hash request st)).
  destruct request
    as [s b|k q|k|s|s t b|authorization body now
        |authorization id productData now|authorization id
        |authorization id stat now|authorization body now
        |username password email salt];
    cbn [serve].
  - destruct (post_api_cart_state s b (tables st)) as [E|[item E]];
      apply Hsame; cbn [tables set_tables]; rewrite E;
      try reflexivity; apply addToCart_order_tables.
  - destruct (put_api_cart_id_state k q (tables st)) as [E|[i E]];
      apply Hsame; cbn [tables set_tables]; rewrite E;
      try reflexivity; apply updateCartItem_order_tables.
  - destruct (delete_api_cart_id_state k (tables st)) as [E|[i E]];
      apply Hsame; cbn [tables set_tables]; rewrite E; reflexivity.
  - now apply Hsame.
  - destruct (post_api_orders_appends s t b (tables st))
      as [[new Ho] [lines Hl]].
    unfold P. cbn [tables set_tables]. rewrite Ho, Hl, map_app. eauto.
  - unfold post_api_products. apply authenticateAdmin_preserves; [exact HP|].
    intros _. destruct (insertProductSchema_parse body) as [d|]; [|exact HP].
    unfold createProduct.
    destruct (Decimal.numeric_10_2 (ip_price d)); [|exact HP].
    now apply Hsame.
  - destruct (put_api_products_id_state jwt_verify authorization id
                productData now st) as [->|(k & patch & ->)]; [exact HP|].
    destruct (updateProduct_other_tables k patch now (tables st))
      as (_ & Ho & Hl & _).
    now apply Hsame.
  - destruct (delete_api_products_id_state jwt_verify authorization id st)
      as [->|(k & ->)]; [exact HP|].
    unfold deleteProduct.
    destruct (existsb _ (products (tables st)) && product_referenced k st);
      [exact HP|].
    now apply Hsame.
  - destruct (put_api_orders_id_status_state jwt_verify authorization id stat
                now st) as [->|(k & ->)]; [exact HP|].
    unfold P. cbn [snd tables set_tables].
    rewrite updateOrderStatus_eq. cbn [snd orders orderItems set_orders].
    split; [exists []; now rewrite app_nil_r|].
    exists []. rewrite app_nil_r, map_map. apply map_ext.
    intros o. apply placed_with_status.
  - unfold post_api_notifications. apply authenticateAdmin_preserves;
      [exact HP|].
    intros _. destruct (insertNotificationSchema_parse body) as [d|];
      [|exact HP].
    unfold createNotification.
    destruct (fk_ok (in_productId d) (product_ids (tables st)));
      [|exact HP].
    now apply Hsame.
  - unfold post_api_admin_register.
    destruct (getAdminUser username st); [exact HP|].
    cbv zeta. unfold createAdminUser.
    destruct (existsb _ (adminUsers st)); [exact HP|].
    now apply Hsame.
Qed.

(** X10: The order history only grows.  No sequence of requests removes
    or alters a stored order line, and none removes an order or alters
    anything of it but its status and its time of update: the two tables
    hold, after any further requests, the lines and the orders they held
    before, followed by what the requests added, the orders compared
    without their status and their time of update. *)
Theorem order_history_only_grows requests st :
  let st' := serve_all jwt_verify bcrypt_hash requests st in
  (exists lines,
     orderItems (tables st') = orderItems (tables st) ++ lines) /\
  (exists headers,
     map placed (orders (tables st'))
     = map placed (orders (tables st)) ++ headers).
Proof.
  cbv zeta. unfold serve_all. revert st.
  induction requests as [|r rs IH]; intros st; cbn [fold_left].
  - split; exists []; now rewrite app_nil_r.
  - destruct (IH (serve jwt_verify bcrypt_hash r st))
      as [[lines Hl] [headers Ho]].
    destruct (serve_history r st) as [[lines0 Hl0] [headers0 Ho0]].
    rewrite Hl, Ho, Hl0, Ho0, <- !app_assoc. eauto.
Qed.

(** X11: A product that was ordered stays in the catalog.  In a database
    with sound references, the product of a stored order line is never
    removed again: after any further requests the line is still stored,
    [getProduct] still finds its product, and [DELETE /api/products/:id]
    for it changes nothing and does not answer 204, whatever the token. *)
Theorem ordered_product_stays_listed requests st i k authorization
    (Hrefs : store_referential st)
    (Hline : In i (orderItems (tables st)))
    (Hproduct : oi_productId i = Some k) :
  let st' := serve_all jwt_verify bcrypt_hash requests st in
  In i (orderItems (tables st')) /\
  (exists p, getProduct k (tables st') = Some p /\ p_id p = k) /\
  snd (delete_api_products_id jwt_verify authorization (Some k) st') = st' /\
  code (fst (delete_api_products_id jwt_verify authorization (Some k) st'))
  <> 204.
Proof.
  intros st'.
  assert (Hin : In i (orderItems (tables st'))).
  { apply (serve_all_invariant jwt_verify bcrypt_hash
             (fun s => In i (orderItems (tables s)))); [|exact Hline].
    intros request s Hs. destruct (serve_history request s) as [[lines ->] _].
    apply in_or_app. now left. }
  pose proof (serve_all_invariant jwt_verify bcrypt_hash store_referential
                (serve_referential jwt_verify bcrypt_hash) requests st Hrefs)
    as Hr.
  fold st' in Hr. destruct Hr as ((_ & Hfk & _) & _).
  rewrite Forall_forall in Hfk. specialize (Hfk i Hin).
  destruct (fk_ok_names _ _ Hfk k Hproduct) as (p & Hp & Hid).
  assert (Hexists : existsb (fun p => p_id p =? k) (products (tables st')) = true).
  { apply existsb_exists. exists p. split; [assumption|now apply Z.eqb_eq]. }
  assert (Hreferenced : product_referenced k st' = true).
  { unfold product_referenced. apply orb_true_iff. left.
    apply orb_true_iff. right. apply existsb_exists. exists i.
    split; [assumption|]. rewrite Hproduct. cbn. apply Z.eqb_refl. }
  split; [exact Hin|]. split.
  - unfold getProduct.
    destruct (filter (fun p => p_id p =? k) (products (tables st')))
      as [|q qs] eqn:E.
    + assert (H : In p (filter (fun p => p_id p =? k) (products (tables st'))))
        by (apply filter_In; split; [assumption|now apply Z.eqb_eq]).
      rewrite E in H. contradiction.
    + exists q. split; [reflexivity|].
      assert (H : In q (filter (fun p => p_id p =? k) (products (tables st'))))
        by (rewrite E; now left).
      apply filter_In in H as [_ H]. now apply Z.eqb_eq in H.
  - unfold delete_api_products_id, authenticateAdmin, delete_product,
      int4_param.
    destruct (authorization_token authorization) as [token|];
      [|split; [reflexivity|discriminate]].
    destruct (String.eqb token ""); [split; [reflexivity|discriminate]|].
    destruct (jwt_verify token); [|split; [reflexivity|discriminate]].
    destruct (int4_ok k); unfold ret, throw; cbv beta iota;
      [|split; [reflexivity|discriminate]].
    unfold deleteProduct. rewrite Hexists, Hreferenced. cbn [andb].
    split; [reflexivity|discriminate].
Qed.

End History.

Lemma ordered_product_stays_listed_witness :
  let st :=
    serve_all (String.eqb "t") append
      [ POST_products (Some "Bearer t")
          (mkProductBody (Some "House Blend") (Some "")
                         (Some (Sample.usd 1899)) None) 0;
        POST_orders "s1" 5 (Sample.checkout (Sample.usd 3798)
                                            [Sample.line 1 2 (Sample.usd 1899)]) ]
      empty_store in
  let st' :=
    serve_all (String.eqb "t") append
      [ DELETE_products_id (Some "Bearer t") (Some 1); DELETE_cart "s1" ] st in
  exists p, getProduct 1 (tables st') = Some p /\ p_id p = 1.
Proof.
  intros st st'.
  assert (Hr : store_referential st) by (repeat split; repeat constructor).
  apply (ordered_product_stays_listed (String.eqb "t") append
           [ DELETE_products_id (Some "Bearer t") (Some 1); DELETE_cart "s1" ] st
           (mkOrderItem 1 (Some 1) (Some 1) 2 1899 None) 1 None Hr).
  - now left.
  - reflexivity.
Defined.

(* ------------------------------------------------------------------ *)
(** ** The admin guard *)

Lemma split_no_space s : no_space s = true -> split " " s = [s].
Proof.
  induction s as [|c s IH]; [reflexivity|]. cbn [no_space split].
  intros H. apply andb_true_iff in H as [Hc Hs].
  apply negb_true_iff in Hc. rewrite Hc, (IH Hs). reflexivity.
Qed.

Lemma split_first_word word rest :
  no_space word = true ->
  split " " (word ++ String " " rest)%string = word :: split " " rest.
Proof.
  induction word as [|c w IH]; intros H.
  - reflexivity.
  - cbn [no_space] in H. apply andb_true_iff in H as [Hc Hw].
    apply negb_true_iff in Hc.
    cbn [append split]. rewrite Hc, (IH Hw). reflexivity.
Qed.

Section Guard.

Variable jwt_verify : string -> bool.
Variable bcrypt_hash : string -> string -> string.

Lemma authenticateAdmin_verifies {A} authorization
      (next : Store -> Reply A * Store) st :
  authenticateAdmin jwt_verify authorization next st =
  if verifies jwt_verify authorization then next st
  else (Message 401
          (match authorization_token authorization with
           | None => "No token provided"
           | Some token =>
               if String.eqb token "" then "No token provided"
               else "Invalid token"
           end), st).
Proof.
  unfold authenticateAdmin, verifies.
  destruct (authorization_token authorization) as [token|]; [|reflexivity].
  destruct (String.eqb token ""); [reflexivity|]. cbn [negb andb].
  now destruct (jwt_verify token).
Qed.

(** X12: The admin guard.  A request to a route behind [authenticateAdmin]
    whose header is missing, holds no second space-separated word, or holds
    one that [jwt.verify] rejects is answered 401 and leaves the database
    as it was.  The token is the second word of the header whatever the
    first word is: any scheme name, [Bearer] or not, followed by one space
    and a token that verifies lets the request through. *)
Theorem admin_guard :
  (forall request authorization st,
     credentials request = Some authorization ->
     verifies jwt_verify authorization = false ->
     serve jwt_verify bcrypt_hash request st = st) /\
  (forall A authorization (next : Store -> Reply A * Store) st,
     verifies jwt_verify authorization = false ->
     code (fst (authenticateAdmin jwt_verify authorization next st)) = 401 /\
     snd (authenticateAdmin jwt_verify authorization next st) = st) /\
  (forall A scheme token (next : Store -> Reply A * Store) st,
     no_space scheme = true -> no_space token = true ->
     token <> "" -> jwt_verify token = true ->
     authenticateAdmin jwt_verify (Some (scheme ++ " " ++ token)%string)
                       next st
     = next st) /\
  (forall A scheme (next : Store -> Reply A * Store) st,
     no_space scheme = true ->
     authenticateAdmin jwt_verify (Some scheme) next st
     = (Message 401 "No token provided", st)).
Proof.
  split; [|split; [|split]].
  - intros request authorization st Hc Hv.
    destruct request; try discriminate; injection Hc as ->; cbn [serve];
      [unfold post_api_products|unfold put_api_products_id
      |unfold delete_api_products_id|unfold put_api_orders_id_status
      |unfold post_api_notifications];
      rewrite authenticateAdmin_verifies, Hv; reflexivity.
  - intros A authorization next st Hv.
    rewrite authenticateAdmin_verifies, Hv. split; reflexivity.
  - intros A scheme token next st Hs Ht Hne Hv.
    rewrite authenticateAdmin_verifies. unfold verifies, authorization_token.
    change (scheme ++ " " ++ token)%string
      with (scheme ++ String " " token)%string.
    rewrite (split_first_word scheme token Hs), (split_no_space token Ht).
    cbn [nth_error]. apply String.eqb_neq in Hne. rewrite Hne, Hv.
    reflexivity.
  - intros A scheme next st Hs. unfold authenticateAdmin, authorization_token.
    rewrite (split_no_space scheme Hs). reflexivity.
Qed.

End Guard.

Lemma admin_guard_witness :
  delete_api_products_id (String.eqb "t") (Some "Basic t") (Some 7)
                         empty_store
  = (NoContent, empty_store) /\
  serve (String.eqb "t") append (DELETE_products_id (Some "Bearer") (Some 7))
        empty_store = empty_store.
Proof.
  destruct (admin_guard (String.eqb "t") append) as (Hrefused & _ & Hpassed & _).
  split.
  - unfold delete_api_products_id.
    change (Some "Basic t") with (Some ("Basic" ++ " " ++ "t")%string).
    rewrite (Hpassed unit "Basic" "t" _ empty_store eq_refl eq_refl);
      [reflexivity|discriminate|reflexivity].
  - apply (Hrefused (DELETE_products_id (Some "Bearer") (Some 7)) (Some "Bearer")
                    empty_store eq_refl eq_refl).
Defined.

(* ------------------------------------------------------------------ *)
(** ** Admin accounts *)




Section Accounts.

Variable jwt_sign : string -> Z -> string.
Variable bcrypt_hash : string -> string -> string.
Variable bcrypt_compare : string -> string -> bool.


End Accounts.


(* ------------------------------------------------------------------ *)
(** ** The catalog: creating, updating and reading products *)

Lemma filter_below_bound bound ps :
  Forall (fun p => p_id p < bound) ps ->
  filter (fun p => p_id p =? bound) ps = [].
Proof.
  intros H. rewrite (filter_const _ false); [reflexivity|].
  intros p Hp. rewrite Forall_forall in H. specialize (H p Hp).
  apply Z.eqb_neq. lia.
Qed.




Section Catalog.

Variable jwt_verify : string -> bool.

(** X14: Creating a product, then reading it.  In a database with sound
    keys, when [POST /api/products] answers 201 with a product, that
    product carries the next id of the sequence, the submitted name and the
    submitted price rounded to two decimals, and is in stock unless the
    body says otherwise; [GET /api/products/:id] on its id then answers 200
    with the same product, and every other id is answered as before. *)
Theorem product_created_then_read authorization body now st product st'
    (Hkeys : store_keyed st)
    (Hcreated : post_api_products jwt_verify authorization body now st
                = (Json 201 product, st')) :
  verifies jwt_verify authorization = true /\
  p_id product = products_id_seq st /\
  pb_name body = Some (p_name product) /\
  (exists price, pb_price body = Some price /\
                 p_price product = Decimal.to_scale2 price) /\
  (pb_inStock body = None -> p_inStock product = Some true) /\
  products (tables st') = products (tables st) ++ [product] /\
  get_api_products_id (p_id product) (tables st') = Json 200 product /\
  (forall k, k <> p_id product ->
             get_api_products_id k (tables st')
             = get_api_products_id k (tables st)).
Proof.
  unfold post_api_products in Hcreated.
  rewrite authenticateAdmin_verifies in Hcreated.
  destruct (verifies jwt_verify authorization); [|discriminate].
  split; [reflexivity|].
  unfold insertProductSchema_parse in Hcreated.
  destruct (pb_name body) as [name|]; [|discriminate].
  destruct (pb_details body) as [details|]; [|discriminate].
  destruct (pb_price body) as [price|]; [|discriminate].
  unfold createProduct in Hcreated. cbn [ip_price ip_name ip_inStock] in Hcreated.
  destruct (Decimal.numeric_10_2 price) as [c|] eqn:Hc; [|discriminate].
  injection Hcreated as <- <-. cbn.
  destruct Hkeys as (_ & Hbelow & _).
  split; [reflexivity|]. split; [reflexivity|].
  split; [exists price; split; [reflexivity|now apply numeric_10_2_value]|].
  split; [now intros ->|]. split; [reflexivity|].
  unfold get_api_products_id, getProduct. cbn. split.
  - rewrite filter_app, (filter_below_bound _ _ Hbelow). cbn.
    now rewrite Z.eqb_refl.
  - intros k Hne. rewrite filter_app. cbn.
    assert (Hk : (products_id_seq st =? k) = false)
      by (apply Z.eqb_neq; congruence).
    now rewrite Hk, app_nil_r.
Qed.




End Catalog.

Lemma product_created_then_read_witness :
  get_api_products_id 1
    (mkDb [mkProduct 1 "House Blend" 1899 (Some true) 0] [] [] [] 1 1 1)
  = Json 200 (mkProduct 1 "House Blend" 1899 (Some true) 0).
Proof.
  assert (Hk : store_keyed empty_store) by (repeat split; constructor).
  apply (product_created_then_read (String.eqb "t") (Some "Bearer t")
           (mkProductBody (Some "House Blend") (Some "")
                          (Some (Decimal.Literal 18994 3)) None)
           0 empty_store
           (mkProduct 1 "House Blend" 1899 (Some true) 0)
           (mkStore (mkDb [mkProduct 1 "House Blend" 1899 (Some true) 0]
                          [] [] [] 1 1 1) 2 [] 1 [] 1)
           Hk eq_refl).
Defined.


(* ------------------------------------------------------------------ *)
(** ** Seeding the database *)

Lemma insert_products_spec rows now :
  Forall (fun row => Decimal.numeric_10_2 (ip_price row) <> None) rows ->
  forall st,
    exists new,
      insert_products rows now st =
      (Returned tt,
       mkStore (set_products (tables st) (products (tables st) ++ new))
               (products_id_seq st + Z.of_nat (List.length rows))
               (adminUsers st) (admin_users_id_seq st)
               (notifications st) (notifications_id_seq st)) /\
      map p_name new = map ip_name rows /\
      map (fun p => Some (p_price p))
          new = map (fun row => Decimal.numeric_10_2 (ip_price row)) rows /\
      List.length new = List.length rows.
Proof.
  induction 1 as [|row rows Hrow _ IH]; intros st.
  - exists []. cbn -[Z.of_nat]. rewrite app_nil_r, set_products_same.
    cbn. rewrite Z.add_0_r. now destruct st.
  - cbn [insert_products]. unfold createProduct at 1.
    destruct (Decimal.numeric_10_2 (ip_price row)) as [c|] eqn:Hc;
      [|contradiction].
    match goal with
    | |- context [insert_products rows now ?s] =>
        destruct (IH s) as (new & -> & Hn & Hp & Hl)
    end.
    eexists (_ :: new). cbn [tables products set_products products_id_seq
                             adminUsers admin_users_id_seq notifications
                             notifications_id_seq].
    split; [|split; [|split]].
    + rewrite <- app_assoc. cbn [app List.length].
      rewrite Nat2Z.inj_succ, <- Z.add_1_l, Z.add_assoc.
      unfold set_products. cbn. reflexivity.
    + cbn. now rewrite Hn.
    + cbn. now rewrite Hp, Hc.
    + cbn. now rewrite Hl.
Qed.

Lemma sample_products_fit :
  Forall (fun row => Decimal.numeric_10_2 (ip_price row) <> None)
         sample_products.
Proof. repeat constructor; discriminate. Qed.

Section Seeding.

Variable jwt_sign : string -> Z -> string.
Variable bcrypt_hash : string -> string -> string.
Variable bcrypt_compare : string -> string -> bool.

(** X16: Seeding.  [initializeDatabase] exits with code 0 from every
    database, and a second run changes nothing.  It writes the ten sample
    products only into an empty product table and the default admin only
    into an empty admin table, and never touches carts, orders or
    notifications.  After it, if there was no admin before and
    [bcrypt.compare] accepts a password against its own hash, logging in as
    [admin] with [admin123] answers 200 with a token. *)
Theorem initializeDatabase_settles now salt now' salt' issuedAt st :
  let st1 := snd (initializeDatabase bcrypt_hash now salt st) in
  fst (initializeDatabase bcrypt_hash now salt st) = 0 /\
  initializeDatabase bcrypt_hash now' salt' st1 = (0, st1) /\
  (products (tables st) <> [] -> products (tables st1) = products (tables st)) /\
  (products (tables st) = [] ->
   map p_name (products (tables st1)) = map ip_name sample_products /\
   map p_price (products (tables st1))
   = [2499; 2299; 1999; 2699; 1899; 2199; 2099; 4999; 3999; 2399]) /\
  (adminUsers st <> [] -> adminUsers st1 = adminUsers st) /\
  (adminUsers st = [] ->
   adminUsers st1 = [mkAdminUser (admin_users_id_seq st) "admin"
                                 (bcrypt_hash "admin123" salt)
                                 "admin@kcup.com"] /\
   (bcrypt_compare "admin123" (bcrypt_hash "admin123" salt) = true ->
    post_api_admin_login jwt_sign bcrypt_compare "admin" "admin123" issuedAt
                         st1
    = Json 200 (mkLoginResult (jwt_sign "admin" issuedAt) "admin"
                              "admin@kcup.com"))) /\
  cartItems (tables st1) = cartItems (tables st) /\
  orders (tables st1) = orders (tables st) /\
  orderItems (tables st1) = orderItems (tables st) /\
  notifications st1 = notifications st.
Proof.
  destruct (insert_products_spec sample_products now sample_products_fit st)
    as (new & Hins & Hnames & Hprices & Hlen).
  destruct st as [[ps cs os ois s1 s2 s3] s4 admins s5 ns s6].
  cbn [tables products adminUsers cartItems orders orderItems notifications
       admin_users_id_seq products_id_seq notifications_id_seq set_products]
    in *.
  unfold initializeDatabase.
  cbn [tables products adminUsers].
  destruct ps as [|p ps].
  - rewrite Hins. cbn [app adminUsers].
    assert (Hnew : new <> []) by (intros ->; discriminate Hlen).
    assert (Hp : map p_price new
                 = [2499; 2299; 1999; 2699; 1899; 2199; 2099; 4999; 3999; 2399]).
    { apply (f_equal (map (fun o => match o with Some c => c | None => 0 end)))
        in Hprices.
      rewrite map_map in Hprices. cbn in Hprices.
      rewrite <- Hprices. apply map_ext. reflexivity. }
    destruct admins as [|a admins].
    + cbn. destruct new as [|n new]; [contradiction|]. cbn.
      repeat split; try assumption; try congruence; try reflexivity.
      unfold post_api_admin_login, getAdminUser. cbn.
      intros Hb. now rewrite Hb.
    + cbn. destruct new as [|n new]; [contradiction|]. cbn.
      repeat split; try assumption; try congruence; try reflexivity.
  - destruct admins as [|a admins].
    + cbn. repeat split; try congruence; try reflexivity.
      unfold post_api_admin_login, getAdminUser. cbn.
      intros Hb. now rewrite Hb.
    + cbn. repeat split; try congruence; try reflexivity.
Qed.

End Seeding.

(* ------------------------------------------------------------------ *)
(** ** Order ids chosen by the client *)

(** [place_order], split after the insertion of the order. *)
Lemma place_order_step sessionId now body db :
  place_order sessionId now body db =
  match insertOrderSchema_parse body db with
  | (Threw e, d) => (Threw e, d)
  | (Returned orderData, d) =>
      match createOrder (mkOrderInfo (b_id body) orderData) now d with
      | (Threw e, d1) => (Threw e, d1)
      | (Returned order, d1) =>
          (items <- iterable (b_orderItems body) ;;
           for_of items (create_line (o_id order)) ;;;
           clearCart sessionId ;;;
           ret order) d1
      end
  end.
Proof. reflexivity. Qed.

Lemma insertOrderSchema_parse_state body db :
  snd (insertOrderSchema_parse body db) = db.
Proof.
  unfold insertOrderSchema_parse.
  now destruct (b_customerName body), (b_customerEmail body),
    (b_customerAddress body), (b_customerCity body), (b_customerZip body),
    (b_totalAmount body).
Qed.

Lemma lines_and_clear_preserve (P : Db -> Prop) sessionId items k (order : Order) :
  (forall item, preserves P (createOrderItem item)) ->
  (forall s, preserves P (clearCart s)) ->
  preserves P (its <- iterable items ;;
               for_of its (create_line k) ;;;
               clearCart sessionId ;;;
               ret order).
Proof.
  intros H2 H3. apply preserves_bind.
  { unfold iterable. destruct items;
      (apply preserves_ret || apply preserves_throw). }
  intros its. apply preserves_bind.
  { apply preserves_for_of. intros item. unfold create_line.
    apply preserves_bind.
    - unfold insertOrderItemSchema_parse.
      destruct (ib_quantity item), (ib_price item);
        (apply preserves_ret || apply preserves_throw).
    - intros d. apply preserves_bind; [apply H2|].
      intros _. apply preserves_ret. }
  intros _. apply preserves_bind; [apply H3|].
  intros _. apply preserves_ret.
Qed.

Lemma createOrderItem_orders_seq c item :
  preserves (fun d => orders_id_seq d = c) (createOrderItem item).
Proof.
  intros db H. unfold createOrderItem.
  destruct (negb (int4_ok (ioi_quantity item))); [exact H|].
  destruct (Decimal.numeric_10_2 (ioi_price item)); [|exact H].
  destruct (fk_ok (ioi_orderId item) (order_ids db)
            && fk_ok (ioi_productId item) (product_ids db)); exact H.
Qed.

Lemma post_api_orders_taken_id sessionId now body db :
  In (match b_id body with Some k => k | None => orders_id_seq db end)
     (order_ids db) ->
  status (fst (post_api_orders sessionId now body db)) <> 201 /\
  snd (post_api_orders sessionId now body db) = db.
Proof.
  intros Htaken. unfold post_api_orders. rewrite place_order_step.
  pose proof (insertOrderSchema_parse_state body db) as Hparse.
  destruct (insertOrderSchema_parse body db) as [[e|orderData] d];
    cbn [snd] in Hparse; subst d.
  - split; [destruct e as [| |x]; discriminate|reflexivity].
  - unfold createOrder. cbv zeta. cbn [info_columns info_id].
    destruct (Decimal.numeric_10_2 (io_totalAmount orderData)) as [c|];
      [|split; [discriminate|reflexivity]].
    assert (Hex : existsb
                    (Z.eqb (match b_id body with
                            | Some k => k
                            | None => orders_id_seq db
                            end)) (order_ids db) = true).
    { apply existsb_exists. eexists. split; [exact Htaken|apply Z.eqb_refl]. }
    rewrite Hex. split; [discriminate|reflexivity].
Qed.

(** X17: Order ids chosen by the client.  [POST /api/orders] hands the
    request body to the insert as it came, so an [id] in the body becomes
    the id of the order.  An id that an order already has is refused and
    nothing is written, the cart included.  An id that is free is taken
    as it is, and the sequence does not move: when it was the id the
    sequence would issue next, the next order without an id of its own is
    refused and leaves the orders, the lines and the carts as they
    were. *)
Theorem order_id_is_taken_from_body sessionId now body db k
    (Hid : b_id body = Some k) :
  (In k (order_ids db) ->
   status (fst (post_api_orders sessionId now body db)) <> 201 /\
   snd (post_api_orders sessionId now body db) = db) /\
  (forall order db',
     post_api_orders sessionId now body db = (Status201 order, db') ->
     o_id order = k /\
     orders db' = orders db ++ [order] /\
     orders_id_seq db' = orders_id_seq db /\
     (k = orders_id_seq db ->
      forall sessionId' now' body',
        b_id body' = None ->
        let after := snd (post_api_orders sessionId' now' body' db') in
        status (fst (post_api_orders sessionId' now' body' db')) <> 201 /\
        orders after = orders db' /\
        orderItems after = orderItems db' /\
        cartItems after = cartItems db')).
Proof.
  split.
  - intros Htaken. apply post_api_orders_taken_id. now rewrite Hid.
  - intros order db' Hplaced.
    pose proof (post_api_orders_cases sessionId now body db) as Hcases.
    rewrite Hplaced in Hcases.
    destruct Hcases as (_ & total & items & rows & _ & _ & _ & _ & Horders & _).
    assert (Hstate : o_id order = k /\ orders_id_seq db' = orders_id_seq db).
    { revert Hplaced. unfold post_api_orders. rewrite place_order_step.
      pose proof (insertOrderSchema_parse_state body db) as Hparse.
      destruct (insertOrderSchema_parse body db) as [[e|orderData] d];
        cbn [snd] in Hparse; subst d; [destruct e as [| |x]; discriminate|].
      unfold createOrder. cbv zeta. cbn [info_columns info_id]. rewrite Hid.
      destruct (Decimal.numeric_10_2 (io_totalAmount orderData)) as [c|];
        [|discriminate].
      destruct (existsb (Z.eqb k) (order_ids db)); [discriminate|].
      match goal with
      | |- context [bind ?m ?f (insert_order db ?o false)] =>
          pose proof (lines_and_clear_preserve
                        (fun d => orders_id_seq d = orders_id_seq db)
                        sessionId (b_orderItems body) (o_id o) o
                        (createOrderItem_orders_seq _)
                        (fun s d H => H)
                        (insert_order db o false) eq_refl) as Hseq;
          destruct (bind m f (insert_order db o false)) as [[e|r] d2] eqn:Hrest
      end; [destruct e as [| |x]; discriminate|].
      intros H. injection H as <- <-. cbn [snd] in Hseq.
      split; [|exact Hseq].
      (* the order returned is the one inserted *)
      revert Hrest. unfold bind at 1.
      destruct (iterable (b_orderItems body) _) as [[e|its] d1];
        [discriminate|].
      unfold bind at 1.
      destruct (for_of its _ d1) as [[e|u] d3]; [discriminate|].
      unfold bind at 1. unfold clearCart at 1. cbn [ret].
      intros H. now injection H as <- _. }
    destruct Hstate as [Hk Hseq].
    split; [exact Hk|]. split; [exact Horders|]. split; [exact Hseq|].
    intros Hnext sessionId' now' body' Hnone after.
    destruct (post_api_orders_taken_id sessionId' now' body' db')
      as [Hstatus Hsame].
    { rewrite Hnone, Hseq, <- Hnext, <- Hk.
      unfold order_ids. rewrite Horders, map_app. apply in_or_app. right.
      now left. }
    unfold after. rewrite Hsame. now repeat split.
Qed.

Lemma order_id_is_taken_from_body_witness :
  let body :=
    mkOrderBody (Some 1) (Some "Ada") (Some "ada@example.org")
                (Some "1 Main St") (Some "Springfield") (Some "12345")
                (Some (Sample.usd 7497)) None
                (Some [Sample.line 1 3 (Sample.usd 2499)]) in
  let db' := snd (post_api_orders "s1" 100 body Sample.shopping) in
  orders_id_seq db' = 1 /\
  status (fst (post_api_orders "s2" 101 Sample.paid db')) <> 201.
Proof.
  intros body db'.
  destruct (order_id_is_taken_from_body "s1" 100 body Sample.shopping 1
              eq_refl) as [_ Hfree].
  destruct (Hfree (mkOrder 1 "Ada" "ada@example.org" "1 Main St" "Springfield"
                           "12345" 7497 "pending" 100 100) db' eq_refl)
    as (_ & _ & Hseq & Hnext).
  split; [exact Hseq|].
  apply (Hnext eq_refl "s2" 101 Sample.paid eq_refl).
Defined.

(* ------------------------------------------------------------------ *)
(** ** The order list of the admin *)

Lemma insert_desc_sorted r l :
  StronglySorted newer (map row_orders l) ->
  StronglySorted newer (map row_orders (insert_desc r l)).
Proof.
  induction l as [|x l IH]; intros Hs; cbn [insert_desc map].
  - repeat constructor.
  - destruct (o_createdAt (row_orders x) <=? o_createdAt (row_orders r)) eqn:E.
    + cbn [map]. constructor; [exact Hs|].
      apply Z.leb_le in E. cbn [map] in Hs.
      inversion Hs as [|? ? Hs' Hall]; subst.
      constructor; [exact E|].
      eapply Forall_impl; [|exact Hall]. unfold newer. intros; lia.
    + cbn [map] in *. inversion Hs as [|? ? Hs' Hall]; subst.
      constructor; [now apply IH|].
      apply Forall_forall. intros o Ho.
      apply in_map_iff in Ho as (y & <- & Hy).
      apply insert_desc_In in Hy as [->|Hy].
      * apply Z.leb_gt in E. unfold newer. lia.
      * rewrite Forall_forall in Hall. apply Hall. now apply in_map.
Qed.

Lemma orderBy_sorted rows :
  StronglySorted newer (map row_orders (orderBy_desc_createdAt rows)).
Proof.
  unfold orderBy_desc_createdAt. induction rows as [|r rows IH]; cbn.
  - constructor.
  - now apply insert_desc_sorted.
Qed.

Lemma sorted_without l1 (x : Order) l2 :
  StronglySorted newer (l1 ++ x :: l2) -> StronglySorted newer (l1 ++ l2).
Proof.
  induction l1 as [|a l1 IH]; cbn; intros Hs.
  - now inversion Hs.
  - inversion Hs as [|? ? Hs' Hall]; subst. constructor; [now apply IH|].
    apply Forall_app in Hall as [H1 H2]. inversion H2; subst.
    apply Forall_app. now split.
Qed.

Lemma map_push_headers m k x : map ow_order (map_push m k x) = map ow_order m.
Proof.
  unfold map_push. rewrite map_map. apply map_ext. intros e.
  now destruct (o_id (ow_order e) =? k).
Qed.

Lemma group_row_headers m row :
  map ow_order (group_row m row) = map ow_order m \/
  map ow_order (group_row m row) = map ow_order m ++ [row_orders row].
Proof.
  unfold group_row. cbv zeta.
  destruct (map_has m (o_id (row_orders row)));
    destruct (row_order_items row), (row_products row);
    rewrite ?map_push_headers, ?map_app; auto.
Qed.

Lemma fold_group_sorted rows :
  forall m,
    StronglySorted newer (map ow_order m ++ map row_orders rows) ->
    StronglySorted newer (map ow_order (fold_left group_row rows m)).
Proof.
  induction rows as [|row rows IH]; intros m Hs; cbn [fold_left].
  - cbn in Hs. now rewrite app_nil_r in Hs.
  - apply IH. cbn [map] in Hs.
    destruct (group_row_headers m row) as [-> | ->].
    + now apply sorted_without in Hs.
    + now rewrite <- app_assoc.
Qed.

Lemma sorted_newest_first l : StronglySorted newer l -> newest_first l.
Proof.
  induction 1 as [|a l Hs IH Hall]; intros i j x y Hij Hx Hy.
  - now destruct i.
  - destruct j as [|j]; [lia|]. cbn in Hy. destruct i as [|i].
    + cbn in Hx. injection Hx as <-. rewrite Forall_forall in Hall.
      apply Hall. eapply nth_error_In. exact Hy.
    + cbn in Hx. apply (IH i j); [lia|assumption|assumption].
Qed.

(** X18: The order list of the admin.  [getOrders] lists the orders in
    descending order of their creation times, and with order ids unique it
    lists every order of the table exactly once. *)
Theorem getOrders_lists_orders_newest_first db :
  newest_first (map ow_order (getOrders db)) /\
  (NoDup (order_ids db) ->
   Permutation (map ow_order (getOrders db)) (orders db)).
Proof.
  split.
  - apply sorted_newest_first. unfold getOrders. apply fold_group_sorted.
    cbn. apply orderBy_sorted.
  - intros Hkey.
    destruct (getOrders_entries db) as (Hnd & Hkeys & _ & Hin).
    rewrite Forall_forall in Hin.
    apply NoDup_Permutation.
    + unfold keys in Hnd. rewrite <- (map_map ow_order o_id) in Hnd.
      now apply NoDup_map_inv in Hnd.
    + unfold order_ids in Hkey. now apply NoDup_map_inv in Hkey.
    + intros o. split.
      * intros Ho. apply in_map_iff in Ho as (e & <- & He). now apply Hin.
      * intros Ho.
        assert (Hk : In (o_id o) (keys (getOrders db)))
          by (apply Hkeys; eauto).
        unfold keys in Hk. apply in_map_iff in Hk as (e & Hid & He).
        apply in_map_iff. exists e. split; [|exact He].
        apply (same_id_same_order (orders db)); auto.
Qed.

(* ------------------------------------------------------------------ *)
(** ** The cart total of the client *)

Lemma same_line_without_product item rows :
  ici_productId item = None -> filter (same_line item) rows = [].
Proof.
  intros Hnull. rewrite (filter_const _ false); [reflexivity|].
  intros c _. unfold same_line. rewrite Hnull.
  destruct (ci_productId c); cbn; apply andb_false_r.
Qed.

Section ClientTotal.

Variable number : Type.
Variable zero : number.
Variable parseFloat : Z -> number.
Variable times : number -> Z -> number.
Variable plus : number -> number -> number.

Lemma reduce_after_TypeError items :
  fold_left
    (fun sum item =>
       match sum, cwp_product item with
       | Some sum, Some product =>
           Some (plus sum (times (parseFloat (p_price product))
                                 (ci_quantity (cwp_item item))))
       | _, _ => None
       end) items None = None.
Proof. induction items as [|item items IH]; [reflexivity|exact IH]. Qed.

Lemma reduce_defined items :
  forall sum,
    fold_left
      (fun sum item =>
         match sum, cwp_product item with
         | Some sum, Some product =>
             Some (plus sum (times (parseFloat (p_price product))
                                   (ci_quantity (cwp_item item))))
         | _, _ => None
         end) items (Some sum) = None
    <-> exists item, In item items /\ cwp_product item = None.
Proof.
  induction items as [|item items IH]; intros sum; cbn [fold_left].
  - split; [discriminate|]. now intros (item & [] & _).
  - destruct (cwp_product item) as [product|] eqn:E.
    + rewrite IH. split.
      * intros (x & Hx & Hnone). exists x. split; [now right|exact Hnone].
      * intros (x & [<-|Hx] & Hnone); [congruence|]. now exists x.
    + rewrite reduce_after_TypeError. split; [|reflexivity].
      intros _. exists item. split; [now left|exact E].
Qed.

(** X19: The cart total needs every product.  The total the client
    computes over a cart listing throws a [TypeError] exactly when some
    entry of the listing has no product.  [POST /api/cart] accepts a body
    without a productId:
    once it has answered 201 for one, the listing of that session holds an
    entry without a product, and the total of that session throws. *)
Theorem cart_total_needs_products sessionId body db returned db'
    (Hnull : cb_productId body = None)
    (Hadded : post_api_cart sessionId body db = (Json 201 returned, db')) :
  (forall items,
     cartTotal number zero parseFloat times plus items = None
     <-> exists item, In item items /\ cwp_product item = None) /\
  (exists item, In item (getCartItems sessionId db') /\
                cwp_product item = None /\
                returned = Some (cwp_item item)) /\
  cartTotal number zero parseFloat times plus (getCartItems sessionId db')
  = None.
Proof.
  assert (Hiff : forall items,
             cartTotal number zero parseFloat times plus items = None
             <-> exists item, In item items /\ cwp_product item = None)
    by (intros items; apply reduce_defined).
  split; [exact Hiff|].
  assert (Hentry : exists item, In item (getCartItems sessionId db') /\
                                cwp_product item = None /\
                                returned = Some (cwp_item item)).
  { revert Hadded. unfold post_api_cart, bind, insertCartItemSchema_parse.
    destruct (cb_quantity body) as [q|]; [|discriminate]. cbn [ret].
    rewrite Hnull. unfold addToCart.
    rewrite same_line_without_product by reflexivity.
    cbn [ici_quantity ici_productId fk_ok negb].
    destruct (int4_ok q); cbn [negb]; [|discriminate].
    intros H. injection H as <- <-.
    eexists (mkCartItemWithProduct _ None). split; [|split; reflexivity].
    unfold getCartItems. apply filter_In. split.
    - apply in_flat_map. eexists. split.
      + cbn. apply in_or_app. right. now left.
      + unfold leftJoin_products. cbn [ci_productId].
        rewrite (filter_const _ false) by reflexivity. now left.
    - cbn. apply String.eqb_refl. }
  split; [exact Hentry|].
  apply Hiff. destruct Hentry as (item & Hin & Hnone & _). eauto.
Qed.

End ClientTotal.

Lemma cart_total_needs_products_witness :
  cartTotal Z 0 (fun hundredths => hundredths) Z.mul Z.add
    (getCartItems "s1"
       (snd (post_api_cart "s1" (mkCartBody None (Some 1) None)
                           Sample.shopping)))
  = None.
Proof.
  apply (cart_total_needs_products Z 0 (fun hundredths => hundredths)
           Z.mul Z.add "s1" (mkCartBody None (Some 1) None) Sample.shopping
           (Some (mkCartItem 3 "s1" None 1 None))
           (snd (post_api_cart "s1" (mkCartBody None (Some 1) None)
                               Sample.shopping))
           eq_refl eq_refl).
Defined.

(* ------------------------------------------------------------------ *)
(** ** Deleting a product *)

Lemma existsb_ref {A} (ref : A -> option Z) id l :
  existsb (fun x => sql_eq (ref x) (Some id)) l = true
  <-> exists x, In x l /\ ref x = Some id.
Proof.
  rewrite existsb_exists. split; intros (x & Hx & H); exists x; split; auto.
  - destruct (ref x) as [k|]; [|discriminate]. cbn in H.
    apply Z.eqb_eq in H. now subst.
  - rewrite H. cbn. apply Z.eqb_refl.
Qed.

Lemma getProduct_exists id db :
  getProduct id db <> None
  <-> existsb (fun p => p_id p =? id) (products db) = true.
Proof.
  unfold getProduct. induction (products db) as [|p ps IH]; cbn.
  - split; [congruence|discriminate].
  - destruct (p_id p =? id); cbn; [|exact IH]. split; [reflexivity|discriminate].
Qed.

Section Deleting.

Variable jwt_verify : string -> bool.

(** X20: Deleting a product.  Behind a token that verifies,
    [DELETE /api/products/:id] with an id that the integer column can hold
    answers 204 and changes nothing when no product has the id.  A product
    that a cart row of any session, an order line or a notification refers
    to is not deleted: the answer is 500 and nothing changes.  Any other
    product is deleted with a 204: [getProduct] no longer finds it, finds
    every other product as before, and no other table is touched.  An id
    that [parseInt] reads as [NaN] or that lies outside the integer range
    is answered 500 and changes nothing. *)
Theorem product_delete_cases authorization id st
    (Hverifies : verifies jwt_verify authorization = true)
    (Hid : int4_ok id = true) :
  let reply := delete_api_products_id jwt_verify authorization (Some id) st in
  (product_referenced id st = true <->
   (exists c, In c (cartItems (tables st)) /\ ci_productId c = Some id) \/
   (exists i, In i (orderItems (tables st)) /\ oi_productId i = Some id) \/
   (exists n, In n (notifications st) /\ n_productId n = Some id)) /\
  (getProduct id (tables st) = None -> reply = (NoContent, st)) /\
  (getProduct id (tables st) <> None -> product_referenced id st = true ->
   reply = (Message 500 "Failed to delete product", st)) /\
  (product_referenced id st = false ->
   fst reply = NoContent /\
   getProduct id (tables (snd reply)) = None /\
   (forall k, k <> id ->
      getProduct k (tables (snd reply)) = getProduct k (tables st)) /\
   cartItems (tables (snd reply)) = cartItems (tables st) /\
   orders (tables (snd reply)) = orders (tables st) /\
   orderItems (tables (snd reply)) = orderItems (tables st) /\
   notifications (snd reply) = notifications st /\
   adminUsers (snd reply) = adminUsers st) /\
  (forall n,
     n = None \/ (exists k, n = Some k /\ int4_ok k = false) ->
     delete_api_products_id jwt_verify authorization n st
     = (Message 500 "Failed to delete product", st)).
Proof.
  intros reply. unfold reply, delete_api_products_id.
  rewrite !authenticateAdmin_verifies, Hverifies.
  unfold delete_product, int4_param. rewrite Hid.
  unfold ret. cbv beta iota. unfold deleteProduct.
  split; [|split; [|split; [|split]]].
  - unfold product_referenced. rewrite !orb_true_iff, !existsb_ref.
    tauto.
  - intros Hnone.
    assert (Hex : existsb (fun p => p_id p =? id) (products (tables st)) = false).
    { destruct (existsb _ (products (tables st))) eqn:E; [|reflexivity].
      apply getProduct_exists in E. contradiction. }
    rewrite Hex. cbn [andb].
    now rewrite (filter_absent_id _ _ Hex), set_products_same, set_tables_same.
  - intros Hsome Href. apply getProduct_exists in Hsome.
    now rewrite Hsome, Href.
  - intros Hfree. rewrite Hfree, andb_false_r. cbn.
    repeat split.
    + unfold getProduct. cbn.
      rewrite (filter_const _ false); [reflexivity|].
      intros p Hp. apply filter_In in Hp as [_ Hp].
      now apply negb_true_iff in Hp.
    + intros k Hne. unfold getProduct. cbn. f_equal.
      induction (products (tables st)) as [|p ps IH]; [reflexivity|].
      cbn. destruct (p_id p =? id) eqn:E; cbn.
      * apply Z.eqb_eq in E.
        assert (Hk : (p_id p =? k) = false) by (apply Z.eqb_neq; congruence).
        now rewrite Hk.
      * now rewrite IH.
  - intros n Hn. unfold delete_api_products_id.
    rewrite authenticateAdmin_verifies, Hverifies.
    unfold delete_product, int4_param.
    destruct Hn as [->|(k & -> & Hk)]; [reflexivity|]. now rewrite Hk.
Qed.

End Deleting.

Lemma product_delete_cases_witness :
  delete_api_products_id (String.eqb "t") (Some "Bearer t") (Some 1)
                         (mkStore Sample.shopping 4 [] 1 [] 1)
  = (Message 500 "Failed to delete product",
     mkStore Sample.shopping 4 [] 1 [] 1) /\
  delete_api_products_id (String.eqb "t") (Some "Bearer t") None
                         (mkStore Sample.shopping 4 [] 1 [] 1)
  = (Message 500 "Failed to delete product",
     mkStore Sample.shopping 4 [] 1 [] 1).
Proof.
  destruct (product_delete_cases (String.eqb "t") (Some "Bearer t") 1
              (mkStore Sample.shopping 4 [] 1 [] 1) eq_refl eq_refl)
    as (_ & _ & Hreferenced & _ & Hrefused).
  split.
  - apply Hreferenced; [discriminate|reflexivity].
  - apply Hrefused. now left.
Defined.

(* ------------------------------------------------------------------ *)
(** ** The header of a placed order *)

Lemma placed_order_row sessionId now body db order db' :
  post_api_orders sessionId now body db = (Status201 order, db') ->
  exists orderData c,
    insertOrderSchema_parse body db = (Returned orderData, db) /\
    Decimal.numeric_10_2 (io_totalAmount orderData) = Some c /\
    order = mkOrder (match b_id body with
                     | Some k => k
                     | None => orders_id_seq db
                     end)
                    (io_customerName orderData) (io_customerEmail orderData)
                    (io_customerAddress orderData) (io_customerCity orderData)
                    (io_customerZip orderData) c
                    (match io_status orderData with
                     | Some s => s
                     | None => "pending"
                     end)
                    now now.
Proof.
  unfold post_api_orders. rewrite place_order_step.
  pose proof (insertOrderSchema_parse_state body db) as Hparse.
  destruct (insertOrderSchema_parse body db) as [[e|orderData] d];
    cbn [snd] in Hparse; subst d; [destruct e as [| |x]; discriminate|].
  unfold createOrder. cbv zeta. cbn [info_columns info_id].
  destruct (Decimal.numeric_10_2 (io_totalAmount orderData)) as [c|] eqn:Hc;
    [|discriminate].
  destruct (existsb _ (order_ids db)); [discriminate|].
  unfold bind at 1.
  destruct (iterable (b_orderItems body) _) as [[e|its] d1];
    [destruct e as [| |x]; discriminate|].
  unfold bind at 1.
  destruct (for_of its _ d1) as [[e|u] d3];
    [destruct e as [| |x]; discriminate|].
  unfold bind at 1. unfold clearCart at 1. cbn [ret].
  intros H. injection H as <- _. exists orderData, c. now repeat split.
Qed.

(** X21: The header of a placed order.  The order that
    [POST /api/orders] answers with a 201 carries the customer fields of
    the request and the status the request names: any text is taken, and
    only a request that names none gets [pending].  Without an id of its own it gets the next id of the
    sequence.  [getOrder] on its id returns this header when order ids are
    unique. *)
Theorem order_header_comes_from_request sessionId now body db order db'
    (Hplaced : post_api_orders sessionId now body db = (Status201 order, db')) :
  b_customerName body = Some (o_customerName order) /\
  b_customerEmail body = Some (o_customerEmail order) /\
  b_customerAddress body = Some (o_customerAddress order) /\
  b_customerCity body = Some (o_customerCity order) /\
  b_customerZip body = Some (o_customerZip order) /\
  o_status order = match b_status body with
                   | Some status => status
                   | None => "pending"
                   end /\
  (b_id body = None -> o_id order = orders_id_seq db) /\
  (NoDup (order_ids db) ->
   option_map ow_order (getOrder (o_id order) db') = Some order).
Proof.
  destruct (placed_order_row _ _ _ _ _ _ Hplaced)
    as (orderData & c & Hparse & _ & Horder).
  pose proof (post_api_orders_cases sessionId now body db) as Hcases.
  rewrite Hplaced in Hcases.
  destruct Hcases as (_ & total & items & rows & _ & _ & Hfresh & _ & Horders & _).
  unfold insertOrderSchema_parse in Hparse.
  destruct (b_customerName body) as [name|]; [|discriminate].
  destruct (b_customerEmail body) as [email|]; [|discriminate].
  destruct (b_customerAddress body) as [address|]; [|discriminate].
  destruct (b_customerCity body) as [city|]; [|discriminate].
  destruct (b_customerZip body) as [zip|]; [|discriminate].
  destruct (b_totalAmount body) as [total'|]; [|discriminate].
  cbn [ret] in Hparse. injection Hparse as <-.
  cbn [io_customerName io_customerEmail io_customerAddress io_customerCity
       io_customerZip io_status] in Horder.
  split; [now rewrite Horder|]. split; [now rewrite Horder|].
  split; [now rewrite Horder|]. split; [now rewrite Horder|].
  split; [now rewrite Horder|]. split; [now rewrite Horder|]. split.
  - intros Hnone. rewrite Horder, Hnone. reflexivity.
  - intros Hkey.
    rewrite (getOrder_of_order db' order); [reflexivity| |].
    + unfold order_ids. rewrite Horders, map_app. cbn.
      apply NoDup_app; [exact Hkey|repeat constructor; auto|].
      intros k Hk [<-|[]]. contradiction.
    + rewrite Horders. apply in_or_app. right. now left.
Qed.

Lemma order_header_comes_from_request_witness :
  let body :=
    mkOrderBody None (Some "Ada") (Some "ada@example.org")
                (Some "1 Main St") (Some "Springfield") (Some "12345")
                (Some (Sample.usd 7497)) (Some "completed")
                (Some [Sample.line 1 3 (Sample.usd 2499)]) in
  option_map (fun ow => o_status (ow_order ow))
             (getOrder 1 (snd (post_api_orders "s1" 100 body Sample.shopping)))
  = Some "completed".
Proof.
  intros body.
  destruct (order_header_comes_from_request "s1" 100 body Sample.shopping
              (mkOrder 1 "Ada" "ada@example.org" "1 Main St" "Springfield"
                       "12345" 7497 "completed" 100 100)
              (snd (post_api_orders "s1" 100 body Sample.shopping)) eq_refl)
    as (_ & _ & _ & _ & _ & _ & _ & Hread).
  cbn [o_id] in Hread. specialize (Hread (NoDup_nil _)).
  destruct (getOrder 1 (snd (post_api_orders "s1" 100 body Sample.shopping)))
    as [ow|]; [|discriminate Hread].
  cbn in Hread. injection Hread as Hheader. cbn. now rewrite Hheader.
Defined.

(* ------------------------------------------------------------------ *)
(** ** Changing an order's status *)


Section StatusChange.

Variable jwt_verify : string -> bool.


End StatusChange.

